(** * nvim-dap-ghidra-sync: the GOTO server scripts

    A shallow embedding of [ghidra_start_goto_server.py] and
    [ghidra_stop_goto_server.py], and the properties of the request handler,
    the address parser and the service life cycle.

    Layout: the Python runtime primitives the scripts call ([Py], [PyLib])
    and what is left open of them ([Runtime]), the asyncio stream reader
    ([Asyncio]), the classes [DAPGhidraServer] and [VirtualModule], the
    interpreter with its objects and threads ([Interpreter]), the two
    scripts ([Scripts]), a runtime and connections for the examples, the
    vocabulary of the properties ([Spec]); then the theorems: the handler
    and the address parser, the life cycle, each followed by its examples. *)

From Stdlib Require Import ZArith NArith QArith List Bool Lia Lqa.
From Stdlib Require Import Strings.String Strings.Ascii Strings.Byte.
From Stdlib Require Import Floats.SpecFloat.
From stdpp Require Import gmap list strings.
Import ListNotations.

Set Warnings "-register-all".
Set Default Proof Using "Type".

(** ** The constants of the scripts *)

Definition HOST : string := "127.0.0.1".
Definition PORT : N := 18888.
Definition LOG_FILE : string := "/tmp/dap-ghidra-server.log".
Definition MODULE_NAME : string := "__dap_ghidra_server__".

(** ** Python runtime primitives *)

Module Py.

Local Open Scope N_scope.

(** A [str] is a sequence of Unicode code points, [bytes] a sequence of
    octets. *)
Definition str := list N.
Definition bytes := list byte.

(** An ASCII literal of the source. *)
Definition lit (s : string) : str := map Byte.to_N (list_byte_of_string s).

Definition blit (s : string) : bytes := list_byte_of_string s.

Arguments lit s%_string.
Arguments blit s%_string.

Definition CRLF : bytes := [x0d; x0a].

(** A literal between double quotes. *)
Definition quoted (s : string) : bytes := x22 :: blit s ++ [x22].
Arguments quoted s%_string.

(** Exceptions: the class decides which [except] clause catches, [exn_str] is
    what [str(e)] and an f-string show. *)
Inductive ExnClass :=
| ValueError
| UnicodeDecodeError
| UnicodeEncodeError
| JSONDecodeError
| AttributeError
| OtherException (name : string).

Record Exn := mkExn { exn_class : ExnClass; exn_str : str }.

(** [isinstance(e, ValueError)]: the codec and JSON errors derive from it. *)
Definition is_ValueError (e : Exn) : bool :=
  match exn_class e with
  | ValueError | UnicodeDecodeError | UnicodeEncodeError
  | JSONDecodeError => true
  | AttributeError | OtherException _ => false
  end.

Inductive Outcome (A : Type) :=
| Ok (a : A)
| Raise (e : Exn).
Arguments Ok {A} a.
Arguments Raise {A} e.

(** The values [json.loads] builds. *)
Inductive Value :=
| VNone
| VBool (b : bool)
| VInt (z : Z)
| VFloat (f : spec_float)
| VStr (s : str)
| VList (l : list Value)
| VDict (d : gmap str Value).

Definition type_name (v : Value) : string :=
  match v with
  | VNone => "NoneType"
  | VBool _ => "bool"
  | VInt _ => "int"
  | VFloat _ => "float"
  | VStr _ => "str"
  | VList _ => "list"
  | VDict _ => "dict"
  end%string.

(** [if v:] *)
Definition truthy (v : Value) : bool :=
  match v with
  | VNone => false
  | VBool b => b
  | VInt z => negb (z =? 0)%Z
  | VFloat (S754_zero _) => false
  | VFloat _ => true
  | VStr s => match s with [] => false | _ => true end
  | VList l => match l with [] => false | _ => true end
  | VDict d => negb (bool_decide (size d = 0%nat))
  end.

(** Looking up an attribute the type does not have. *)
Definition no_attribute (v : Value) (attr : string) : Exn :=
  mkExn AttributeError
    (lit "'" ++ lit (type_name v) ++ lit "' object has no attribute '"
       ++ lit attr ++ lit "'").

(** *** str methods *)

(** [Py_UNICODE_ISSPACE] *)
Definition isspace (c : N) : bool :=
  ((0x09 <=? c) && (c <=? 0x0D)) || ((0x1C <=? c) && (c <=? 0x20))
  || (c =? 0x85) || (c =? 0xA0) || (c =? 0x1680)
  || ((0x2000 <=? c) && (c <=? 0x200A))
  || (c =? 0x2028) || (c =? 0x2029) || (c =? 0x202F) || (c =? 0x205F)
  || (c =? 0x3000).

Fixpoint skip (p : N -> bool) (s : str) : str :=
  match s with
  | c :: s' => if p c then skip p s' else s
  | [] => []
  end.

Definition lstrip (s : str) : str := skip isspace s.
Definition rstrip (s : str) : str := rev (skip isspace (rev s)).
Definition strip (s : str) : str := rstrip (lstrip s).

Fixpoint startswith (s prefix : str) {struct prefix} : bool :=
  match prefix, s with
  | [], _ => true
  | p :: prefix', c :: s' => (c =? p) && startswith s' prefix'
  | _ :: _, [] => false
  end.

(** [ch in s] *)
Definition contains (ch : N) (s : str) : bool := existsb (N.eqb ch) s.

(** [s.split(ch, 1)] for an [s] that contains [ch]: the text before the first
    [ch] and the text after it. *)
Fixpoint split1 (ch : N) (s : str) : str * str :=
  match s with
  | [] => ([], [])
  | c :: s' =>
      if c =? ch then ([], s')
      else let '(k, v) := split1 ch s' in (c :: k, v)
  end.

Definition isascii (s : str) : bool := forallb (fun c => c <? 128) s.

Definition ascii_lower (c : N) : N :=
  if (65 <=? c) && (c <=? 90) then c + 32 else c.

(** *** int(text, base) on an ASCII text: [PyLong_FromString] *)

(** [_PyLong_DigitValue] *)
Definition digit_value (c : N) : option N :=
  if (48 <=? c) && (c <=? 57) then Some (c - 48)
  else if (97 <=? c) && (c <=? 122) then Some (c - 87)
  else if (65 <=? c) && (c <=? 90) then Some (c - 55)
  else None.

(** [Py_ISSPACE] *)
Definition c_isspace (c : N) : bool := (c =? 32) || ((9 <=? c) && (c <=? 13)).

(** The digit scan: digits below [base], single underscores between them.
    [prev_us] says that the previous character was an underscore; the result
    is the digits read (most significant first) and the unread text, or
    [None] for a doubled or trailing underscore. *)
Fixpoint scan_digits (base : N) (prev_us : bool) (acc : list N) (s : str)
  : option (list N * str) :=
  match s with
  | c :: s' =>
      if c =? 95 then
        if prev_us then None else scan_digits base true acc s'
      else
        match digit_value c with
        | Some d =>
            if d <? base then scan_digits base false (d :: acc) s'
            else if prev_us then None else Some (rev acc, s)
        | None => if prev_us then None else Some (rev acc, s)
        end
  | [] => if prev_us then None else Some (rev acc, [])
  end.

Definition digits_value (base : N) (ds : list N) : N :=
  fold_left (fun acc d => acc * base + d) ds 0.

Definition is_power_of_two (base : N) : bool := N.land base (base - 1) =? 0.

Definition skip_sign (s : str) : bool * str :=
  match s with
  | c :: t =>
      if c =? 43 then (false, t)
      else if c =? 45 then (true, t)
      else (false, s)
  | [] => (false, [])
  end.

(** The prefix of the base, [0x], [0o] or [0b] in either case, and one
    underscore after it. *)
Definition skip_prefix (base : N) (s : str) : str :=
  match s with
  | c0 :: c1 :: t =>
      if (c0 =? 48)
         && (((base =? 16) && ((c1 =? 120) || (c1 =? 88)))
             || ((base =? 8) && ((c1 =? 111) || (c1 =? 79)))
             || ((base =? 2) && ((c1 =? 98) || (c1 =? 66))))
      then
        match t with
        | c2 :: t' => if c2 =? 95 then t' else t
        | [] => []
        end
      else s
  | _ => s
  end.

Definition leading_underscore (s : str) : bool :=
  match s with
  | c :: _ => c =? 95
  | [] => false
  end.

(** [int] with an explicit base from 2 to 36. [None] is [ValueError].
    [max_str_digits] is [sys.get_int_max_str_digits()], 0 for no limit; the
    bases that are powers of two are exempt from it. *)
Definition long_from_string (max_str_digits : N) (base : N) (s : str)
  : option Z :=
  let '(negative, s) := skip_sign (skip c_isspace s) in
  let s := skip_prefix base s in
  if leading_underscore s then None
  else
    match scan_digits base false [] s with
    | None => None
    | Some (ds, rest) =>
        if negb (is_power_of_two base) && (0 <? max_str_digits)
           && (max_str_digits <? N.of_nat (length ds)) then None
        else
          match ds, skip c_isspace rest with
          | _ :: _, [] =>
              let v := Z.of_N (digits_value base ds) in
              Some (if negative then (- v)%Z else v)
          | _, _ => None
          end
    end.

(** *** UTF-8 *)

Definition is_cont (b : N) : bool := (0x80 <=? b) && (b <=? 0xBF).

Definition between (lo hi b : N) : bool := (lo <=? b) && (b <=? hi).

(** The strict decoder: shortest forms only, no surrogates, nothing above
    U+10FFFF. [None] is [UnicodeDecodeError]. *)
Fixpoint utf8_decode (bs : list N) : option str :=
  match bs with
  | [] => Some []
  | b0 :: t0 =>
      if b0 <? 0x80 then cons b0 <$> utf8_decode t0
      else
        match t0 with
        | [] => None
        | b1 :: t1 =>
            if between 0xC2 0xDF b0 then
              if is_cont b1
              then cons ((b0 - 0xC0) * 64 + (b1 - 0x80)) <$> utf8_decode t1
              else None
            else
              match t1 with
              | [] => None
              | b2 :: t2 =>
                  if between 0xE0 0xEF b0 then
                    if (if b0 =? 0xE0 then between 0xA0 0xBF b1
                        else if b0 =? 0xED then between 0x80 0x9F b1
                        else is_cont b1) && is_cont b2
                    then cons ((b0 - 0xE0) * 4096 + (b1 - 0x80) * 64
                               + (b2 - 0x80)) <$> utf8_decode t2
                    else None
                  else
                    match t2 with
                    | [] => None
                    | b3 :: t3 =>
                        if between 0xF0 0xF4 b0
                           && (if b0 =? 0xF0 then between 0x90 0xBF b1
                               else if b0 =? 0xF4 then between 0x80 0x8F b1
                               else is_cont b1)
                           && is_cont b2 && is_cont b3
                        then cons ((b0 - 0xF0) * 262144 + (b1 - 0x80) * 4096
                                   + (b2 - 0x80) * 64 + (b3 - 0x80))
                               <$> utf8_decode t3
                        else None
                    end
              end
        end
  end.

(** [b.decode('utf-8')] *)
Definition decode (b : bytes) : option str := utf8_decode (map Byte.to_N b).

Definition utf8_encode_cp (c : N) : option (list N) :=
  if c <? 0x80 then Some [c]
  else if c <? 0x800 then Some [0xC0 + c / 64; 0x80 + c mod 64]
  else if between 0xD800 0xDFFF c then None
  else if c <? 0x10000 then
    Some [0xE0 + c / 4096; 0x80 + (c / 64) mod 64; 0x80 + c mod 64]
  else if c <? 0x110000 then
    Some [0xF0 + c / 262144; 0x80 + (c / 4096) mod 64;
          0x80 + (c / 64) mod 64; 0x80 + c mod 64]
  else None.

(** [s.encode()]; [None] is [UnicodeEncodeError]. *)
Fixpoint encode (s : str) : option bytes :=
  match s with
  | [] => Some []
  | c :: s' =>
      match utf8_encode_cp c with
      | Some us =>
          match mapM Byte.of_N us, encode s' with
          | Some bs, Some rest => Some (bs ++ rest)
          | _, _ => None
          end
      | None => None
      end
  end.

(** *** Formatting *)

Fixpoint uint_digits (u : Decimal.uint) : str :=
  match u with
  | Decimal.Nil => []
  | Decimal.D0 u' => 48 :: uint_digits u'
  | Decimal.D1 u' => 49 :: uint_digits u'
  | Decimal.D2 u' => 50 :: uint_digits u'
  | Decimal.D3 u' => 51 :: uint_digits u'
  | Decimal.D4 u' => 52 :: uint_digits u'
  | Decimal.D5 u' => 53 :: uint_digits u'
  | Decimal.D6 u' => 54 :: uint_digits u'
  | Decimal.D7 u' => 55 :: uint_digits u'
  | Decimal.D8 u' => 56 :: uint_digits u'
  | Decimal.D9 u' => 57 :: uint_digits u'
  end.

(** [str(n)] for a natural number. *)
Definition str_of_N (n : N) : str := uint_digits (N.to_uint n).
Definition str_of_nat (n : nat) : str := str_of_N (N.of_nat n).

Definition hex_digit (d : N) : N := if d <? 10 then 48 + d else 87 + d.

(** ['{0:04x}'.format(n)] for [n] below 65536. *)
Definition hex4 (n : N) : str :=
  [hex_digit (n / 4096); hex_digit ((n / 256) mod 16);
   hex_digit ((n / 16) mod 16); hex_digit (n mod 16)].

Definition backslash_u (n : N) : str := 92 :: 117 :: hex4 n.

(** One character of [json.dumps] with [ensure_ascii]: the printable ASCII
    characters stand for themselves, but for the quote and the backslash. *)
Definition json_escape_char (c : N) : str :=
  if c =? 34 then [92; 34]
  else if c =? 92 then [92; 92]
  else if between 32 126 c then [c]
  else if c =? 10 then [92; 110]
  else if c =? 13 then [92; 114]
  else if c =? 9 then [92; 116]
  else if c =? 12 then [92; 102]
  else if c =? 8 then [92; 98]
  else if c <? 0x10000 then backslash_u c
  else
    let v := c - 0x10000 in
    backslash_u (N.lor 0xD800 (N.land (N.shiftr v 10) 0x3FF))
      ++ backslash_u (N.lor 0xDC00 (N.land v 0x3FF)).

Definition json_dumps_str (s : str) : str :=
  34 :: flat_map json_escape_char s ++ [34].

(** [json.dumps({"error": msg})] *)
Definition json_dumps_error (msg : str) : str :=
  [123] ++ json_dumps_str (lit "error") ++ lit ": " ++ json_dumps_str msg
    ++ [125].

End Py.

(** What the scripts take from the interpreter and its libraries and this
    development leaves open: the JSON parser, the Unicode tables behind
    [str.lower] and [int] (consulted for texts that are not ASCII only), the
    digit limit of [int], the texts of library exceptions, whether Swing
    accepts a posted command, and the error of binding a port in use. *)
Class Runtime := {
  json_loads : Py.str -> Py.Outcome Py.Value;
  lower_nonascii : Py.str -> Py.str;
  int_nonascii : N -> Py.str -> option Z;
  int_max_str_digits : N;
  int_error_str : N -> Py.str -> Py.str;
  decode_error_str : Py.bytes -> Py.str;
  encode_error_str : Py.str -> Py.str;
  invokeLater_error : option Py.Exn;
  address_in_use : Py.Exn
}.

Module PyLib.
Import Py.
Section WithRuntime.
Context {rt : Runtime}.

(** [s.lower()] *)
Definition lower (s : str) : str :=
  if isascii s then map ascii_lower s else lower_nonascii s.

(** [int(s, base)] on a str *)
Definition int_of_str (base : N) (s : str) : Outcome Z :=
  match (if isascii s then long_from_string int_max_str_digits base s
         else int_nonascii base s) with
  | Some z => Ok z
  | None => Raise (mkExn ValueError (int_error_str base s))
  end.

(** [b.decode('utf-8')] *)
Definition bytes_decode (b : bytes) : Outcome str :=
  match decode b with
  | Some s => Ok s
  | None => Raise (mkExn UnicodeDecodeError (decode_error_str b))
  end.

(** [s.encode()] *)
Definition str_encode (s : str) : Outcome bytes :=
  match encode s with
  | Some b => Ok b
  | None => Raise (mkExn UnicodeEncodeError (encode_error_str s))
  end.

End WithRuntime.
End PyLib.

(** ** The asyncio stream of one connection *)

Module Asyncio.
Import Py.

(** [_buffer] holds the octets received and not yet read; [incoming] are the
    segments the transport still delivers, in order, before the end of file.
    A read that has to wait takes the next segment. The peer sends finitely
    many segments and then closes its side; a transport that fails or a
    peer that stays silent for ever is outside the model. *)
Record StreamReader := mkReader {
  _buffer : bytes;
  incoming : list bytes
}.

(** [asyncio.start_server] leaves the stream limit at its default. *)
Definition _limit : N := 65536.

Fixpoint find_newline (b : bytes) : option nat :=
  match b with
  | [] => None
  | c :: b' => if Byte.eqb c x0a then Some 0 else S <$> find_newline b'
  end.

Definition limit_found : Exn :=
  mkExn ValueError (lit "Separator is found, but chunk is longer than limit").
Definition limit_not_found : Exn :=
  mkExn ValueError (lit "Separator is not found, and chunk exceed the limit").

(** [readline] on the buffer [buf] with [segments] still to come: the line
    with its newline; at the end of file what is left; [ValueError] when the
    line without its newline is longer than the limit. *)
Fixpoint readline_from (buf : bytes) (segments : list bytes)
  : Outcome bytes * StreamReader :=
  match find_newline buf with
  | Some isep =>
      if (_limit <? N.of_nat isep)%N
      then (Raise limit_found, mkReader (drop (S isep) buf) segments)
      else (Ok (take (S isep) buf), mkReader (drop (S isep) buf) segments)
  | None =>
      if (_limit <? N.of_nat (length buf))%N
      then (Raise limit_not_found, mkReader [] segments)
      else
        match segments with
        | [] => (Ok buf, mkReader [] [])
        | seg :: segments' => readline_from (buf ++ seg) segments'
        end
  end.

Definition readline (r : StreamReader) : Outcome bytes * StreamReader :=
  readline_from (_buffer r) (incoming r).

(** The wait of [read] on an empty buffer: the next segment that is not
    empty, or the end of file. *)
Fixpoint wait_for_data (segments : list bytes) : StreamReader :=
  match segments with
  | [] => mkReader [] []
  | seg :: segments' =>
      match seg with
      | [] => wait_for_data segments'
      | _ :: _ => mkReader seg segments'
      end
  end.

(** [read(n)]: nothing for 0, everything up to the end of file for a
    negative [n], otherwise at most [n] octets of what the buffer holds,
    after one wait when it holds nothing. *)
Definition read (n : Z) (r : StreamReader) : bytes * StreamReader :=
  if (n =? 0)%Z then ([], r)
  else if (n <? 0)%Z then (_buffer r ++ concat (incoming r), mkReader [] [])
  else
    let r' := match _buffer r with
              | [] => wait_for_data (incoming r)
              | _ :: _ => r
              end in
    (take (Z.to_nat n) (_buffer r'),
     mkReader (drop (Z.to_nat n) (_buffer r')) (incoming r')).

(** The octets still to be read. *)
Definition remaining (r : StreamReader) : nat :=
  length (_buffer r) + length (concat (incoming r)).

End Asyncio.

(** ** Logging and the Ghidra host *)

Module Logging.
Import Py.

Inductive Level := DEBUG | INFO | WARNING | ERROR.

Record LogRecord := mkLog { levelname : Level; message : str }.

End Logging.

Module Ghidra.
Import Py Logging.

Record Address := mkAddress { toString : str }.

(** [GoToService.goTo] *)
Record GoToService := mkGoTo { goTo : Address -> Outcome unit }.

(** [tool.getService(GoToService)] *)
Record Tool := mkTool { getService : option GoToService }.

(** [program.getAddressFactory().getDefaultAddressSpace().getAddress(n)] *)
Record Program := mkProgram { getAddress : Z -> Outcome (option Address) }.

(** The script globals [currentProgram] and [state.getTool()] at the moment
    the Swing thread runs a command. *)
Record Host := mkHost {
  currentProgram : option Program;
  getTool : option Tool
}.

(** The closure [navigate] handed to [SwingUtilities.invokeLater]: what it
    captured. *)
Record Command := mkCommand {
  address_value : Z;
  address_text : str
}.

End Ghidra.

(** ** class DAPGhidraServer *)

Module DAPGhidraServer.
Import Py PyLib Asyncio Logging Ghidra.

(** What one run of [handle_client] works on: the stream it reads, the octets
    handed to the writer, whether the writer was closed, the records given to
    the logger and the commands posted to the Swing thread. *)
Record Task := mkTask {
  reader : StreamReader;
  sent : bytes;
  closed : bool;
  records : list LogRecord;
  posted : list Command
}.

(** A step returns a value or raises, in a new state; [None] is a loop that
    ran out of fuel. *)
Definition M (A : Type) : Type := Task -> option (Outcome A * Task).

Definition ret {A} (a : A) : M A := fun t => Some (Ok a, t).

Definition raise {A} (e : Exn) : M A := fun t => Some (Raise e, t).

Definition bind {A B} (m : M A) (k : A -> M B) : M B :=
  fun t =>
    match m t with
    | Some (Ok a, t') => k a t'
    | Some (Raise e, t') => Some (Raise e, t')
    | None => None
    end.

Notation "'let*' x := m 'in' k" := (bind m (fun x => k))
  (at level 10, x name, m at level 100, k at level 200).
Notation "'do' m 'then' k" := (bind m (fun _ => k))
  (at level 10, m at level 100, k at level 200).

Definition lift {A} (o : Outcome A) : M A := fun t => Some (o, t).

(** [try: m  except Exception as e: handler e] *)
Definition try_except {A} (m : M A) (handler : Exn -> M A) : M A :=
  fun t =>
    match m t with
    | Some (Raise e, t') => handler e t'
    | r => r
    end.

(** [try: m  finally: cleanup] *)
Definition try_finally {A} (m : M A) (cleanup : M unit) : M A :=
  fun t =>
    match m t with
    | Some (o, t') =>
        match cleanup t' with
        | Some (Ok _, t'') => Some (o, t'')
        | Some (Raise e, t'') => Some (Raise e, t'')
        | None => None
        end
    | None => None
    end.

Definition logger (lvl : Level) (msg : str) : M unit :=
  fun t =>
    Some (Ok tt, mkTask (reader t) (sent t) (closed t)
                   (records t ++ [mkLog lvl msg]) (posted t)).

Definition reader_readline : M bytes :=
  fun t =>
    let '(o, r) := readline (reader t) in
    Some (o, mkTask r (sent t) (closed t) (records t) (posted t)).

Definition reader_read (n : Z) : M bytes :=
  fun t =>
    let '(b, r) := read n (reader t) in
    Some (Ok b, mkTask r (sent t) (closed t) (records t) (posted t)).

Definition writer_write (data : bytes) : M unit :=
  fun t =>
    Some (Ok tt, mkTask (reader t) (sent t ++ data) (closed t) (records t)
                   (posted t)).

Definition writer_drain : M unit := ret tt.

Definition writer_close : M unit :=
  fun t =>
    Some (Ok tt, mkTask (reader t) (sent t) true (records t) (posted t)).

Definition writer_wait_closed : M unit := ret tt.

Section WithRuntime.
Context {rt : Runtime}.

(** [SwingUtilities.invokeLater(navigate)] *)
Definition invokeLater (c : Command) : M unit :=
  fun t =>
    match invokeLater_error with
    | Some e => Some (Raise e, t)
    | None =>
        Some (Ok tt, mkTask (reader t) (sent t) (closed t) (records t)
                       (posted t ++ [c]))
    end.

(** Lines 59-63 of [goto_address] on a str: trim, drop the prefix, parse in
    base 16; the text as it stands when [int] is called, and the outcome. *)
Definition address_of (address_str : str) : str * Outcome Z :=
  let address_str := strip address_str in
  let address_str :=
    if startswith address_str (lit "0x") || startswith address_str (lit "0X")
    then drop 2 address_str
    else address_str in
  (address_str, int_of_str 16 address_str).

(** [goto_address]. The argument is whatever the JSON body held under
    "address". A value that is no str fails at [.strip()]; that and every
    failure after it end in one of the two [except] clauses, which see
    [address_str] as last assigned. *)
Definition goto_address (address_str : Value) : M unit :=
  match address_str with
  | VStr s =>
      let '(address_str, parsed) := address_of s in
      try_except
        (let* address_value := lift parsed in
         invokeLater (mkCommand address_value address_str))
        (fun e =>
           if is_ValueError e
           then logger ERROR (lit "Invalid address format: " ++ address_str)
           else logger ERROR (lit "Address parsing error: " ++ exn_str e))
  | v =>
      logger ERROR
        (lit "Address parsing error: " ++ exn_str (no_attribute v "strip"))
  end.

(** The header loop, lines 107-114. *)
Fixpoint read_headers (fuel : nat) (headers : gmap str str)
  : M (gmap str str) :=
  match fuel with
  | O => fun _ => None
  | S fuel' =>
      let* line := reader_readline in
      let* line := lift (bytes_decode line) in
      let line := strip line in
      match line with
      | [] => ret headers
      | _ :: _ =>
          if contains 58 line then
            let '(key, value) := split1 58 line in
            read_headers fuel' (<[lower (strip key) := strip value]> headers)
          else read_headers fuel' headers
      end
  end.

(** [data.get('address', '')] *)
Definition get_address (data : Value) : Outcome Value :=
  match data with
  | VDict d => Ok (default (VStr []) (d !! lit "address"))
  | v => Raise (no_attribute v "get")
  end.

(** [f'HTTP/1.1 {status}\r\nContent-Type: application/json\r\n
       Content-Length: {len(response_body)}\r\n\r\n'] *)
Definition response_head (status : str) (response_body : bytes) : str :=
  lit "HTTP/1.1 " ++ status ++ [13; 10]%N
    ++ lit "Content-Type: application/json" ++ [13; 10]%N
    ++ lit "Content-Length: " ++ str_of_nat (length response_body)
    ++ [13; 10; 13; 10]%N.

Definition write_response (status : str) (response_body : bytes) : M unit :=
  let* response := lift (str_encode (response_head status response_body)) in
  writer_write (response ++ response_body).

Definition not_found : bytes :=
  blit "HTTP/1.1 404 Not Found" ++ CRLF ++ blit "Content-Length: 0" ++ CRLF
    ++ CRLF.

(** [b'{"status":"ok"}'] and [b'{"error":"no address provided"}'] *)
Definition status_ok : bytes :=
  blit "{" ++ quoted "status" ++ blit ":" ++ quoted "ok" ++ blit "}".

Definition no_address_provided : bytes :=
  blit "{" ++ quoted "error" ++ blit ":" ++ quoted "no address provided"
    ++ blit "}".

(** Lines 125-143: the inner [try] on the body read. *)
Definition respond (body : bytes) : M unit :=
  try_except
    (let* text := lift (bytes_decode body) in
     let* data := lift (json_loads text) in
     let* address_str := lift (get_address data) in
     if truthy address_str then
       do goto_address address_str then
       write_response (lit "200 OK") status_ok
     else
       write_response (lit "400 Bad Request") no_address_provided)
    (fun e =>
       do logger ERROR (lit "Error handling request: " ++ exn_str e) then
       let* response_body := lift (str_encode (json_dumps_error (exn_str e))) in
       write_response (lit "500 Internal Server Error") response_body).

(** Lines 103-114: the request line and the headers. *)
Definition read_head : M (str * gmap str str) :=
  let* request_line := reader_readline in
  let* request_line := lift (bytes_decode request_line) in
  let request_line := strip request_line in
  let* headers :=
    (fun t => read_headers (S (remaining (reader t))) ∅ t) in
  ret (request_line, headers).

(** Lines 122-123: [int(headers.get('content-length', 0))], then one
    [reader.read]. *)
Definition content_length (headers : gmap str str) : Outcome Z :=
  match headers !! lit "content-length" with
  | Some text => int_of_str 10 text
  | None => Ok 0%Z
  end.

Definition read_body (headers : gmap str str) : M bytes :=
  let* n := lift (content_length headers) in
  reader_read n.

(** Lines 103-145: the body of the outer [try]. *)
Definition serve : M unit :=
  let* head := read_head in
  let '(request_line, headers) := head in
  if negb (startswith request_line (lit "POST /goto")) then
    do writer_write not_found then
    writer_drain
  else
    let* body := read_body headers in
    do respond body then
    writer_drain.

Definition connection (r : StreamReader) : Task := mkTask r [] false [] [].

(** [handle_client] on the stream of one connection: the task as it is left.
    One request is served, the writer is closed whatever happened. *)
Definition handle_client (r : StreamReader) : option Task :=
  match
    try_finally
      (try_except serve
         (fun e => logger ERROR (lit "Client handler error: " ++ exn_str e)))
      (do writer_close then writer_wait_closed)
      (connection r)
  with
  | Some (_, t) => Some t
  | None => None
  end.

(** The command a posted [navigate] runs on the Swing thread, lines 65-90:
    the records it logs and the address the listing is sent to. *)
Definition navigate (h : Host) (c : Command)
  : list LogRecord * option Address :=
  match currentProgram h with
  | None => ([mkLog WARNING (lit "No program loaded")], None)
  | Some program =>
      match getAddress program (address_value c) with
      | Raise e =>
          ([mkLog ERROR (lit "Navigation error: " ++ exn_str e)], None)
      | Ok None =>
          ([mkLog WARNING (lit "Invalid address: 0x" ++ address_text c)],
           None)
      | Ok (Some address) =>
          match getTool h with
          | None => ([mkLog WARNING (lit "Tool not available")], None)
          | Some tool =>
              match getService tool with
              | None =>
                  ([mkLog WARNING (lit "GoToService not available")], None)
              | Some goto_service =>
                  match goTo goto_service address with
                  | Ok _ =>
                      ([mkLog INFO
                          (lit "Navigated to: " ++ toString address)],
                       Some address)
                  | Raise e =>
                      ([mkLog ERROR (lit "Navigation error: " ++ exn_str e)],
                       None)
                  end
              end
          end
      end
  end.

End WithRuntime.

(** The fields of the object: [server] is the [asyncio.Server], [Some true]
    while it listens and [Some false] once closed; [running]. *)
Record t := mkServer {
  server : option bool;
  running : bool
}.

Definition __init__ : t := mkServer None false.

(** [start]; [bound] is how [asyncio.start_server] ends. *)
Definition start (bound : Outcome unit) (self : t) : t * list LogRecord :=
  if running self then
    (self, [mkLog WARNING (lit "Server already running")])
  else
    match bound with
    | Ok _ =>
        (mkServer (Some true) true,
         [mkLog INFO (repeat 61%N 60);
          mkLog INFO (lit "DAP-Ghidra Sync Server Started");
          mkLog INFO (lit "Listening on " ++ lit HOST ++ lit ":"
                        ++ str_of_N PORT);
          mkLog INFO (lit "Logging to: " ++ lit LOG_FILE);
          mkLog INFO (repeat 61%N 60)])
    | Raise e =>
        (mkServer (server self) false,
         [mkLog ERROR (lit "Failed to start server: " ++ exn_str e)])
    end.

(** [stop]: closing a server and waiting for it do not fail here. *)
Definition stop (self : t) : t * list LogRecord :=
  if negb (running self) then (self, [])
  else
    (mkServer (match server self with
               | Some _ => Some false
               | None => None
               end) false,
     [mkLog INFO (lit "Server stopped")]).

End DAPGhidraServer.

(** ** class VirtualModule

    An object and the thread [start_server] creates for it. The scripts
    start an object once, when it is fresh (line 268), and the model keeps
    one thread for an object. The thread advances in steps: the first lines
    of [run_event_loop], the task [server.start()], one turn of [alive_task],
    the callback [stop_event.set], and the rest of [wait_for_stop] together
    with the end of [run_event_loop]. Each step is atomic, and the task
    [server.start()], created first, has run when [wait_for_stop] is
    resumed. *)

Module VirtualModule.
Import Py Logging.

Inductive Phase := Unstarted | Started | Looping | Exited.

(** The event loop of the thread: whether [stop_event] is set, whether a
    [stop_event.set] handed over by [call_soon_threadsafe] is still to run,
    whether the task [server.start()] is still to run, whether the task
    [wait_for_stop] is suspended in [stop_event.wait()], whether [alive_task]
    is in its loop. *)
Record Loop := mkLoop {
  event_set : bool;
  posted : bool;
  starting : bool;
  waiting : bool;
  beating : bool
}.

(** [loop], [thread] and [stop_event] say whether the field holds an object
    or [None]; [phase] and [tasks] are the thread's. *)
Record t := mkVM {
  server : DAPGhidraServer.t;
  loop : bool;
  thread : bool;
  stop_event : bool;
  phase : Phase;
  tasks : Loop
}.

Definition __init__ : t :=
  mkVM DAPGhidraServer.__init__ false false false Unstarted
    (mkLoop false false false false false).

(** [self.thread.is_alive()] *)
Definition is_alive (self : t) : bool :=
  match phase self with
  | Started | Looping => true
  | Unstarted | Exited => false
  end.

(** The listener of the object holds the port. *)
Definition listening (self : t) : bool :=
  match DAPGhidraServer.server (server self) with
  | Some true => true
  | _ => false
  end.

(** [run_event_loop], lines 217-224: the loop, the event and the three
    tasks are created; [run_forever] is entered. *)
Definition run_event_loop (self : t) : t :=
  match phase self with
  | Started =>
      mkVM (server self) true (thread self) true Looping
        (mkLoop false false true true true)
  | _ => self
  end.

(** The task [self.server.start()]. *)
Definition start_task (bound : Outcome unit) (self : t)
  : t * list LogRecord :=
  match phase self, starting (tasks self) with
  | Looping, true =>
      let '(srv, out) := DAPGhidraServer.start bound (server self) in
      (mkVM srv (loop self) (thread self) (stop_event self) Looping
         (mkLoop (event_set (tasks self)) (posted (tasks self)) false
            (waiting (tasks self)) (beating (tasks self))),
       out)
  | _, _ => (self, [])
  end.

(** One turn of [alive_task]. *)
Definition alive_task (self : t) : t * list LogRecord :=
  match phase self, beating (tasks self) with
  | Looping, true =>
      if event_set (tasks self) then
        (mkVM (server self) (loop self) (thread self) (stop_event self)
           Looping
           (mkLoop true (posted (tasks self)) (starting (tasks self))
              (waiting (tasks self)) false),
         [mkLog INFO (lit "STOPPED")])
      else (self, [mkLog DEBUG (lit "ALIVE")])
  | _, _ => (self, [])
  end.

(** The callback [stop_event.set] posted by [call_soon_threadsafe]. *)
Definition set_stop_event (self : t) : t :=
  match phase self, posted (tasks self) with
  | Looping, true =>
      mkVM (server self) (loop self) (thread self) (stop_event self) Looping
        (mkLoop true false (starting (tasks self)) (waiting (tasks self))
           (beating (tasks self)))
  | _, _ => self
  end.

(** [wait_for_stop] once the event is set, and the end of [run_event_loop].
    With [self.loop] an object: the server is stopped, [loop.stop()] ends
    [run_forever], [loop.close()] on the running loop raises inside the task
    (line 206 never runs), the [finally] closes the loop and logs, the
    thread returns. With [self.loop] set to [None] by a [stop_server] that
    gave up: the server is stopped, [self.loop.stop()] raises, the task
    ends and the loop runs on. *)
Definition wait_for_stop (self : t) : t * list LogRecord :=
  match phase self, waiting (tasks self) && event_set (tasks self)
                    && negb (starting (tasks self)) with
  | Looping, true =>
      let '(srv, out) := DAPGhidraServer.stop (server self) in
      let tasks' :=
        mkLoop true (posted (tasks self)) false false
          (beating (tasks self)) in
      if loop self then
        (mkVM srv true (thread self) (stop_event self) Exited tasks',
         out ++ [mkLog DEBUG (lit "Event loop closed")])
      else
        (mkVM srv false (thread self) (stop_event self) Looping tasks', out)
  | _, _ => (self, [])
  end.

(** [self.loop.call_soon_threadsafe(self.stop_event.set)], line 252, on an
    object whose [loop] and [stop_event] are set. *)
Definition post_stop (self : t) : t :=
  mkVM (server self) (loop self) (thread self) (stop_event self)
    (phase self)
    (mkLoop (event_set (tasks self)) true (starting (tasks self))
       (waiting (tasks self)) (beating (tasks self))).

(** [self.thread = None; self.loop = None], lines 260-261. *)
Definition release (self : t) : t :=
  mkVM (server self) false false (stop_event self) (phase self)
    (tasks self).

(** [start_server] *)
Definition start_server (self : t) : t * list LogRecord :=
  if thread self && is_alive self then
    (self, [mkLog WARNING (lit "Server already running")])
  else
    (mkVM (server self) (loop self) true (stop_event self) Started
       (tasks self),
     [mkLog INFO (lit "Server thread started")]).

End VirtualModule.

(** ** The interpreter the scripts run in *)

Module Interpreter.
Import Py Logging.

(** What [sys.modules] holds under a name: one of the [VirtualModule]
    objects, by its place in the heap, or something else, which has no
    [stop_server] and raises [missing] when asked for it. *)
Inductive ModuleObject :=
| VirtualModuleObject (id : nat)
| OtherObject (missing : Exn).

Inductive Handler :=
| FileHandler (path : string)
| StreamHandler.

(** [records] are the calls of the logger's methods, in order. *)
Record World := mkWorld {
  sys_modules : gmap string ModuleObject;
  heap : list VirtualModule.t;
  handlers : list Handler;
  level : Level;
  records : list LogRecord;
  clock : Q
}.

Definition boot : World := mkWorld ∅ [] [] WARNING [] 0%Q.

Definition emit (out : list LogRecord) (w : World) : World :=
  mkWorld (sys_modules w) (heap w) (handlers w) (level w) (records w ++ out)
    (clock w).

Definition tick (dt : Q) (w : World) : World :=
  mkWorld (sys_modules w) (heap w) (handlers w) (level w) (records w)
    (clock w + dt)%Q.

Definition set_modules (m : gmap string ModuleObject) (w : World) : World :=
  mkWorld m (heap w) (handlers w) (level w) (records w) (clock w).

Definition set_logger (hs : list Handler) (lvl : Level) (w : World)
  : World :=
  mkWorld (sys_modules w) (heap w) hs lvl (records w) (clock w).

(** A method of the object at [id] runs. *)
Definition update (id : nat)
  (f : VirtualModule.t -> VirtualModule.t * list LogRecord) (w : World)
  : World :=
  match heap w !! id with
  | Some self =>
      let '(self', out) := f self in
      mkWorld (sys_modules w) (<[id := self']> (heap w)) (handlers w)
        (level w) (records w ++ out) (clock w)
  | None => w
  end.

Definition alive (id : nat) (w : World) : bool :=
  match heap w !! id with
  | Some self => VirtualModule.is_alive self
  | None => false
  end.

(** Some listener of the heap holds the port. *)
Definition port_in_use (w : World) : bool :=
  existsb VirtualModule.listening (heap w).

Fixpoint count {A} (p : A -> bool) (l : list A) : nat :=
  match l with
  | [] => 0
  | x :: l' => (if p x then 1 else 0) + count p l'
  end.

(** The listeners that hold the port. *)
Definition listeners (w : World) : nat :=
  count VirtualModule.listening (heap w).

(** The steps of the background threads. [RunStart] carries the answer of
    the operating system to a bind of a free port. *)
Inductive Step :=
| Boot (id : nat)
| RunStart (id : nat) (bound : Outcome unit)
| Beat (id : nat)
| RunPosted (id : nat)
| RunStop (id : nat).

Section WithRuntime.
Context {rt : Runtime}.

Definition background (s : Step) (w : World) : World :=
  match s with
  | Boot id => update id (fun self => (VirtualModule.run_event_loop self, [])) w
  | RunStart id bound =>
      update id
        (VirtualModule.start_task
           (if port_in_use w then Raise address_in_use else bound)) w
  | Beat id => update id VirtualModule.alive_task w
  | RunPosted id =>
      update id (fun self => (VirtualModule.set_stop_event self, [])) w
  | RunStop id => update id VirtualModule.wait_for_stop w
  end.

(** [thread.join(timeout)]: the caller waits while the threads take the
    steps of [during], each after the given delay, until the thread of [id]
    has returned or the next step would come after the deadline. *)
Fixpoint join (id : nat) (timeout : Q) (during : list (Q * Step))
  (w : World) : World :=
  if negb (alive id w) then w
  else
    match during with
    | [] => tick timeout w
    | (dt, s) :: during' =>
        let dt := if Qle_bool 0 dt then dt else 0%Q in
        if Qle_bool dt timeout
        then join id (timeout - dt)%Q during' (background s (tick dt w))
        else tick timeout w
    end.

(** What [stop_server] reports after the wait. *)
Definition stop_report (still_alive : bool) : LogRecord :=
  if still_alive
  then mkLog WARNING (lit "Thread did not stop cleanly")
  else mkLog INFO (lit "Server thread stopped").

(** [VirtualModule.stop_server] on the object at [id]. *)
Definition stop_server (id : nat) (during : list (Q * Step)) (w : World)
  : Outcome unit * World :=
  match heap w !! id with
  | None => (Ok tt, w)
  | Some self =>
      if negb (VirtualModule.thread self)
         || negb (VirtualModule.is_alive self)
      then (Ok tt, emit [mkLog WARNING (lit "Server not running")] w)
      else
        let w := emit [mkLog INFO (lit "Stopping server...")] w in
        if negb (VirtualModule.loop self)
        then (Raise (no_attribute VNone "call_soon_threadsafe"), w)
        else if negb (VirtualModule.stop_event self)
        then (Raise (no_attribute VNone "set"), w)
        else
          let w :=
            update id (fun self => (VirtualModule.post_stop self, [])) w in
          let w := join id 5%Q during w in
          let w := emit [stop_report (alive id w)] w in
          (Ok tt, update id (fun self => (VirtualModule.release self, [])) w)
  end.

End WithRuntime.
End Interpreter.

(** ** The two scripts *)

Module Scripts.
Import Py Logging Interpreter.

Section WithRuntime.
Context {rt : Runtime}.

(** Lines 263-269 of the start script: a new object is registered and
    started. *)
Definition register_and_start (w : World) : World :=
  let id := length (heap w) in
  let w :=
    mkWorld (<[MODULE_NAME := VirtualModuleObject id]> (sys_modules w))
      (heap w ++ [VirtualModule.__init__]) (handlers w) (level w)
      (records w) (clock w) in
  let w := update id VirtualModule.start_server w in
  emit [mkLog INFO (lit "DAP-Ghidra sync plugin loaded successfully")] w.

(** Lines 32-49 of the start script: the previous instance is stopped and
    its entry deleted, or, on the first run, the logger gets its handlers. *)
Definition stop_previous (during : list (Q * Step)) (w : World)
  : Outcome unit * World :=
  match sys_modules w !! MODULE_NAME with
  | Some old_module =>
      let w :=
        emit [mkLog INFO (lit "Stopping previous server instance...")] w in
      let '(o, w) :=
        match old_module with
        | VirtualModuleObject id => stop_server id during w
        | OtherObject _ => (Ok tt, w)
        end in
      match o with
      | Ok _ => (Ok tt, set_modules (delete MODULE_NAME (sys_modules w)) w)
      | Raise e => (Raise e, w)
      end
  | None =>
      (Ok tt,
       set_logger (handlers w ++ [FileHandler LOG_FILE; StreamHandler])
         (level w) w)
  end.

(** [ghidra_start_goto_server.py]; [during] is what the threads do while
    [stop_server] waits. *)
Definition ghidra_start_goto_server (during : list (Q * Step)) (w : World)
  : Outcome unit * World :=
  let w := set_logger (handlers w) DEBUG w in
  match stop_previous during w with
  | (Ok _, w) => (Ok tt, register_and_start w)
  | (Raise e, w) => (Raise e, w)
  end.

(** [ghidra_stop_goto_server.py] *)
Definition ghidra_stop_goto_server (during : list (Q * Step)) (w : World)
  : Outcome unit * World :=
  let w :=
    match handlers w with
    | [] => set_logger [StreamHandler] INFO w
    | _ :: _ => w
    end in
  match sys_modules w !! MODULE_NAME with
  | Some (VirtualModuleObject id) => stop_server id during w
  | Some (OtherObject missing) => (Raise missing, w)
  | None =>
      (Ok tt, emit [mkLog WARNING (lit "DAP-Ghidra server not running")] w)
  end.

(** What happens in the interpreter: a run of a script or a step of a
    background thread. *)
Inductive Action :=
| StartScript (during : list (Q * Step))
| StopScript (during : list (Q * Step))
| Background (s : Step).

Definition act (w : World) (a : Action) : World :=
  match a with
  | StartScript during => snd (ghidra_start_goto_server during w)
  | StopScript during => snd (ghidra_stop_goto_server during w)
  | Background s => background s w
  end.

Definition run (actions : list Action) (w : World) : World :=
  fold_left act actions w.

End WithRuntime.
End Scripts.

(** ** A runtime for the examples

    It decodes the JSON fragment the examples use as [json.loads] does: white
    space, objects, arrays, strings without escapes, integers without
    exponent or fraction, [true], [false], [null]; every other text is a
    decoding error. Texts beyond ASCII are lowered and parsed as if they held
    no cased letter and no digit. The texts of the decoding errors are
    shortened; the text of the [ValueError] of [int] is CPython's for a text
    that [repr] shows between single quotes as it is. *)

Module Reference.
Import Py.
Local Open Scope N_scope.

Definition json_ws (c : N) : bool :=
  (c =? 32) || (c =? 9) || (c =? 10) || (c =? 13).

(** The characters of a string up to its closing quote. *)
Fixpoint scan_string (s : str) : option (str * str) :=
  match s with
  | [] => None
  | c :: s' =>
      if c =? 34 then Some ([], s')
      else if (c =? 92) || (c <? 32) then None
      else
        match scan_string s' with
        | Some (k, rest) => Some (c :: k, rest)
        | None => None
        end
  end.

Fixpoint scan_decimal (s : str) : list N * str :=
  match s with
  | c :: s' =>
      if between 48 57 c
      then let '(ds, rest) := scan_decimal s' in (c - 48 :: ds, rest)
      else ([], s)
  | [] => ([], [])
  end.

Definition scan_integer (s : str) : option (Z * str) :=
  let '(negative, s') :=
    match s with
    | 45 :: t => (true, t)
    | _ => (false, s)
    end in
  match scan_decimal s' with
  | ([], _) => None
  | (0 :: _ :: _, _) => None
  | (ds, rest) =>
      match rest with
      | 46 :: _ | 101 :: _ | 69 :: _ => None
      | _ =>
          let v := Z.of_N (digits_value 10 ds) in
          Some (if negative then (- v)%Z else v, rest)
      end
  end.

Fixpoint scan_value (fuel : nat) (s : str) : option (Value * str) :=
  match fuel with
  | O => None
  | S fuel' =>
      match skip json_ws s with
      | 34 :: t =>
          match scan_string t with
          | Some (k, rest) => Some (VStr k, rest)
          | None => None
          end
      | 123 :: t =>
          match skip json_ws t with
          | 125 :: rest => Some (VDict ∅, rest)
          | t' => scan_members fuel' ∅ t'
          end
      | 91 :: t =>
          match skip json_ws t with
          | 93 :: rest => Some (VList [], rest)
          | t' => scan_elements fuel' [] t'
          end
      | 110 :: 117 :: 108 :: 108 :: rest => Some (VNone, rest)
      | 116 :: 114 :: 117 :: 101 :: rest => Some (VBool true, rest)
      | 102 :: 97 :: 108 :: 115 :: 101 :: rest => Some (VBool false, rest)
      | t =>
          match scan_integer t with
          | Some (z, rest) => Some (VInt z, rest)
          | None => None
          end
      end
  end
with scan_members (fuel : nat) (d : gmap str Value) (s : str)
  : option (Value * str) :=
  match fuel with
  | O => None
  | S fuel' =>
      match s with
      | 34 :: t =>
          match scan_string t with
          | Some (key, rest) =>
              match skip json_ws rest with
              | 58 :: rest' =>
                  match scan_value fuel' rest' with
                  | Some (v, rest'') =>
                      match skip json_ws rest'' with
                      | 125 :: out => Some (VDict (<[key := v]> d), out)
                      | 44 :: more =>
                          scan_members fuel' (<[key := v]> d)
                            (skip json_ws more)
                      | _ => None
                      end
                  | None => None
                  end
              | _ => None
              end
          | None => None
          end
      | _ => None
      end
  end
with scan_elements (fuel : nat) (acc : list Value) (s : str)
  : option (Value * str) :=
  match fuel with
  | O => None
  | S fuel' =>
      match scan_value fuel' s with
      | Some (v, rest) =>
          match skip json_ws rest with
          | 93 :: out => Some (VList (acc ++ [v]), out)
          | 44 :: more => scan_elements fuel' (acc ++ [v]) more
          | _ => None
          end
      | None => None
      end
  end.

Definition loads (s : str) : Outcome Value :=
  match scan_value (S (length s)) s with
  | Some (v, rest) =>
      match skip json_ws rest with
      | [] => Ok v
      | _ :: _ => Raise (mkExn JSONDecodeError (lit "Extra data"))
      end
  | None => Raise (mkExn JSONDecodeError (lit "Expecting value"))
  end.

End Reference.

#[local] Instance reference_runtime : Runtime := {|
  json_loads := Reference.loads;
  lower_nonascii := fun s => s;
  int_nonascii := fun _ _ => None;
  int_max_str_digits := 4300;
  int_error_str := fun base s =>
    Py.lit "invalid literal for int() with base " ++ Py.str_of_N base
      ++ Py.lit ": '" ++ s ++ Py.lit "'";
  decode_error_str := fun _ => Py.lit "'utf-8' codec can't decode bytes";
  encode_error_str := fun _ => Py.lit "'utf-8' codec can't encode characters";
  invokeLater_error := None;
  address_in_use :=
    Py.mkExn (Py.OtherException "OSError")
      (Py.lit "[Errno 98] error while attempting to bind on address ('127.0.0.1', 18888): address already in use")
|}.

(** ** The connections of the examples *)

Module Examples.
Import Py Asyncio.

(** The octets of a request: the lines of its head, each ended by CR LF,
    the empty line, the body. *)
Definition request (head : list string) (body : bytes) : bytes :=
  concat (map (fun line => blit line ++ CRLF) head) ++ CRLF ++ body.

Definition arriving (segments : list bytes) : StreamReader :=
  mkReader [] segments.

(** [{"address":"0x1400"}] *)
Definition address_1400 : bytes :=
  blit "{" ++ quoted "address" ++ blit ":" ++ quoted "0x1400" ++ blit "}".

(** [{"address":""}] *)
Definition address_empty : bytes :=
  blit "{" ++ quoted "address" ++ blit ":" ++ quoted "" ++ blit "}".

Definition goto_1400 : StreamReader :=
  arriving
    [request ["POST /goto HTTP/1.1"; "Content-Length: 20"]%string
       address_1400].

Definition goto_empty : StreamReader :=
  arriving
    [request ["POST /goto HTTP/1.1"; "Content-Length: 14"]%string
       address_empty].


Definition goto_no_length : StreamReader :=
  arriving [request ["POST /goto HTTP/1.1"]%string address_1400].

(** The head in one segment, the body in two. *)
Definition goto_in_pieces : StreamReader :=
  arriving
    [request ["POST /goto HTTP/1.1"; "Content-Length: 20"]%string
       (blit "{" ++ quoted "address");
     blit ":" ++ quoted "0x1400" ++ blit "}"].

(** The same for the body with the empty address. *)
Definition goto_empty_in_pieces : StreamReader :=
  arriving
    [request ["POST /goto HTTP/1.1"; "Content-Length: 14"]%string
       (blit "{" ++ quoted "address");
     blit ":" ++ quoted "" ++ blit "}"].

Definition goto_malformed_length : StreamReader :=
  arriving
    [request ["POST /goto HTTP/1.1"; "Content-Length: abc"]%string
       address_1400].

Definition get_root : StreamReader :=
  arriving [request ["GET / HTTP/1.1"; "Host: localhost"]%string []].

(** A request for [/] with a header line that holds the octet FF. *)
Definition get_root_latin : StreamReader :=
  arriving
    [blit "GET / HTTP/1.1" ++ CRLF ++ blit "X-Name: " ++ [xff] ++ CRLF
       ++ CRLF].

(** [{"address":5}] *)
Definition address_number : bytes :=
  blit "{" ++ quoted "address" ++ blit ":5}".

Definition goto_number : StreamReader :=
  arriving
    [request ["POST /goto HTTP/1.1"; "Content-Length: 13"]%string
       address_number].

(** A body that is no JSON. *)
Definition goto_not_json : StreamReader :=
  arriving
    [request ["POST /goto HTTP/1.1"; "Content-Length: 4"]%string
       (blit "nope")].

(** A negative Content-Length, the body in two segments. *)
Definition goto_to_the_end : StreamReader :=
  arriving
    [request ["POST /goto HTTP/1.1"; "Content-Length: -1"]%string
       (blit "{" ++ quoted "address");
     blit ":" ++ quoted "0x1400" ++ blit "}"].

(** A longer path and a query after [POST /goto]. *)
Definition goto_with_query : StreamReader :=
  arriving
    [request ["POST /goto/now?pane=1 HTTP/1.1"; "Content-Length: 20"]%string
       address_1400].

(** A host with a program whose default address space has an address for
    every offset from 0 on, shown by its offset in decimal, and a tool that
    offers the [GoToService]. *)
Definition listing : Ghidra.Host :=
  Ghidra.mkHost
    (Some (Ghidra.mkProgram
             (fun z =>
                if (0 <=? z)%Z
                then Ok (Some (Ghidra.mkAddress (str_of_N (Z.to_N z))))
                else Ok None)))
    (Some (Ghidra.mkTool (Some (Ghidra.mkGoTo (fun _ => Ok tt))))).

End Examples.

(** ** The vocabulary of the properties *)

Module Spec.
Import Py.
Local Open Scope N_scope.

(** The hexadecimal digits: 0-9, a-f, A-F. *)
Definition hexdigit (c : N) : bool :=
  between 48 57 c || between 97 102 c || between 65 70 c.

(** The number a text of hexadecimal digits writes. *)
Definition hex_value (s : str) : N :=
  fold_left (fun acc c => acc * 16 + default 0 (digit_value c)) s 0.

(** The characters a base 16 literal of [int] is made of, and white
    space. *)
Definition address_char (c : N) : bool :=
  hexdigit c || (c =? 95) || (c =? 43) || (c =? 45) || (c =? 120)
  || (c =? 88) || isspace c.

(** A text that neither starts nor ends with white space. *)
Definition trimmed (t : str) : Prop :=
  match t with
  | [] => True
  | c :: _ => isspace c = false
  end
  /\ match rev t with
     | [] => True
     | c :: _ => isspace c = false
     end.

(** The octets of the three responses with a fixed text. *)
Definition response_404 : bytes :=
  blit "HTTP/1.1 404 Not Found" ++ CRLF ++ blit "Content-Length: 0" ++ CRLF
    ++ CRLF.

Definition response_200 : bytes :=
  blit "HTTP/1.1 200 OK" ++ CRLF
    ++ blit "Content-Type: application/json" ++ CRLF
    ++ blit "Content-Length: 15" ++ CRLF ++ CRLF
    ++ blit "{" ++ quoted "status" ++ blit ":" ++ quoted "ok" ++ blit "}".

Definition response_400 : bytes :=
  blit "HTTP/1.1 400 Bad Request" ++ CRLF
    ++ blit "Content-Type: application/json" ++ CRLF
    ++ blit "Content-Length: 31" ++ CRLF ++ CRLF
    ++ blit "{" ++ quoted "error" ++ blit ":" ++ quoted "no address provided"
    ++ blit "}".

(** The octets of a 500 response whose body carries [message]: the head
    with the length of the body, then the body, which is
    [{"error": "<message, escaped>"}] in ASCII. *)
Definition is_response_500 (message : str) (sent : bytes) : Prop :=
  exists head body,
    sent = head ++ body
    /\ map Byte.to_N body = json_dumps_error message
    /\ map Byte.to_N head
       = lit "HTTP/1.1 500 Internal Server Error" ++ [13; 10]
           ++ lit "Content-Type: application/json" ++ [13; 10]
           ++ lit "Content-Length: " ++ str_of_nat (length body)
           ++ [13; 10; 13; 10].

(** A thread that has entered its loop and has not yet run the task
    [server.start()], with no stop requested. *)
Definition about_to_start (self : VirtualModule.t) : Prop :=
  VirtualModule.phase self = VirtualModule.Looping
  /\ VirtualModule.starting (VirtualModule.tasks self) = true
  /\ DAPGhidraServer.running (VirtualModule.server self) = false
  /\ VirtualModule.event_set (VirtualModule.tasks self) = false
  /\ VirtualModule.posted (VirtualModule.tasks self) = false.

(** An object whose thread is in its loop and still referred to by
    [self.thread] has [self.loop] and [self.stop_event] set. *)
Definition wired (self : VirtualModule.t) : Prop :=
  VirtualModule.phase self = VirtualModule.Looping ->
  VirtualModule.thread self = true ->
  VirtualModule.loop self = true /\ VirtualModule.stop_event self = true.

Definition wired_world (w : Interpreter.World) : Prop :=
  Forall wired (Interpreter.heap w).

(** A thread in its loop with no stop requested. *)
Definition looping_unsignalled (self : VirtualModule.t) : Prop :=
  VirtualModule.phase self = VirtualModule.Looping
  /\ VirtualModule.event_set (VirtualModule.tasks self) = false
  /\ VirtualModule.posted (VirtualModule.tasks self) = false.

(** What every reachable world satisfies: at most one listener holds the
    port, and the object registered under the name is in the heap. *)
Definition sound (w : Interpreter.World) : Prop :=
  (Interpreter.listeners w <= 1)%nat
  /\ forall id,
       Interpreter.sys_modules w !! MODULE_NAME
       = Some (Interpreter.VirtualModuleObject id) ->
       (id < length (Interpreter.heap w))%nat.

(** The server of an object and its thread: [running] tells whether the
    listener holds the port, and a listener that does belongs to a thread
    that is in its event loop and has run the task [server.start()]. *)
Definition attended (self : VirtualModule.t) : Prop :=
  (DAPGhidraServer.running (VirtualModule.server self) = true
   <-> VirtualModule.listening self = true)
  /\ (VirtualModule.listening self = true ->
      VirtualModule.phase self = VirtualModule.Looping
      /\ VirtualModule.starting (VirtualModule.tasks self) = false).



(** A thread in its loop whose stop event is not set has its task
    [alive_task] in the [while] loop. *)
Definition beating_until_set (self : VirtualModule.t) : Prop :=
  VirtualModule.phase self = VirtualModule.Looping ->
  VirtualModule.event_set (VirtualModule.tasks self) = false ->
  VirtualModule.beating (VirtualModule.tasks self) = true.

(** A thread in its loop whose object still has [self.loop] has its task
    [wait_for_stop] suspended at [stop_event.wait()]. *)
Definition awaiting_stop (self : VirtualModule.t) : Prop :=
  VirtualModule.phase self = VirtualModule.Looping ->
  VirtualModule.loop self = true ->
  VirtualModule.waiting (VirtualModule.tasks self) = true.

(** The handlers the two scripts leave on the logger. *)
Definition installed (hs : list Interpreter.Handler) : Prop :=
  hs = []
  \/ hs = [Interpreter.StreamHandler]
  \/ hs = [Interpreter.FileHandler LOG_FILE; Interpreter.StreamHandler]
  \/ hs = [Interpreter.StreamHandler; Interpreter.FileHandler LOG_FILE;
           Interpreter.StreamHandler].

(** A property of an object that the steps of its thread and the
    assignments of [stop_server] preserve. *)
Definition kept (P : VirtualModule.t -> Prop) : Prop :=
  (forall self, P self -> P (VirtualModule.run_event_loop self))
  /\ (forall bound self, P self -> P (fst (VirtualModule.start_task bound self)))
  /\ (forall self, P self -> P (fst (VirtualModule.alive_task self)))
  /\ (forall self, P self -> P (VirtualModule.set_stop_event self))
  /\ (forall self, P self -> P (fst (VirtualModule.wait_for_stop self)))
  /\ (forall self, P self -> P (VirtualModule.post_stop self))
  /\ (forall self, P self -> P (VirtualModule.release self)).

(** The object at [id] in the world [w] satisfies [P]. *)
Definition holds (P : VirtualModule.t -> Prop) (id : nat)
  (w : Interpreter.World) : Prop :=
  exists self, Interpreter.heap w !! id = Some self /\ P self.

(** One of the responses a request to [POST /goto] is answered with. *)
Definition defined_response (sent : bytes) : Prop :=
  sent = response_200 \/ sent = response_400
  \/ exists message, is_response_500 message sent.

(** The request line of a stream as the handler takes it: the first line,
    decoded and trimmed. *)
Definition request_line_of (r : Asyncio.StreamReader) : option str :=
  match Asyncio.readline r with
  | (Ok line, _) => strip <$> decode line
  | (Raise _, _) => None
  end.

(** The octets a stream still delivers: the buffer, then the segments. *)
Definition stream (r : Asyncio.StreamReader) : bytes :=
  Asyncio._buffer r ++ concat (Asyncio.incoming r).

Abbreviation hexdigits := (Forall (fun c => hexdigit c = true)).
Abbreviation spaces := (Forall (fun c => isspace c = true)).

Section WithRuntime.
Import Logging DAPGhidraServer.
Context {rt : Runtime}.

(** Steps that only read: the writer, the log and the Swing queue stay as
    they were. *)
Definition reads_only {A} (m : M A) : Prop :=
  forall t o t',
    m t = Some (o, t') ->
    sent t' = sent t /\ closed t' = closed t /\ records t' = records t
    /\ posted t' = posted t.

(** The three ways into the [except] clause: the body is not UTF-8, it is
    not JSON, the JSON value has no [get]. *)
Inductive decode_failure (body : bytes) : Exn -> Prop :=
| not_utf8 :
    decode body = None ->
    decode_failure body (mkExn UnicodeDecodeError (decode_error_str body))
| not_json text e :
    decode body = Some text -> json_loads text = Raise e ->
    decode_failure body e
| not_an_object text data :
    decode body = Some text -> json_loads text = Ok data ->
    (forall d, data <> VDict d) ->
    decode_failure body (no_attribute data "get").

End WithRuntime.

(** A response whose head announces the length of its body: a status
    line, header fields, the Content-Length field with the number of octets
    that follow the head, and the empty line. *)
Definition declares_length (sent : bytes) : Prop :=
  exists head body status fields,
    sent = head ++ body
    /\ map Byte.to_N head
       = lit "HTTP/1.1 " ++ status ++ [13; 10] ++ fields
           ++ lit "Content-Length: " ++ str_of_nat (length body)
           ++ [13; 10; 13; 10].

End Spec.

(** * Properties *)

(** ** Texts *)

Section Texts.
Import Py Spec.
Local Open Scope N_scope.

Lemma hexdigit_cases c :
  hexdigit c = true ->
  In c [48; 49; 50; 51; 52; 53; 54; 55; 56; 57;
        97; 98; 99; 100; 101; 102; 65; 66; 67; 68; 69; 70].
Proof.
  unfold hexdigit, between. intros H. cbn [In].
  rewrite !orb_true_iff, !andb_true_iff, !N.leb_le in H. lia.
Qed.

Ltac hexcases H :=
  apply hexdigit_cases in H; simpl in H;
  repeat (destruct H as [<- | H]; [| ]); try contradiction.

Lemma hexdigit_digit c :
  hexdigit c = true ->
  exists d, digit_value c = Some d /\ (d <? 16) = true.
Proof. intros H. hexcases H; eexists; split; reflexivity. Qed.

Lemma hexdigit_plain c :
  hexdigit c = true ->
  isspace c = false /\ c_isspace c = false /\ (c <? 128) = true
  /\ (c =? 95) = false /\ (c =? 43) = false /\ (c =? 45) = false
  /\ (c =? 120) = false /\ (c =? 88) = false.
Proof. intros H. hexcases H; repeat split; reflexivity. Qed.

Lemma Forall_rev_list {A} (P : A -> Prop) (l : list A) :
  Forall P l -> Forall P (rev l).
Proof.
  intros H. apply List.Forall_forall. intros x Hx. apply in_rev in Hx.
  revert x Hx. now apply List.Forall_forall.
Qed.

Lemma skip_all p ws t :
  Forall (fun c => p c = true) ws -> skip p (ws ++ t) = skip p t.
Proof. induction 1 as [| c ws Hc _ IH]; simpl; [| rewrite Hc]; auto. Qed.

Lemma skip_stop p c t : p c = false -> skip p (c :: t) = c :: t.
Proof. intros H. simpl. now rewrite H. Qed.

Lemma skip_trimmed_l t :
  match t with [] => True | c :: _ => isspace c = false end ->
  skip isspace t = t.
Proof. destruct t as [| c t]; [easy |]. apply skip_stop. Qed.

Lemma strip_padded ws1 t ws2 :
  trimmed t ->
  Forall (fun c => isspace c = true) ws1 ->
  Forall (fun c => isspace c = true) ws2 ->
  strip (ws1 ++ t ++ ws2) = t.
Proof.
  intros [Hl Hr] H1 H2. unfold strip, lstrip, rstrip.
  rewrite skip_all by assumption.
  destruct t as [| c t].
  - simpl. rewrite <- (app_nil_r ws2), skip_all by assumption. reflexivity.
  - rewrite <- app_comm_cons, skip_stop by assumption.
    rewrite app_comm_cons, rev_app_distr.
    rewrite skip_all.
    + rewrite skip_trimmed_l by assumption. apply rev_involutive.
    + now apply Forall_rev_list.
Qed.

Lemma hexdigits_trimmed s :
  Forall (fun c => hexdigit c = true) s -> trimmed s.
Proof.
  intros H. split.
  - destruct H as [| c s Hc _]; [easy |]. now apply hexdigit_plain.
  - assert (Hrev : Forall (fun c => hexdigit c = true) (rev s))
      by now apply Forall_rev_list.
    destruct Hrev as [| c r Hc _]; [easy |]. now apply hexdigit_plain.
Qed.

Lemma hexdigits_ascii s :
  Forall (fun c => hexdigit c = true) s -> isascii s = true.
Proof.
  induction 1 as [| c s Hc _ IH]; simpl; [reflexivity |].
  apply hexdigit_plain in Hc. destruct Hc as (_ & _ & -> & _). exact IH.
Qed.

Lemma scan_hexdigits s acc :
  Forall (fun c => hexdigit c = true) s ->
  scan_digits 16 false acc s
  = Some (rev acc ++ map (fun c => default 0 (digit_value c)) s, []).
Proof.
  intros H. revert acc.
  induction H as [| c s Hc _ IH]; intros acc; simpl.
  - now rewrite app_nil_r.
  - destruct (hexdigit_plain c Hc) as (_ & _ & _ & -> & _).
    destruct (hexdigit_digit c Hc) as (d & -> & ->).
    rewrite IH. simpl. now rewrite <- app_assoc.
Qed.

Lemma digits_value_hex s :
  digits_value 16 (map (fun c => default 0 (digit_value c)) s) = hex_value s.
Proof.
  unfold digits_value, hex_value. generalize 0 at 2 4.
  induction s as [| c s IH]; intros acc; simpl; [reflexivity | apply IH].
Qed.

Lemma is_pow16 : is_power_of_two 16 = true.
Proof. reflexivity. Qed.

(** [int(s, 16)] on a text of hexadecimal digits that is not empty. *)
Lemma long_from_hexdigits m s :
  Forall (fun c => hexdigit c = true) s -> s <> [] ->
  long_from_string m 16 s = Some (Z.of_N (hex_value s)).
Proof.
  intros H Hne. unfold long_from_string.
  destruct H as [| c s Hc Hs]; [congruence |].
  destruct (hexdigit_plain c Hc) as (_ & Hsp & _ & Hus & Hplus & Hminus & _).
  rewrite skip_stop by assumption.
  unfold skip_sign. rewrite Hplus, Hminus.
  assert (Hpre : skip_prefix 16 (c :: s) = c :: s).
  { unfold skip_prefix. destruct Hs as [| x s Hx _]; [reflexivity |].
    destruct (hexdigit_plain x Hx) as (_ & _ & _ & _ & _ & _ & -> & ->).
    simpl. now rewrite andb_false_r. }
  rewrite Hpre. unfold leading_underscore. rewrite Hus.
  rewrite scan_hexdigits by (constructor; assumption).
  cbn [rev app].
  set (ds := map _ (c :: s)).
  assert (Hds : exists d ds', ds = d :: ds').
  { destruct (hexdigit_digit c Hc) as (d & Hd & _). subst ds. simpl. eauto. }
  destruct Hds as (d & ds' & Hds).
  rewrite is_pow16. cbn [negb andb].
  rewrite Hds, <- Hds. cbn [skip]. subst ds.
  now rewrite digits_value_hex.
Qed.

End Texts.

(** ** Encoding ASCII texts *)

Section Encoding.
Import Py.
Local Open Scope N_scope.

Lemma isascii_app s1 s2 :
  isascii (s1 ++ s2) = isascii s1 && isascii s2.
Proof. apply forallb_app. Qed.

Lemma isascii_uint_digits u : isascii (uint_digits u) = true.
Proof. induction u; simpl; auto. Qed.

Lemma isascii_str_of_nat n : isascii (str_of_nat n) = true.
Proof. apply isascii_uint_digits. Qed.

(** An ASCII text encodes to the octets with the same numbers. *)
Lemma encode_ascii s :
  isascii s = true -> exists b, encode s = Some b /\ map Byte.to_N b = s.
Proof.
  induction s as [| c s IH]; simpl; intros H.
  - now exists [].
  - apply andb_prop in H. destruct H as [Hc Hs].
    destruct (IH Hs) as (b & -> & Hb).
    unfold utf8_encode_cp.
    assert (Hc' : (c <? 128) = true) by exact Hc. rewrite Hc'.
    destruct (Byte.of_N c) as [x |] eqn:Hx.
    + exists (x :: b). cbn. rewrite Hx. cbn. split; [reflexivity |].
      f_equal; [now apply Byte.to_of_N | exact Hb].
    + apply Byte.of_N_None_iff in Hx. apply N.ltb_lt in Hc. lia.
Qed.

Lemma hex_digit_ascii d : d < 16 -> hex_digit d < 128.
Proof. unfold hex_digit. intros H. destruct (d <? 10); lia. Qed.

Lemma isascii_hex4 n : n < 65536 -> isascii (hex4 n) = true.
Proof.
  intros H. unfold hex4, isascii. cbn [forallb].
  rewrite !andb_true_iff, !N.ltb_lt.
  assert (n / 4096 < 16) by (apply N.Div0.div_lt_upper_bound; lia).
  repeat split; try apply hex_digit_ascii; try apply N.mod_lt; auto; lia.
Qed.

Lemma isascii_backslash_u n : n < 65536 -> isascii (backslash_u n) = true.
Proof. intros H. unfold backslash_u. cbn. now apply isascii_hex4. Qed.

Lemma surrogate_bound hi x : hi < 65536 -> N.lor hi (N.land x 0x3FF) < 65536.
Proof.
  intros Hhi.
  assert (Hland : N.land x 0x3FF < 1024).
  { change 0x3FF with (N.ones 10). rewrite N.land_ones.
    apply N.mod_lt. discriminate. }
  destruct (N.eq_dec (N.lor hi (N.land x 1023)) 0) as [-> | Hnz]; [lia |].
  change 65536 with (2 ^ 16). apply N.log2_lt_pow2; [lia |].
  rewrite N.log2_lor.
  apply N.max_lub_lt.
  - destruct (N.eq_dec hi 0) as [-> | Hh]; [cbn; lia |].
    apply N.log2_lt_pow2; [lia | exact Hhi].
  - destruct (N.eq_dec (N.land x 1023) 0) as [-> | Hl]; [cbn; lia |].
    apply N.log2_lt_pow2; [lia |]. cbn. lia.
Qed.

Lemma isascii_json_escape_char c : isascii (json_escape_char c) = true.
Proof.
  unfold json_escape_char.
  repeat match goal with
         | |- context [if ?b then _ else _] =>
             let E := fresh "E" in destruct b eqn:E; [try reflexivity |]
         end.
  - unfold between in E1. apply andb_prop in E1. destruct E1 as [_ E1].
    apply N.leb_le in E1. cbn. rewrite andb_true_r. apply N.ltb_lt. lia.
  - apply isascii_backslash_u. now apply N.ltb_lt.
  - rewrite isascii_app, !isascii_backslash_u; [reflexivity | |];
      now apply surrogate_bound.
Qed.

Lemma isascii_json_dumps_str s : isascii (json_dumps_str s) = true.
Proof.
  unfold json_dumps_str. cbn [isascii forallb]. fold (isascii (flat_map json_escape_char s ++ [34])).
  rewrite isascii_app. cbn.
  rewrite andb_true_r.
  induction s as [| c s IH]; [reflexivity |].
  cbn [flat_map]. now rewrite isascii_app, isascii_json_escape_char.
Qed.

Lemma isascii_json_dumps_error msg : isascii (json_dumps_error msg) = true.
Proof.
  unfold json_dumps_error.
  rewrite !isascii_app, !isascii_json_dumps_str. reflexivity.
Qed.

End Encoding.

(** ** The address parser and [goto_address] *)

Section Navigator.
Import Py PyLib Asyncio Logging Ghidra DAPGhidraServer Spec.
Context {rt : Runtime}.
Local Open Scope N_scope.


Lemma no_prefix_in_hexdigits s :
  hexdigits s ->
  startswith s (lit "0x") = false /\ startswith s (lit "0X") = false.
Proof.
  intros H. change (lit "0x") with [48; 120]. change (lit "0X") with [48; 88].
  destruct H as [| c s Hc Hs]; [auto |].
  destruct Hs as [| x s Hx _]; cbn; [now rewrite !andb_false_r |].
  destruct (hexdigit_plain x Hx) as (_ & _ & _ & _ & _ & _ & -> & ->).
  now rewrite !andb_false_r.
Qed.

Lemma address_of_hexdigits s :
  hexdigits s -> address_of s = (s, int_of_str 16 s).
Proof.
  intros H. unfold address_of.
  assert (Hs : strip s = s).
  { pose proof (strip_padded [] s [] (hexdigits_trimmed s H)) as E.
    cbn [app] in E. rewrite app_nil_r in E. now apply E. }
  rewrite Hs.
  now destruct (no_prefix_in_hexdigits s H) as [-> ->].
Qed.

Lemma prefixed_trimmed x s : isspace x = false -> hexdigits s ->
  trimmed (48 :: x :: s).
Proof.
  intros Hx H. split; [reflexivity |].
  cbn [rev]. apply Forall_rev_list in H.
  destruct H as [| c r Hc _]; cbn; [exact Hx |].
  now apply hexdigit_plain.
Qed.

Lemma address_of_padded ws1 s ws2 :
  hexdigits s -> spaces ws1 -> spaces ws2 ->
  address_of (ws1 ++ s ++ ws2) = address_of s.
Proof.
  intros H H1 H2. rewrite (address_of_hexdigits s) by assumption.
  unfold address_of.
  rewrite strip_padded
    by first [assumption | apply hexdigits_trimmed; assumption].
  now destruct (no_prefix_in_hexdigits s H) as [-> ->].
Qed.

Lemma address_of_prefixed ws1 x s ws2 :
  x = 120 \/ x = 88 ->
  hexdigits s -> spaces ws1 -> spaces ws2 ->
  address_of (ws1 ++ (48 :: x :: s) ++ ws2) = address_of s.
Proof.
  intros Hx H H1 H2. rewrite (address_of_hexdigits s) by assumption.
  unfold address_of.
  rewrite strip_padded; auto.
  - change (lit "0x") with [48; 120]. change (lit "0X") with [48; 88].
    destruct Hx as [-> | ->]; reflexivity.
  - apply prefixed_trimmed; [| assumption]. now destruct Hx as [-> | ->].
Qed.

(** C5. For every text [s] of hexadecimal digits, [s], ["0x" + s] and
    ["0X" + s] parse to the same outcome, with or without white space
    around them; when [s] is not empty the outcome is the unsigned number
    that [s] writes in base 16. *)
Theorem address_prefix_insensitive (s ws1 ws2 : str) :
  hexdigits s -> spaces ws1 -> spaces ws2 ->
  address_of (ws1 ++ lit "0x" ++ s ++ ws2) = address_of s
  /\ address_of (ws1 ++ lit "0X" ++ s ++ ws2) = address_of s
  /\ address_of (ws1 ++ s ++ ws2) = address_of s
  /\ (s <> [] -> address_of s = (s, Ok (Z.of_N (hex_value s)))).
Proof.
  intros H H1 H2. repeat split.
  - apply (address_of_prefixed ws1 120 s ws2); auto.
  - apply (address_of_prefixed ws1 88 s ws2); auto.
  - now apply address_of_padded.
  - intros Hne. rewrite (address_of_hexdigits s) by assumption.
    unfold int_of_str. rewrite hexdigits_ascii by assumption.
    now rewrite long_from_hexdigits.
Qed.

Lemma address_of_raises s e :
  snd (address_of s) = Raise e -> is_ValueError e = true.
Proof.
  unfold address_of. cbn [snd]. unfold int_of_str.
  destruct (if isascii _ then _ else _); [discriminate |].
  now intros [= <-].
Qed.

(** [goto_address] neither raises nor touches the connection. *)
Lemma goto_address_returns (v : Value) (t : Task) :
  exists t',
    goto_address v t = Some (Ok tt, t')
    /\ reader t' = reader t /\ sent t' = sent t /\ closed t' = closed t.
Proof.
  destruct v as [| b | z | f | s | l | d];
    try (eexists; split; [reflexivity |]; auto).
  unfold goto_address.
  destruct (address_of s) as [text [z | e]];
    unfold try_except, bind, lift, invokeLater.
  - destruct invokeLater_error as [e |]; [destruct (is_ValueError e) |];
      (eexists; split; [reflexivity |]; auto).
  - destruct (is_ValueError e); (eexists; split; [reflexivity |]; auto).
Qed.

(** C6. [goto_address] returns for every argument, a str or not, without
    raising and without touching the connection; when the argument is a str
    whose parse fails it logs one error and posts no command. *)
Theorem goto_address_total (v : Value) (t : Task) :
  exists t',
    goto_address v t = Some (Ok tt, t')
    /\ reader t' = reader t /\ sent t' = sent t /\ closed t' = closed t
    /\ (forall s e,
          v = VStr s -> snd (address_of s) = Raise e ->
          posted t' = posted t
          /\ records t'
             = records t
                 ++ [mkLog ERROR
                       (lit "Invalid address format: " ++ fst (address_of s))]).
Proof.
  assert (frame : forall t' : Task,
             (reader t' = reader t /\ sent t' = sent t
              /\ closed t' = closed t) ->
             forall P : Prop, P ->
             reader t' = reader t /\ sent t' = sent t
             /\ closed t' = closed t /\ P) by tauto.
  destruct v as [| b | z | f | s | l | d];
    try (eexists; split; [reflexivity |]; apply frame; [auto |];
         intros ? ? [=]).
  unfold goto_address.
  destruct (address_of s) as [text parsed] eqn:Ha.
  destruct parsed as [z | e].
  - unfold try_except, bind, lift, invokeLater.
    destruct invokeLater_error as [e |]; [destruct (is_ValueError e) |];
      (eexists; split; [reflexivity |]; apply frame; [auto |];
       intros s0 e0 [= <-] Hr; rewrite Ha in Hr; discriminate).
  - pose proof (address_of_raises s e) as He. rewrite Ha in He.
    specialize (He eq_refl).
    unfold try_except, bind, lift. rewrite He.
    eexists; split; [reflexivity |]; apply frame; [auto |].
    intros s0 e0 [= <-] _. rewrite Ha. auto.
Qed.

(** The command a posted [navigate] runs: it goes to an address only when
    the program resolved the parsed value to it and the tool offers the
    service; in every other case it only logs. *)
Lemma navigate_goes_where_resolved h c out address :
  navigate h c = (out, Some address) ->
  exists program tool service,
    currentProgram h = Some program
    /\ getAddress program (address_value c) = Ok (Some address)
    /\ getTool h = Some tool /\ getService tool = Some service
    /\ goTo service address = Ok tt
    /\ out = [mkLog INFO (lit "Navigated to: " ++ toString address)].
Proof.
  unfold navigate.
  destruct (currentProgram h) as [program |]; [| discriminate].
  destruct (getAddress program (address_value c)) as [[a |] | e] eqn:Ha;
    try discriminate.
  destruct (getTool h) as [tool |]; [| discriminate].
  destruct (getService tool) as [service |] eqn:Hs; [| discriminate].
  destruct (goTo service a) as [[] | e] eqn:Hgo; [| discriminate].
  intros [= <- <-]. exists program, tool, service. repeat split; auto.
Qed.

Lemma navigate_without_program h c :
  currentProgram h = None ->
  navigate h c = ([mkLog WARNING (lit "No program loaded")], None).
Proof. intros H. unfold navigate. now rewrite H. Qed.

End Navigator.

(** ** The request handler *)

Section Handler.
Import Py PyLib Asyncio Logging Ghidra DAPGhidraServer Spec.
Context {rt : Runtime}.

Lemma reads_only_bind {A B} (m : M A) (k : A -> M B) :
  reads_only m -> (forall a, reads_only (k a)) -> reads_only (bind m k).
Proof.
  intros Hm Hk t o t'. unfold bind.
  destruct (m t) as [[[a | e] t1] |] eqn:E; [| | discriminate].
  - intros H. destruct (Hm _ _ _ E) as (<- & <- & <- & <-).
    exact (Hk a _ _ _ H).
  - intros [= <- <-]. exact (Hm _ _ _ E).
Qed.

Lemma reads_only_ret {A} (a : A) : reads_only (ret a).
Proof. intros t o t' [= <- <-]. auto. Qed.

Lemma reads_only_lift {A} (o : Outcome A) : reads_only (lift o).
Proof. intros t o' t' [= <- <-]. auto. Qed.

Lemma reads_only_readline : reads_only reader_readline.
Proof.
  intros t o t'. unfold reader_readline.
  destruct (readline (reader t)). intros [= <- <-]. auto.
Qed.

Lemma reads_only_read n : reads_only (reader_read n).
Proof.
  intros t o t'. unfold reader_read.
  destruct (read n (reader t)). intros [= <- <-]. auto.
Qed.

Lemma reads_only_read_headers fuel headers :
  reads_only (read_headers fuel headers).
Proof.
  revert headers. induction fuel as [| fuel IH]; intros headers.
  - intros t o t'. discriminate.
  - cbn [read_headers].
    apply reads_only_bind; [apply reads_only_readline |]. intros line.
    apply reads_only_bind; [apply reads_only_lift |]. intros text.
    destruct (strip text); [apply reads_only_ret |].
    destruct (contains _ _); [| apply IH].
    destruct (split1 _ _). apply IH.
Qed.

Lemma reads_only_read_head : reads_only read_head.
Proof.
  unfold read_head.
  apply reads_only_bind; [apply reads_only_readline |]. intros line.
  apply reads_only_bind; [apply reads_only_lift |]. intros text.
  apply reads_only_bind; [| intros; apply reads_only_ret].
  intros t o t'. apply reads_only_read_headers.
Qed.

Lemma reads_only_read_body headers : reads_only (read_body headers).
Proof.
  unfold read_body.
  apply reads_only_bind; [apply reads_only_lift |]. intros n.
  apply reads_only_read.
Qed.

(** *** The stream never leaves the header loop short of fuel *)

Lemma find_newline_bound b i : find_newline b = Some i -> (i < length b)%nat.
Proof.
  revert i. induction b as [| c b IH]; intros i; [discriminate |].
  cbn. destruct (Byte.eqb c x0a).
  - intros [= <-]. lia.
  - destruct (find_newline b) as [j |]; [| discriminate].
    intros [= <-]. specialize (IH j eq_refl). lia.
Qed.

Lemma readline_from_consumes buf segments line r :
  readline_from buf segments = (Ok line, r) ->
  (length line + remaining r = length buf + length (concat segments))%nat.
Proof.
  revert buf. induction segments as [| seg segments IH]; intros buf;
    cbn [readline_from].
  - destruct (find_newline buf) as [i |] eqn:E.
    + destruct (_ <? _)%N; [discriminate |]. intros [= <- <-].
      apply find_newline_bound in E. unfold remaining. cbn.
      rewrite length_take, length_drop. lia.
    + destruct (_ <? _)%N; [discriminate |]. intros [= <- <-].
      unfold remaining. cbn. lia.
  - destruct (find_newline buf) as [i |] eqn:E.
    + destruct (_ <? _)%N; [discriminate |]. intros [= <- <-].
      apply find_newline_bound in E. unfold remaining. cbn.
      rewrite length_take, length_drop, !length_app. lia.
    + destruct (_ <? _)%N; [discriminate |]. intros H.
      apply IH in H. rewrite H. cbn. rewrite !length_app. lia.
Qed.

Lemma readline_consumes r line r' :
  readline r = (Ok line, r') ->
  (length line + remaining r' = remaining r)%nat.
Proof. apply readline_from_consumes. Qed.

Lemma read_headers_fuel fuel headers t :
  (remaining (reader t) < fuel)%nat -> read_headers fuel headers t <> None.
Proof.
  revert headers t. induction fuel as [| fuel IH]; intros headers t Hf;
    [lia |].
  cbn [read_headers]. unfold bind at 1. unfold reader_readline.
  destruct (readline (reader t)) as [[line | e] r'] eqn:E; [| discriminate].
  apply readline_consumes in E.
  unfold bind at 1, lift at 1, bytes_decode.
  destruct (decode line) as [text |] eqn:D; [| discriminate].
  cbn [reader].
  destruct (strip text) as [| c rest] eqn:S; [discriminate |].
  assert (Hline : line <> []).
  { intros ->. cbn in D. injection D as <-. discriminate. }
  assert (Hlen : (remaining r' < fuel)%nat).
  { destruct line; [congruence |]. cbn in E. lia. }
  destruct (contains _ _); [destruct (split1 _ _) |]; apply IH; exact Hlen.
Qed.

Lemma read_head_returns t : read_head t <> None.
Proof.
  unfold read_head. unfold bind at 1. unfold reader_readline.
  destruct (readline (reader t)) as [[line | e] r']; [| discriminate].
  unfold bind at 1, lift at 1.
  destruct (bytes_decode line) as [text | e]; [| discriminate].
  unfold bind at 1.
  match goal with
  | |- context [read_headers ?f ?h ?t0] =>
      pose proof (read_headers_fuel f h t0 (Nat.lt_succ_diag_r _)) as Hf;
      destruct (read_headers f h t0) as [[[hs | e] t1] |]
  end; [discriminate | discriminate | congruence].
Qed.

(** *** Writing a response *)

Lemma write_response_200 t :
  write_response (lit "200 OK") status_ok t
  = Some (Ok tt, mkTask (reader t) (sent t ++ response_200) (closed t)
                   (records t) (posted t)).
Proof.
  unfold write_response, bind, lift, str_encode.
  replace (encode (response_head (lit "200 OK") status_ok))
    with (Some (firstn (length response_200 - length status_ok)
                  response_200)) by (vm_compute; reflexivity).
  unfold writer_write. do 3 f_equal.
Qed.

Lemma write_response_400 t :
  write_response (lit "400 Bad Request") no_address_provided t
  = Some (Ok tt, mkTask (reader t) (sent t ++ response_400) (closed t)
                   (records t) (posted t)).
Proof.
  unfold write_response, bind, lift, str_encode.
  replace (encode (response_head (lit "400 Bad Request")
                     no_address_provided))
    with (Some (firstn (length response_400 - length no_address_provided)
                  response_400)) by (vm_compute; reflexivity).
  unfold writer_write. do 3 f_equal.
Qed.

Lemma write_response_500 message t :
  exists out,
    (let* response_body :=
       lift (str_encode (json_dumps_error message)) in
     write_response (lit "500 Internal Server Error") response_body) t
    = Some (Ok tt, mkTask (reader t) (sent t ++ out) (closed t) (records t)
                     (posted t))
    /\ is_response_500 message out.
Proof.
  destruct (encode_ascii _ (isascii_json_dumps_error message))
    as (body & Hbody & Hnum).
  assert (Hascii : isascii (response_head (lit "500 Internal Server Error")
                              body) = true).
  { unfold response_head. rewrite !isascii_app, isascii_str_of_nat.
    reflexivity. }
  destruct (encode_ascii _ Hascii) as (head & Hhead & Hheadnum).
  exists (head ++ body). split.
  - unfold bind, lift, str_encode, write_response. rewrite Hbody.
    unfold bind, lift, str_encode. rewrite Hhead. reflexivity.
  - exists head, body. auto.
Qed.

(** *** The inner [try] *)

Lemma respond_accepts body text d a t :
  decode body = Some text ->
  json_loads text = Ok (VDict d) ->
  d !! lit "address" = Some a ->
  truthy a = true ->
  exists t',
    respond body t = Some (Ok tt, t')
    /\ sent t' = sent t ++ response_200 /\ closed t' = closed t.
Proof.
  intros Hd Hj Ha Ht.
  destruct (goto_address_returns a t) as (t1 & Hg & _ & Hs & Hc).
  unfold respond, try_except, bind at 1 2 3, lift, bytes_decode, get_address.
  rewrite Hd, Hj, Ha. change (default (VStr []) (Some a)) with a.
  rewrite Ht. unfold bind. rewrite Hg, write_response_200. cbn.
  eexists; split; [reflexivity |]. cbn. now rewrite Hs, Hc.
Qed.

Lemma respond_rejects body text d t :
  decode body = Some text ->
  json_loads text = Ok (VDict d) ->
  truthy (default (VStr []) (d !! lit "address")) = false ->
  respond body t
  = Some (Ok tt, mkTask (reader t) (sent t ++ response_400) (closed t)
                   (records t) (posted t)).
Proof.
  intros Hd Hj Ht.
  unfold respond, try_except, bind at 1 2 3, lift, bytes_decode, get_address.
  rewrite Hd, Hj, Ht. now rewrite write_response_400.
Qed.

Lemma respond_fails body e t :
  decode_failure body e ->
  exists out,
    respond body t
    = Some (Ok tt,
            mkTask (reader t) (sent t ++ out) (closed t)
              (records t
                 ++ [mkLog ERROR (lit "Error handling request: "
                                    ++ exn_str e)])
              (posted t))
    /\ is_response_500 (exn_str e) out.
Proof.
  intros Hf.
  set (t1 := mkTask (reader t) (sent t) (closed t)
               (records t
                  ++ [mkLog ERROR (lit "Error handling request: "
                                     ++ exn_str e)]) (posted t)).
  destruct (write_response_500 (exn_str e) t1) as (out & Hw & Hout).
  exists out. split; [| exact Hout].
  assert (Hhandler :
    (do logger ERROR (lit "Error handling request: " ++ exn_str e) then
     let* response_body :=
       lift (str_encode (json_dumps_error (exn_str e))) in
     write_response (lit "500 Internal Server Error") response_body) t
    = Some (Ok tt, mkTask (reader t) (sent t ++ out) (closed t) (records t1)
                     (posted t))).
  { unfold bind at 1. unfold logger at 1. fold t1. exact Hw. }
  unfold respond, try_except, bind at 1 2 3, lift at 1 2 3, bytes_decode,
    get_address.
  destruct Hf as [Hd | text e Hd Hj | text data Hd Hj Hn].
  - rewrite Hd. exact Hhandler.
  - rewrite Hd, Hj. exact Hhandler.
  - rewrite Hd, Hj.
    destruct data; try exact Hhandler. now destruct (Hn d).
Qed.

(** Whatever the body, the inner [try] ends with one of the three
    responses. *)
Lemma respond_defined body t :
  exists t' out,
    respond body t = Some (Ok tt, t')
    /\ sent t' = sent t ++ out /\ closed t' = closed t
    /\ defined_response out.
Proof.
  destruct (decode body) as [text |] eqn:Hd.
  2:{ destruct (respond_fails body _ t (not_utf8 body Hd)) as (out & H & Ho).
      eexists _, out. split; [exact H |]. unfold defined_response. eauto 6. }
  destruct (json_loads text) as [data | e] eqn:Hj.
  2:{ destruct (respond_fails body _ t (not_json body text e Hd Hj))
        as (out & H & Ho).
      eexists _, out. split; [exact H |]. unfold defined_response. eauto 6. }
  destruct data as [| b | z | f | s | l | d];
    try (match goal with
         | Hj : json_loads text = Ok ?v |- _ =>
             destruct (respond_fails body _ t
                         (not_an_object body text v Hd Hj
                            ltac:(intros ?; discriminate)))
               as (out & H & Ho)
         end;
         eexists _, out; split; [exact H |]; unfold defined_response;
         eauto 6).
  destruct (truthy (default (VStr []) (d !! lit "address"))) eqn:Ht.
  - destruct (d !! lit "address") as [a |] eqn:Ha; [| discriminate].
    destruct (respond_accepts body text d a t Hd Hj Ha Ht)
      as (t' & H & Hs & Hc).
    exists t', response_200. unfold defined_response. auto.
  - rewrite (respond_rejects body text d t Hd Hj Ht).
    eexists _, response_400. split; [reflexivity |].
    unfold defined_response. cbn. auto.
Qed.

(** *** The whole handler *)

Lemma handle_client_ok r t :
  serve (connection r) = Some (Ok tt, t) ->
  handle_client r
  = Some (mkTask (reader t) (sent t) true (records t) (posted t)).
Proof.
  intros H. unfold handle_client, try_finally, try_except. now rewrite H.
Qed.

Lemma handle_client_raise r e t :
  serve (connection r) = Some (Raise e, t) ->
  handle_client r
  = Some (mkTask (reader t) (sent t) true
            (records t
               ++ [mkLog ERROR (lit "Client handler error: " ++ exn_str e)])
            (posted t)).
Proof.
  intros H. unfold handle_client, try_finally, try_except. now rewrite H.
Qed.

Lemma read_head_fresh r o t1 :
  read_head (connection r) = Some (o, t1) ->
  sent t1 = [] /\ closed t1 = false /\ records t1 = [] /\ posted t1 = [].
Proof. intros H. exact (reads_only_read_head _ _ _ H). Qed.

Lemma serve_not_found t request_line headers t1 :
  read_head t = Some (Ok (request_line, headers), t1) ->
  startswith request_line (lit "POST /goto") = false ->
  serve t
  = Some (Ok tt, mkTask (reader t1) (sent t1 ++ response_404) (closed t1)
                   (records t1) (posted t1)).
Proof.
  intros H Hs. unfold serve, bind at 1. rewrite H, Hs. reflexivity.
Qed.

Lemma serve_post t request_line headers t1 :
  read_head t = Some (Ok (request_line, headers), t1) ->
  startswith request_line (lit "POST /goto") = true ->
  serve t
  = (let* body := read_body headers in
     do respond body then writer_drain) t1.
Proof.
  intros H Hs. unfold serve, bind at 1. rewrite H, Hs. reflexivity.
Qed.

Lemma handle_client_responds r request_line headers t1 body t2 t3 :
  read_head (connection r) = Some (Ok (request_line, headers), t1) ->
  startswith request_line (lit "POST /goto") = true ->
  read_body headers t1 = Some (Ok body, t2) ->
  respond body t2 = Some (Ok tt, t3) ->
  handle_client r
  = Some (mkTask (reader t3) (sent t3) true (records t3) (posted t3))
  /\ sent t2 = [] /\ records t2 = [] /\ posted t2 = [].
Proof.
  intros Hh Hs Hb Hr.
  destruct (read_head_fresh _ _ _ Hh) as (Hs1 & _ & Hr1 & Hp1).
  destruct (reads_only_read_body _ _ _ _ Hb) as (Hs2 & _ & Hr2 & Hp2).
  split; [| rewrite Hs2, Hr2, Hp2; auto].
  apply handle_client_ok.
  rewrite (serve_post _ _ _ _ Hh Hs). unfold bind at 1. rewrite Hb.
  unfold bind. rewrite Hr. reflexivity.
Qed.

(** [handle_client] returns on every stream and leaves the writer closed. *)
Lemma handle_client_total r :
  exists t, handle_client r = Some t /\ closed t = true.
Proof.
  destruct (read_head (connection r)) as [[[[rl hs] | e] t1] |] eqn:Hh.
  - destruct (startswith rl (lit "POST /goto")) eqn:Hs.
    + destruct (read_body hs t1) as [[[body | e] t2] |] eqn:Hb.
      * destruct (respond_defined body t2) as (t3 & out & Hr & _).
        destruct (handle_client_responds _ _ _ _ _ _ _ Hh Hs Hb Hr)
          as [-> _]. eauto.
      * assert (Hserve : serve (connection r) = Some (Raise e, t2)).
        { rewrite (serve_post _ _ _ _ Hh Hs). unfold bind at 1.
          now rewrite Hb. }
        rewrite (handle_client_raise r e t2 Hserve). eauto.
      * unfold read_body, bind, lift, reader_read in Hb.
        destruct (content_length hs); [| discriminate].
        now destruct (read _ _).
    + rewrite (handle_client_ok r _ (serve_not_found _ _ _ _ Hh Hs)). eauto.
  - assert (Hserve : serve (connection r) = Some (Raise e, t1))
      by (unfold serve, bind at 1; now rewrite Hh).
    rewrite (handle_client_raise r e t1 Hserve). eauto.
  - now destruct (read_head_returns (connection r)).
Qed.

(** C1, as the code has it. A request whose request line starts with
    [POST /goto] and whose body, as the one [read] of line 123 returned it,
    decodes as UTF-8 JSON to an object with a non-empty str under "address"
    is answered [200 OK] with the body [{"status":"ok"}], whatever the
    address text is and whatever becomes of the navigation. *)
Theorem goto_accepted r request_line headers t1 body t2 text d a :
  read_head (connection r) = Some (Ok (request_line, headers), t1) ->
  startswith request_line (lit "POST /goto") = true ->
  read_body headers t1 = Some (Ok body, t2) ->
  decode body = Some text ->
  json_loads text = Ok (VDict d) ->
  d !! lit "address" = Some (VStr a) ->
  a <> [] ->
  exists t,
    handle_client r = Some t /\ sent t = response_200 /\ closed t = true.
Proof.
  intros Hh Hs Hb Hd Hj Ha Hne.
  assert (Ht : truthy (VStr a) = true) by (destruct a; [congruence | easy]).
  destruct (respond_accepts body text d _ t2 Hd Hj Ha Ht)
    as (t3 & Hr & Hsent & _).
  destruct (handle_client_responds _ _ _ _ _ _ _ Hh Hs Hb Hr)
    as (-> & Hs2 & _).
  eexists; split; [reflexivity |]. cbn. now rewrite Hsent, Hs2.
Qed.

(** C3, as the code has it. A request to [POST /goto] whose body, as the
    one [read] of line 123 returned it, decodes to a JSON object in which
    "address" is absent or the empty str is answered [400 Bad Request]
    with the body [{"error":"no address provided"}]; nothing is posted to
    the Swing thread. *)
Theorem goto_without_address r request_line headers t1 body t2 text d :
  read_head (connection r) = Some (Ok (request_line, headers), t1) ->
  startswith request_line (lit "POST /goto") = true ->
  read_body headers t1 = Some (Ok body, t2) ->
  decode body = Some text ->
  json_loads text = Ok (VDict d) ->
  d !! lit "address" = None \/ d !! lit "address" = Some (VStr []) ->
  exists t,
    handle_client r = Some t /\ sent t = response_400 /\ closed t = true
    /\ posted t = [].
Proof.
  intros Hh Hs Hb Hd Hj Ha.
  assert (Ht : truthy (default (VStr []) (d !! lit "address")) = false)
    by (destruct Ha as [-> | ->]; reflexivity).
  pose proof (respond_rejects body text d t2 Hd Hj Ht) as Hr.
  destruct (handle_client_responds _ _ _ _ _ _ _ Hh Hs Hb Hr)
    as (-> & Hs2 & _ & Hp2).
  eexists; split; [reflexivity |]. cbn. now rewrite Hs2, Hp2.
Qed.


(** C2, as the code has it. When the request line and the header lines are
    read and decoded, and the request line does not start with
    [POST /goto], the answer is [404 Not Found] with no body and the
    connection is closed, whatever the headers hold and whatever follows
    them. *)
Theorem other_requests_not_found r request_line headers t1 :
  read_head (connection r) = Some (Ok (request_line, headers), t1) ->
  startswith request_line (lit "POST /goto") = false ->
  exists t,
    handle_client r = Some t /\ sent t = response_404 /\ closed t = true
    /\ records t = [] /\ posted t = [].
Proof.
  intros Hh Hs.
  destruct (read_head_fresh _ _ _ Hh) as (Hs1 & _ & Hr1 & Hp1).
  rewrite (handle_client_ok r _ (serve_not_found _ _ _ _ Hh Hs)).
  eexists; split; [reflexivity |]. cbn. now rewrite Hs1, Hr1, Hp1.
Qed.

(** A line that cannot be read or decoded ends the handler in the outer
    [except]: nothing is sent. *)
Lemma head_error_unanswered r e t1 :
  read_head (connection r) = Some (Raise e, t1) ->
  exists t,
    handle_client r = Some t /\ sent t = [] /\ closed t = true
    /\ records t
       = [mkLog ERROR (lit "Client handler error: " ++ exn_str e)].
Proof.
  intros Hh.
  destruct (read_head_fresh _ _ _ Hh) as (Hs1 & _ & Hr1 & Hp1).
  assert (Hserve : serve (connection r) = Some (Raise e, t1))
    by (unfold serve, bind at 1; now rewrite Hh).
  rewrite (handle_client_raise r e t1 Hserve).
  eexists; split; [reflexivity |]. cbn. now rewrite Hs1, Hr1.
Qed.

(** *** The body read *)

Lemma wait_for_data_stream segments :
  stream (wait_for_data segments) = concat segments.
Proof.
  induction segments as [| seg segments IH]; [reflexivity |].
  destruct seg; [exact IH | reflexivity].
Qed.

(** What [read] returns and what it leaves make up the stream. *)
Lemma read_splits n r :
  fst (read n r) ++ stream (snd (read n r)) = stream r.
Proof.
  unfold read.
  destruct (n =? 0)%Z; [reflexivity |].
  destruct (n <? 0)%Z; [cbn; now rewrite app_nil_r |].
  cbn [fst snd]. unfold stream at 1. cbn [_buffer incoming].
  rewrite app_assoc, take_drop.
  destruct (_buffer r) eqn:E.
  - change (stream (wait_for_data (incoming r)) = stream r).
    rewrite wait_for_data_stream. unfold stream. now rewrite E.
  - unfold stream. now rewrite E.
Qed.

Lemma read_at_most n r :
  (0 <= n)%Z -> length (fst (read n r)) <= Z.to_nat n.
Proof.
  intros Hn. unfold read.
  destruct (Z.eqb_spec n 0) as [-> | Hnz]; [cbn; lia |].
  destruct (Z.ltb_spec n 0) as [Hneg | _]; [lia |].
  cbn [fst]. rewrite length_take. lia.
Qed.

Lemma read_exactly n r :
  (0 <= n)%Z -> Z.to_nat n <= length (_buffer r) ->
  length (fst (read n r)) = Z.to_nat n.
Proof.
  intros Hn Hb. unfold read.
  destruct (Z.eqb_spec n 0) as [-> | Hnz]; [reflexivity |].
  destruct (Z.ltb_spec n 0) as [Hneg | _]; [lia |].
  cbn [fst]. rewrite length_take.
  destruct (_buffer r) as [| c b] eqn:E; [cbn [length] in Hb; lia |].
  rewrite E. lia.
Qed.

Lemma read_body_reads headers n t1 :
  content_length headers = Ok n ->
  read_body headers t1
  = Some (Ok (fst (read n (reader t1))),
          mkTask (snd (read n (reader t1))) (sent t1) (closed t1)
            (records t1) (posted t1)).
Proof.
  intros H. unfold read_body, bind, lift, reader_read. rewrite H.
  now destruct (read n (reader t1)).
Qed.

Lemma malformed_length_unanswered r request_line headers t1 e :
  read_head (connection r) = Some (Ok (request_line, headers), t1) ->
  startswith request_line (lit "POST /goto") = true ->
  content_length headers = Raise e ->
  exists t,
    handle_client r = Some t /\ sent t = [] /\ closed t = true
    /\ records t
       = [mkLog ERROR (lit "Client handler error: " ++ exn_str e)].
Proof.
  intros Hh Hs Hc.
  destruct (read_head_fresh _ _ _ Hh) as (Hs1 & _ & Hr1 & Hp1).
  assert (Hserve : serve (connection r) = Some (Raise e, t1)).
  { rewrite (serve_post _ _ _ _ Hh Hs). unfold bind at 1, read_body.
    unfold bind, lift. now rewrite Hc. }
  rewrite (handle_client_raise r e t1 Hserve).
  eexists; split; [reflexivity |]. cbn. now rewrite Hs1, Hr1.
Qed.

Lemma integer_length_answered r request_line headers t1 n :
  read_head (connection r) = Some (Ok (request_line, headers), t1) ->
  startswith request_line (lit "POST /goto") = true ->
  content_length headers = Ok n ->
  exists body t2 t,
    read_body headers t1 = Some (Ok body, t2)
    /\ body = fst (read n (reader t1))
    /\ body ++ stream (reader t2) = stream (reader t1)
    /\ handle_client r = Some t
    /\ defined_response (sent t) /\ closed t = true.
Proof.
  intros Hh Hs Hc.
  pose proof (read_body_reads headers n t1 Hc) as Hb.
  destruct (respond_defined (fst (read n (reader t1)))
              (mkTask (snd (read n (reader t1))) (sent t1) (closed t1)
                 (records t1) (posted t1)))
    as (t3 & out & Hr & Hsent & _ & Hdef).
  destruct (handle_client_responds _ _ _ _ _ _ _ Hh Hs Hb Hr)
    as (Hc' & Hs2 & _).
  eexists _, _, _. split; [exact Hb |]. split; [reflexivity |].
  split; [apply read_splits |]. split; [exact Hc' |].
  cbn. rewrite Hsent, Hs2. auto.
Qed.

(** C4, as the code has it. On a request to [POST /goto]: without a
    Content-Length header the body is empty, nothing is read and one of
    the three responses is sent; with a header that [int] accepts as [n],
    the body is what one [read(n)] returns, a prefix of the stream of at
    most [n] octets for [n >= 0] (exactly [n] when the buffer holds that
    many), and one of the three responses is sent; with a header that
    [int] rejects the handler ends in the outer [except], logs the error
    and sends nothing. *)
Theorem content_length_governs_body r request_line headers t1 :
  read_head (connection r) = Some (Ok (request_line, headers), t1) ->
  startswith request_line (lit "POST /goto") = true ->
  (headers !! lit "content-length" = None ->
   exists t2 t,
     read_body headers t1 = Some (Ok [], t2) /\ reader t2 = reader t1
     /\ handle_client r = Some t /\ defined_response (sent t)
     /\ closed t = true)
  /\ (forall text n,
        headers !! lit "content-length" = Some text ->
        int_of_str 10 text = Ok n ->
        exists body t2 t,
          read_body headers t1 = Some (Ok body, t2)
          /\ body ++ stream (reader t2) = stream (reader t1)
          /\ ((0 <= n)%Z -> length body <= Z.to_nat n)
          /\ ((0 <= n)%Z -> Z.to_nat n <= length (_buffer (reader t1)) ->
              length body = Z.to_nat n)
          /\ handle_client r = Some t /\ defined_response (sent t)
          /\ closed t = true)
  /\ (forall text e,
        headers !! lit "content-length" = Some text ->
        int_of_str 10 text = Raise e ->
        exists t,
          handle_client r = Some t /\ sent t = [] /\ closed t = true
          /\ records t
             = [mkLog ERROR (lit "Client handler error: " ++ exn_str e)]).
Proof.
  intros Hh Hs. repeat split.
  - intros Hnone.
    assert (Hc : content_length headers = Ok 0%Z)
      by (unfold content_length; now rewrite Hnone).
    destruct (integer_length_answered _ _ _ _ _ Hh Hs Hc)
      as (body & t2 & t & Hb & -> & _ & Ht & Hdef & Hcl).
    rewrite (read_body_reads _ _ _ Hc) in Hb. injection Hb as <-.
    eexists _, t. split; [apply (read_body_reads _ _ _ Hc) |]. cbn. auto.
  - intros text n Htext Hint.
    assert (Hc : content_length headers = Ok n)
      by (unfold content_length; now rewrite Htext).
    destruct (integer_length_answered _ _ _ _ _ Hh Hs Hc)
      as (body & t2 & t & Hb & -> & Hsplit & Ht & Hdef & Hcl).
    exists (fst (read n (reader t1))), t2, t.
    split; [exact Hb |]. split; [exact Hsplit |].
    split; [apply read_at_most |]. split; [apply read_exactly |]. auto.
  - intros text e Htext Hint.
    apply (malformed_length_unanswered r request_line headers t1 e Hh Hs).
    unfold content_length. now rewrite Htext.
Qed.

End Handler.

(** ** The handler on the example connections *)

Import Py PyLib Asyncio Logging Ghidra DAPGhidraServer Spec Examples.

Lemma address_prefix_insensitive_witness :
  address_of ([32; 9] ++ lit "0x" ++ lit "1400" ++ [10])%N
  = address_of (lit "1400")
  /\ address_of (lit "1400") = (lit "1400", Ok 5120%Z).
Proof.
  assert (Hhex : Forall (fun c => hexdigit c = true) (lit "1400"))
    by (repeat constructor).
  assert (Hws1 : Forall (fun c => isspace c = true) [32; 9]%N)
    by (repeat constructor).
  assert (Hws2 : Forall (fun c => isspace c = true) [10]%N)
    by (repeat constructor).
  destruct (address_prefix_insensitive (lit "1400") [32; 9]%N [10]%N
              Hhex Hws1 Hws2) as (H0x & _ & _ & Hval).
  split; [exact H0x |]. apply Hval. discriminate.
Defined.

Lemma goto_accepted_witness :
  exists t,
    handle_client goto_1400 = Some t /\ sent t = response_200
    /\ closed t = true.
Proof.
  apply (goto_accepted goto_1400 (lit "POST /goto HTTP/1.1")
           {[ lit "content-length" := lit "20" ]}
           (connection (mkReader address_1400 []))
           address_1400 (connection (mkReader [] []))
           (map Byte.to_N address_1400)
           {[ lit "address" := VStr (lit "0x1400") ]} (lit "0x1400")).
  - vm_compute. reflexivity.
  - vm_compute. reflexivity.
  - vm_compute. reflexivity.
  - vm_compute. reflexivity.
  - vm_compute. reflexivity.
  - vm_compute. reflexivity.
  - discriminate.
Defined.

Lemma goto_without_address_witness :
  exists t,
    handle_client goto_empty = Some t /\ sent t = response_400
    /\ closed t = true /\ posted t = [].
Proof.
  apply (goto_without_address goto_empty (lit "POST /goto HTTP/1.1")
           {[ lit "content-length" := lit "14" ]}
           (connection (mkReader address_empty []))
           address_empty (connection (mkReader [] []))
           (map Byte.to_N address_empty)
           {[ lit "address" := VStr [] ]}).
  - vm_compute. reflexivity.
  - vm_compute. reflexivity.
  - vm_compute. reflexivity.
  - vm_compute. reflexivity.
  - vm_compute. reflexivity.
  - right. vm_compute. reflexivity.
Defined.


Lemma other_requests_not_found_witness :
  exists t,
    handle_client get_root = Some t /\ sent t = response_404
    /\ closed t = true /\ records t = [] /\ posted t = [].
Proof.
  apply (other_requests_not_found get_root (lit "GET / HTTP/1.1")
           {[ lit "host" := lit "localhost" ]}
           (connection (mkReader [] []))).
  - vm_compute. reflexivity.
  - vm_compute. reflexivity.
Defined.

(** C2 as stated fails: the request line is [GET / HTTP/1.1], a header
    line is not UTF-8, and the handler sends nothing. *)
Lemma undecodable_header_unanswered :
  request_line_of get_root_latin = Some (lit "GET / HTTP/1.1")
  /\ startswith (lit "GET / HTTP/1.1") (lit "POST /goto") = false
  /\ exists t,
       handle_client get_root_latin = Some t /\ sent t = []
       /\ sent t <> response_404 /\ closed t = true.
Proof.
  split; [vm_compute; reflexivity |]. split; [vm_compute; reflexivity |].
  exists (mkTask (mkReader CRLF []) [] true
            [mkLog ERROR
               (lit "Client handler error: 'utf-8' codec can't decode bytes")]
            []).
  split; [vm_compute; reflexivity |].
  split; [reflexivity |]. split; [discriminate | reflexivity].
Qed.

Lemma content_length_governs_body_witness :
  let headers : gmap str str := {[ lit "content-length" := lit "20" ]} in
  let t1 := connection (mkReader address_1400 []) in
  read_head (connection goto_1400)
  = Some (Ok (lit "POST /goto HTTP/1.1", headers), t1)
  /\ headers !! lit "content-length" = Some (lit "20")
  /\ int_of_str 10 (lit "20") = Ok 20%Z
  /\ exists body t2 t,
       read_body headers t1 = Some (Ok body, t2)
       /\ body ++ stream (reader t2) = stream (reader t1)
       /\ ((0 <= 20)%Z -> length body <= Z.to_nat 20)
       /\ ((0 <= 20)%Z -> Z.to_nat 20 <= length (_buffer (reader t1)) ->
           length body = Z.to_nat 20)
       /\ handle_client goto_1400 = Some t /\ defined_response (sent t)
       /\ closed t = true.
Proof.
  intros headers t1.
  assert (Hhead : read_head (connection goto_1400)
                  = Some (Ok (lit "POST /goto HTTP/1.1", headers), t1))
    by (vm_compute; reflexivity).
  assert (Hpost : startswith (lit "POST /goto HTTP/1.1") (lit "POST /goto")
                  = true) by (vm_compute; reflexivity).
  assert (Hlen : headers !! lit "content-length" = Some (lit "20"))
    by (vm_compute; reflexivity).
  assert (Hint : int_of_str 10 (lit "20") = Ok 20%Z)
    by (vm_compute; reflexivity).
  split; [exact Hhead |]. split; [exact Hlen |]. split; [exact Hint |].
  exact (proj1 (proj2 (content_length_governs_body goto_1400 _ headers t1
                         Hhead Hpost))
           (lit "20") 20%Z Hlen Hint).
Defined.

(** C4 as stated fails: with [Content-Length: abc] the length does not
    default to 0; [int] raises, and the request gets no response. *)
Lemma malformed_length_counterexample :
  let headers : gmap str str := {[ lit "content-length" := lit "abc" ]} in
  let e :=
    mkExn ValueError (lit "invalid literal for int() with base 10: 'abc'") in
  let t :=
    mkTask (mkReader address_1400 []) [] true
      [mkLog ERROR
         (lit "Client handler error: invalid literal for int() with base 10: 'abc'")]
      [] in
  read_head (connection goto_malformed_length)
  = Some (Ok (lit "POST /goto HTTP/1.1", headers),
          connection (mkReader address_1400 []))
  /\ startswith (lit "POST /goto HTTP/1.1") (lit "POST /goto") = true
  /\ headers !! lit "content-length" = Some (lit "abc")
  /\ content_length headers = Raise e
  /\ handle_client goto_malformed_length = Some t
  /\ sent t = [] /\ ~ defined_response (sent t).
Proof.
  intros headers e t.
  split; [vm_compute; reflexivity |]. split; [vm_compute; reflexivity |].
  split; [vm_compute; reflexivity |]. split; [vm_compute; reflexivity |].
  split; [vm_compute; reflexivity |]. split; [reflexivity |].
  cbn [sent t]. intros [H | [H | (message & head & body & H & Hbody & _)]];
    try discriminate H.
  symmetry in H. apply app_eq_nil in H. destruct H as [_ ->].
  discriminate Hbody.
Qed.

(** The body is what one [read] returns: when it arrives in two segments
    the handler takes the first, here 10 of the 20 octets announced. *)
Lemma body_in_pieces_read_short :
  let headers : gmap str str := {[ lit "content-length" := lit "20" ]} in
  let first := blit "{" ++ quoted "address" in
  let second := blit ":" ++ quoted "0x1400" ++ blit "}" in
  let t1 := connection (mkReader first [second]) in
  read_head (connection goto_in_pieces)
  = Some (Ok (lit "POST /goto HTTP/1.1", headers), t1)
  /\ content_length headers = Ok 20%Z
  /\ read_body headers t1
     = Some (Ok first, connection (mkReader [] [second]))
  /\ length first = 10.
Proof.
  intros headers first second t1.
  split; [vm_compute; reflexivity |]. split; [vm_compute; reflexivity |].
  split; [vm_compute; reflexivity |]. reflexivity.
Qed.

(** C1 as stated fails. The request line is [POST /goto HTTP/1.1], the
    head announces 20 octets and the body sent is [{"address":"0x1400"}],
    a JSON object with a non-empty address; it arrives in two segments.
    The handler decodes what its one [read] returned, the first segment,
    and answers [500 Internal Server Error]; nothing is posted. *)
Lemma goto_in_two_segments_answered_500 :
  request_line_of goto_in_pieces = Some (lit "POST /goto HTTP/1.1")
  /\ startswith (lit "POST /goto HTTP/1.1") (lit "POST /goto") = true
  /\ stream goto_in_pieces
     = request ["POST /goto HTTP/1.1"; "Content-Length: 20"]%string
         address_1400
  /\ decode address_1400 = Some (map Byte.to_N address_1400)
  /\ json_loads (map Byte.to_N address_1400)
     = Ok (VDict {[ lit "address" := VStr (lit "0x1400") ]})
  /\ exists t,
       handle_client goto_in_pieces = Some t
       /\ (exists message, is_response_500 message (sent t))
       /\ sent t <> response_200
       /\ closed t = true
       /\ posted t = [].
Proof.
  split; [vm_compute; reflexivity |]. split; [reflexivity |].
  split; [vm_compute; reflexivity |]. split; [vm_compute; reflexivity |].
  split; [vm_compute; reflexivity |].
  destruct (handle_client goto_in_pieces) as [t |] eqn:Ht;
    [| vm_compute in Ht; discriminate Ht].
  exists t. split; [reflexivity |].
  vm_compute in Ht. injection Ht as <-. cbn [sent closed posted].
  split.
  - exists (lit "Expecting value").
    match goal with
    | |- is_response_500 _ ?out =>
        exists (firstn 90 out), (skipn 90 out)
    end.
    split; [reflexivity |]. split; vm_compute; reflexivity.
  - split; [discriminate |]. split; reflexivity.
Qed.

(** C3 as stated fails. The body sent is [{"address":""}], a JSON object
    with the empty address, announced with its 14 octets; it arrives in two
    segments, the handler decodes the first and answers
    [500 Internal Server Error], not [400 Bad Request]. *)
Lemma empty_address_in_two_segments_answered_500 :
  request_line_of goto_empty_in_pieces = Some (lit "POST /goto HTTP/1.1")
  /\ startswith (lit "POST /goto HTTP/1.1") (lit "POST /goto") = true
  /\ stream goto_empty_in_pieces
     = request ["POST /goto HTTP/1.1"; "Content-Length: 14"]%string
         address_empty
  /\ decode address_empty = Some (map Byte.to_N address_empty)
  /\ json_loads (map Byte.to_N address_empty)
     = Ok (VDict {[ lit "address" := VStr [] ]})
  /\ exists t,
       handle_client goto_empty_in_pieces = Some t
       /\ (exists message, is_response_500 message (sent t))
       /\ sent t <> response_400
       /\ closed t = true
       /\ posted t = [].
Proof.
  split; [vm_compute; reflexivity |]. split; [reflexivity |].
  split; [vm_compute; reflexivity |]. split; [vm_compute; reflexivity |].
  split; [vm_compute; reflexivity |].
  destruct (handle_client goto_empty_in_pieces) as [t |] eqn:Ht;
    [| vm_compute in Ht; discriminate Ht].
  exists t. split; [reflexivity |].
  vm_compute in Ht. injection Ht as <-. cbn [sent closed posted].
  split.
  - exists (lit "Expecting value").
    match goal with
    | |- is_response_500 _ ?out =>
        exists (firstn 90 out), (skipn 90 out)
    end.
    split; [reflexivity |]. split; vm_compute; reflexivity.
  - split; [discriminate |]. split; reflexivity.
Qed.

(** An address that is no hexadecimal number: the error is logged and
    nothing is posted. *)
Lemma goto_address_example :
  goto_address (VStr (lit " 0xZZ ")) (connection (arriving []))
  = Some (Ok tt,
          mkTask (arriving []) [] false
            [mkLog ERROR (lit "Invalid address format: ZZ")] []).
Proof. vm_compute. reflexivity. Qed.

(** ** Signs, prefixes and underscores in an address *)

Section Literals.
Import Py Spec.
Local Open Scope N_scope.

Lemma scan_hexdigits_app s rest acc :
  hexdigits s ->
  scan_digits 16 false acc (s ++ rest)
  = scan_digits 16 false
      (rev (map (fun c => default 0 (digit_value c)) s) ++ acc) rest.
Proof.
  intros H. revert acc.
  induction H as [| c s Hc _ IH]; intros acc; [reflexivity |].
  cbn [app scan_digits].
  destruct (hexdigit_plain c Hc) as (_ & _ & _ & -> & _).
  destruct (hexdigit_digit c Hc) as (d & Hd & Hlt).
  rewrite Hd, Hlt, IH. cbn [map rev]. rewrite Hd. cbn [default].
  now rewrite <- app_assoc.
Qed.

(** What [int(text, 16)] does once the sign and the prefix are read. *)
Lemma long_from_string_unfold m s :
  long_from_string m 16 s
  = let '(negative, s1) := skip_sign (skip c_isspace s) in
    let s2 := skip_prefix 16 s1 in
    if leading_underscore s2 then None
    else
      match scan_digits 16 false [] s2 with
      | None => None
      | Some (ds, rest) =>
          match ds, skip c_isspace rest with
          | _ :: _, [] =>
              let v := Z.of_N (digits_value 16 ds) in
              Some (if negative then (- v)%Z else v)
          | _, _ => None
          end
      end.
Proof.
  unfold long_from_string. destruct (skip_sign _) as [negative s1].
  cbn zeta. destruct (leading_underscore _); [reflexivity |].
  destruct (scan_digits _ _ _ _) as [[ds rest] |]; [| reflexivity].
  rewrite is_pow16. reflexivity.
Qed.

Lemma hexdigits_head_plain s :
  hexdigits s -> s <> [] ->
  skip c_isspace s = s /\ skip_sign s = (false, s)
  /\ skip_prefix 16 s = s /\ leading_underscore s = false.
Proof.
  intros H Hne. destruct H as [| c s Hc Hs]; [congruence |].
  destruct (hexdigit_plain c Hc) as (_ & Hsp & _ & Hus & Hplus & Hminus & _).
  repeat split.
  - now apply skip_stop.
  - unfold skip_sign. now rewrite Hplus, Hminus.
  - unfold skip_prefix. destruct Hs as [| x s Hx _]; [reflexivity |].
    destruct (hexdigit_plain x Hx) as (_ & _ & _ & _ & _ & _ & -> & ->).
    cbn. now rewrite andb_false_r.
  - exact Hus.
Qed.

Lemma digits_nonempty s :
  s <> [] -> map (fun c => default 0 (digit_value c)) s <> [].
Proof. now destruct s. Qed.

(** The digits scanned, with the sign and the prefix read before them. *)
Lemma long_from_digits_tail m (negative : bool) pre s1 s :
  skip_sign (skip c_isspace pre) = (negative, s1) ->
  skip_prefix 16 s1 = s ->
  hexdigits s -> s <> [] ->
  long_from_string m 16 pre
  = Some (if negative then (- Z.of_N (hex_value s))%Z
          else Z.of_N (hex_value s)).
Proof.
  intros Hpre Hs1 H Hne. rewrite long_from_string_unfold, Hpre.
  cbn zeta. rewrite Hs1.
  destruct (hexdigits_head_plain s H Hne) as (_ & _ & _ & ->).
  rewrite scan_hexdigits by exact H. cbn [rev app].
  pose proof (digits_nonempty s Hne) as Hd.
  destruct (map _ s) as [| d ds] eqn:E; [congruence |].
  cbn [skip]. rewrite <- E. now rewrite digits_value_hex.
Qed.


Lemma nonspace_trimmed t :
  Forall (fun c => isspace c = false) t -> trimmed t.
Proof.
  intros H. split.
  - destruct H; [easy | assumption].
  - apply Forall_rev_list in H. destruct H; [easy | assumption].
Qed.

Lemma hexdigits_nonspace s :
  hexdigits s -> Forall (fun c => isspace c = false) s.
Proof.
  intros H. eapply Forall_impl; [exact H |].
  intros c Hc. now apply hexdigit_plain.
Qed.

Lemma forallb_skip (q p : N -> bool) s :
  forallb q s = true -> forallb q (skip p s) = true.
Proof.
  induction s as [| c s IH]; [easy |]. cbn [skip forallb].
  intros H. apply andb_prop in H. destruct H as [Hc Hs].
  destruct (p c); [auto |]. cbn [forallb]. now rewrite Hc, Hs.
Qed.

Lemma forallb_rev_list (q : N -> bool) s :
  forallb q (rev s) = forallb q s.
Proof.
  induction s as [| c s IH]; [easy |]. cbn [rev forallb].
  rewrite forallb_app, IH. cbn. rewrite andb_true_r. apply andb_comm.
Qed.

Lemma isascii_strip s : isascii s = true -> isascii (strip s) = true.
Proof.
  intros H. unfold isascii, strip, rstrip, lstrip in *.
  rewrite forallb_rev_list. apply forallb_skip.
  rewrite forallb_rev_list. now apply forallb_skip.
Qed.

Lemma isascii_drop n s : isascii s = true -> isascii (drop n s) = true.
Proof.
  unfold isascii. revert n. induction s as [| c s IH]; intros [| n] H;
    try easy.
  cbn [drop]. apply IH. cbn in H. now apply andb_prop in H.
Qed.

Lemma In_skip (p : N -> bool) c s :
  In c s -> p c = false -> In c (skip p s).
Proof.
  intros Hin Hp. induction s as [| x s IH]; [easy |]. cbn [skip].
  destruct (p x) eqn:Hx; [| exact Hin].
  destruct Hin as [-> | Hin]; [congruence | auto].
Qed.

Lemma In_strip c s : In c s -> isspace c = false -> In c (strip s).
Proof.
  intros Hin Hc. unfold strip, rstrip, lstrip.
  apply in_rev. rewrite rev_involutive.
  apply In_skip; [| exact Hc]. apply in_rev. rewrite rev_involutive.
  now apply In_skip.
Qed.

Lemma skip_split (p : N -> bool) s :
  exists ws, s = ws ++ skip p s /\ Forall (fun c => p c = true) ws.
Proof.
  induction s as [| c s (ws & Hs & Hws)]; [now exists [] |].
  cbn [skip]. destruct (p c) eqn:Hc; [| now exists []].
  exists (c :: ws). split; [cbn; now rewrite <- Hs | now constructor].
Qed.

Lemma skip_nil (p : N -> bool) s :
  skip p s = [] -> Forall (fun c => p c = true) s.
Proof.
  induction s as [| c s IH]; [constructor |]. cbn [skip].
  destruct (p c) eqn:Hc; [| discriminate]. intros H. constructor; auto.
Qed.

Lemma digit_hexdigit c d :
  digit_value c = Some d -> (d <? 16) = true -> hexdigit c = true.
Proof.
  unfold digit_value, hexdigit, between. intros Hd Hlt.
  apply N.ltb_lt in Hlt.
  repeat match goal with
         | H : context [?a <=? ?b] |- _ => destruct (N.leb_spec a b)
         | |- context [?a <=? ?b] => destruct (N.leb_spec a b)
         end; cbn in *; try discriminate; try reflexivity;
    injection Hd as <-; lia.
Qed.

(** The text the digit scan reads is made of digits and underscores. *)
Lemma scan_digits_split s : forall prev_us acc ds rest,
  scan_digits 16 prev_us acc s = Some (ds, rest) ->
  exists body,
    s = body ++ rest
    /\ Forall (fun c => hexdigit c || (c =? 95) = true) body.
Proof.
  induction s as [| c s IH]; intros prev_us acc ds rest; cbn [scan_digits].
  - destruct prev_us; [discriminate |]. intros [= _ <-]. now exists [].
  - destruct (c =? 95) eqn:Hus.
    + destruct prev_us; [discriminate |]. intros H.
      destruct (IH _ _ _ _ H) as (body & -> & Hb).
      exists (c :: body). split; [reflexivity |]. constructor; [| exact Hb].
      now rewrite Hus, orb_true_r.
    + destruct (digit_value c) as [d |] eqn:Hd.
      * destruct (d <? 16) eqn:Hlt.
        -- intros H. destruct (IH _ _ _ _ H) as (body & -> & Hb).
           exists (c :: body). split; [reflexivity |].
           constructor; [| exact Hb].
           now rewrite (digit_hexdigit c d Hd Hlt).
        -- destruct prev_us; [discriminate |]. intros [= _ <-].
           now exists [].
      * destruct prev_us; [discriminate |]. intros [= _ <-]. now exists [].
Qed.

Lemma c_isspace_isspace c : c_isspace c = true -> isspace c = true.
Proof.
  unfold c_isspace, isspace. intros H.
  apply orb_prop in H. destruct H as [H | H].
  - apply N.eqb_eq in H. now subst c.
  - apply andb_prop in H. destruct H as [H1 H2]. now rewrite H1, H2.
Qed.

Lemma address_char_cases c :
  hexdigit c = true \/ c = 95 \/ c = 43 \/ c = 45 \/ c = 120 \/ c = 88
  \/ isspace c = true ->
  address_char c = true.
Proof.
  unfold address_char.
  intros [H | [-> | [-> | [-> | [-> | [-> | H]]]]]]; try reflexivity.
  - now rewrite H.
  - rewrite H. now rewrite !orb_true_r.
Qed.

(** Every character of a text that [int(text, 16)] accepts is a digit of
    the base, an underscore, a sign, the letter of the prefix or white
    space. *)
Lemma long_from_string_chars m s z :
  long_from_string m 16 s = Some z ->
  Forall (fun c => address_char c = true) s.
Proof.
  rewrite long_from_string_unfold.
  destruct (skip_split c_isspace s) as (ws & Hs & Hws).
  assert (Hws' : Forall (fun c => address_char c = true) ws).
  { eapply Forall_impl; [exact Hws |]. intros c Hc.
    apply address_char_cases. do 6 right. now apply c_isspace_isspace. }
  rewrite Hs at 2. generalize (skip c_isspace s). clear Hs. intros s0.
  intros H. apply Forall_app. split; [exact Hws' |]. clear ws Hws Hws'.
  assert (Hsign : exists negative pre s1,
             s0 = pre ++ s1 /\ skip_sign s0 = (negative, s1)
             /\ Forall (fun c => address_char c = true) pre).
  { unfold skip_sign. destruct s0 as [| c t]; [now exists false, [], [] |].
    destruct (N.eqb_spec c 43) as [-> | _];
      [exists false, [43], t; repeat split; repeat constructor |].
    destruct (N.eqb_spec c 45) as [-> | _];
      [exists true, [45], t; repeat split; repeat constructor |].
    exists false, [], (c :: t). repeat split. constructor. }
  destruct Hsign as (negative & pre & s1 & Hs0 & Hsign & Hpre).
  rewrite Hsign in H. subst s0. apply Forall_app. split; [exact Hpre |].
  clear pre Hsign Hpre. cbn zeta in H.
  assert (Hprefix : exists pre,
             s1 = pre ++ skip_prefix 16 s1
             /\ Forall (fun c => address_char c = true) pre).
  { unfold skip_prefix. destruct s1 as [| c0 [| c1 t]]; try now exists [].
    destruct (N.eqb_spec c0 48) as [-> | _]; [| now exists []].
    cbn [andb]. rewrite !andb_false_l, !orb_false_r. cbn [andb].
    destruct (N.eqb_spec c1 120) as [-> | _].
    - destruct t as [| c2 t]; [exists [48; 120] | ].
      + split; [reflexivity | repeat constructor].
      + destruct (N.eqb_spec c2 95) as [-> | _].
        * exists [48; 120; 95]. split; [reflexivity | repeat constructor].
        * exists [48; 120]. split; [reflexivity | repeat constructor].
    - cbn [orb]. destruct (N.eqb_spec c1 88) as [-> | _]; [| now exists []].
      destruct t as [| c2 t]; [exists [48; 88] | ].
      + split; [reflexivity | repeat constructor].
      + destruct (N.eqb_spec c2 95) as [-> | _].
        * exists [48; 88; 95]. split; [reflexivity | repeat constructor].
        * exists [48; 88]. split; [reflexivity | repeat constructor]. }
  destruct Hprefix as (pre & Hs1 & Hpre).
  rewrite Hs1. apply Forall_app. split; [exact Hpre |].
  generalize dependent (skip_prefix 16 s1). clear. intros s2 H _.
  destruct (leading_underscore s2); [discriminate |].
  destruct (scan_digits 16 false [] s2) as [[ds rest] |] eqn:Hscan;
    [| discriminate].
  destruct (scan_digits_split _ _ _ _ _ Hscan) as (body & -> & Hbody).
  apply Forall_app. split.
  - eapply Forall_impl; [exact Hbody |]. intros c Hc.
    apply address_char_cases. apply orb_prop in Hc.
    destruct Hc as [Hc | Hc]; [now left | right; left; now apply N.eqb_eq].
  - destruct ds; [discriminate |].
    destruct (skip c_isspace rest) eqn:Hrest; [| discriminate].
    apply skip_nil in Hrest. eapply Forall_impl; [exact Hrest |].
    intros c Hc. apply address_char_cases. do 6 right.
    now apply c_isspace_isspace.
Qed.

End Literals.

Section Addresses.
Import Py PyLib Asyncio Logging Ghidra DAPGhidraServer Spec.
Context {rt : Runtime}.
Local Open Scope N_scope.

Lemma address_of_trimmed ws1 t ws2 :
  trimmed t -> spaces ws1 -> spaces ws2 ->
  address_of (ws1 ++ t ++ ws2)
  = (let text :=
       if startswith t (lit "0x") || startswith t (lit "0X")
       then drop 2 t else t in
     (text, int_of_str 16 text)).
Proof.
  intros Ht H1 H2. unfold address_of. now rewrite strip_padded.
Qed.

Lemma int_of_str_ascii base t z :
  isascii t = true ->
  long_from_string int_max_str_digits base t = Some z ->
  int_of_str base t = Ok z.
Proof. intros Ha Hz. unfold int_of_str. now rewrite Ha, Hz. Qed.

Lemma int_of_str_ascii_raise base t :
  isascii t = true ->
  long_from_string int_max_str_digits base t = None ->
  int_of_str base t = Raise (mkExn ValueError (int_error_str base t)).
Proof. intros Ha Hz. unfold int_of_str. now rewrite Ha, Hz. Qed.

Lemma skip_prefix_hex x c s :
  x = 120 \/ x = 88 -> hexdigit c = true ->
  skip_prefix 16 (48 :: x :: c :: s) = c :: s.
Proof.
  intros Hx Hc. destruct (hexdigit_plain c Hc) as (_ & _ & _ & Hus & _).
  unfold skip_prefix. rewrite Hus. now destruct Hx as [-> | ->].
Qed.

(** [goto_address] on a text that [int] rejects, and on one it accepts. *)
Lemma goto_address_rejects s text e t :
  address_of s = (text, Raise e) ->
  goto_address (VStr s) t
  = Some (Ok tt,
          mkTask (reader t) (sent t) (closed t)
            (records t
               ++ [mkLog ERROR (lit "Invalid address format: " ++ text)])
            (posted t)).
Proof.
  intros Ha. pose proof (address_of_raises s e) as He.
  rewrite Ha in He. specialize (He eq_refl).
  unfold goto_address. rewrite Ha.
  unfold try_except, bind, lift. now rewrite He.
Qed.

Lemma goto_address_posts s text z t :
  address_of s = (text, Ok z) -> invokeLater_error = None ->
  goto_address (VStr s) t
  = Some (Ok tt,
          mkTask (reader t) (sent t) (closed t) (records t)
            (posted t ++ [mkCommand z text])).
Proof.
  intros Ha Hswing. unfold goto_address. rewrite Ha.
  unfold try_except, bind, lift, invokeLater. now rewrite Hswing.
Qed.

Lemma goto_address_not_str v t :
  (forall s, v <> VStr s) ->
  goto_address v t
  = Some (Ok tt,
          mkTask (reader t) (sent t) (closed t)
            (records t
               ++ [mkLog ERROR
                     (lit "Address parsing error: "
                        ++ exn_str (no_attribute v "strip"))])
            (posted t)).
Proof. intros Hv. destruct v; try reflexivity. now destruct (Hv s). Qed.

(** X1. A sign is accepted, before the prefix or after it: the text
    ["-" + s], with white space around it or not, parses to the negative of
    the number [s] writes, ["+" + s] to the number itself; ["-0x" + s] is
    handed to [int] with its prefix, ["0x-" + s] without it, and both give
    the negative number. *)
Theorem address_sign_accepted (s ws1 ws2 : str) :
  hexdigits s -> s <> [] -> spaces ws1 -> spaces ws2 ->
  address_of (ws1 ++ lit "-" ++ s ++ ws2)
  = (lit "-" ++ s, Ok (- Z.of_N (hex_value s))%Z)
  /\ address_of (ws1 ++ lit "+" ++ s ++ ws2)
     = (lit "+" ++ s, Ok (Z.of_N (hex_value s)))
  /\ address_of (ws1 ++ lit "-0x" ++ s ++ ws2)
     = (lit "-0x" ++ s, Ok (- Z.of_N (hex_value s))%Z)
  /\ address_of (ws1 ++ lit "0x-" ++ s ++ ws2)
     = (lit "-" ++ s, Ok (- Z.of_N (hex_value s))%Z).
Proof.
  intros H Hne H1 H2.
  pose proof (hexdigits_nonspace s H) as Hns.
  pose proof (hexdigits_ascii s H) as Hascii.
  destruct (hexdigits_head_plain s H Hne) as (_ & _ & Hpre & _).
  assert (Hminus : int_of_str 16 (45 :: s) = Ok (- Z.of_N (hex_value s))%Z).
  { apply int_of_str_ascii; [exact Hascii |].
    now apply (long_from_digits_tail _ true (45 :: s) s s). }
  change (lit "-") with [45]. change (lit "+") with [43].
  change (lit "-0x") with [45; 48; 120]. change (lit "0x-") with [48; 120; 45].
  repeat split.
  - rewrite (app_assoc [45] s ws2), address_of_trimmed; auto.
    + cbn. now rewrite Hminus.
    + apply nonspace_trimmed. now constructor.
  - rewrite (app_assoc [43] s ws2), address_of_trimmed; auto.
    + cbn. f_equal. apply int_of_str_ascii; [exact Hascii |].
      now apply (long_from_digits_tail _ false (43 :: s) s s).
    + apply nonspace_trimmed. now constructor.
  - rewrite (app_assoc [45; 48; 120] s ws2), address_of_trimmed; auto.
    + cbn. f_equal. apply int_of_str_ascii; [exact Hascii |].
      apply (long_from_digits_tail _ true _ (48 :: 120 :: s) s); auto.
      destruct H as [| c s Hc Hs]; [congruence |].
      apply skip_prefix_hex; auto.
    + apply nonspace_trimmed. now repeat constructor.
  - rewrite (app_assoc [48; 120; 45] s ws2), address_of_trimmed; auto.
    + cbn. now rewrite Hminus.
    + apply nonspace_trimmed. now repeat constructor.
Qed.

(** X2. The prefix is read twice, once by [goto_address] and once by
    [int]: ["0x0x" + s], in either case of the two letters, parses to the
    number [s] writes, and the text handed to [int] still has one
    prefix. *)
Theorem address_prefix_twice (s ws1 ws2 : str) (x1 x2 : N) :
  hexdigits s -> s <> [] -> spaces ws1 -> spaces ws2 ->
  x1 = 120 \/ x1 = 88 -> x2 = 120 \/ x2 = 88 ->
  address_of (ws1 ++ [48; x1; 48; x2] ++ s ++ ws2)
  = ([48; x2] ++ s, Ok (Z.of_N (hex_value s))).
Proof.
  intros H Hne H1 H2 Hx1 Hx2.
  pose proof (hexdigits_nonspace s H) as Hns.
  pose proof (hexdigits_ascii s H) as Hascii.
  rewrite (app_assoc [48; x1; 48; x2] s ws2), address_of_trimmed; auto.
  - assert (Hstart :
      startswith ([48; x1; 48; x2] ++ s) (lit "0x")
      || startswith ([48; x1; 48; x2] ++ s) (lit "0X") = true)
      by (destruct Hx1 as [-> | ->]; reflexivity).
    cbn zeta. rewrite Hstart. cbn [app drop]. f_equal.
    apply int_of_str_ascii.
    + unfold isascii in *. cbn [forallb]. rewrite Hascii.
      now destruct Hx2 as [-> | ->].
    + apply (long_from_digits_tail _ false _ (48 :: x2 :: s) s); auto.
      destruct H as [| c s Hc Hs]; [congruence |].
      apply skip_prefix_hex; auto.
  - apply nonspace_trimmed.
    destruct Hx1 as [-> | ->], Hx2 as [-> | ->]; now repeat constructor.
Qed.


Lemma scan_underscore s1 s2 :
  hexdigits s1 -> hexdigits s2 -> s2 <> [] ->
  scan_digits 16 false [] (s1 ++ 95 :: s2)
  = Some (map (fun c => default 0 (digit_value c)) (s1 ++ s2), []).
Proof.
  intros H1 H2 Hne. rewrite scan_hexdigits_app by exact H1.
  destruct H2 as [| c s2 Hc Hs2]; [congruence |].
  cbn [scan_digits N.eqb Pos.eqb].
  destruct (hexdigit_plain c Hc) as (_ & _ & _ & Hus & _).
  destruct (hexdigit_digit c Hc) as (d & Hd & Hlt).
  rewrite Hus, Hd, Hlt, scan_hexdigits by exact Hs2.
  f_equal. f_equal. rewrite map_app. cbn [map rev]. rewrite Hd.
  cbn [default]. rewrite app_nil_r, rev_involutive, <- app_assoc.
  reflexivity.
Qed.

(** X3. Underscores: one underscore between two digits is read over, as
    [int] does, so [s1 + "_" + s2] parses to the number [s1 + s2] writes.
    After the prefix it is different: [int] alone takes ["0x_" + s], but
    [goto_address] has removed the prefix before it calls [int], which then
    sees a leading underscore and raises. *)
Theorem address_underscores (s1 s2 ws1 ws2 : str) :
  hexdigits s1 -> s1 <> [] -> hexdigits s2 -> s2 <> [] ->
  spaces ws1 -> spaces ws2 ->
  address_of (ws1 ++ (s1 ++ lit "_" ++ s2) ++ ws2)
  = (s1 ++ lit "_" ++ s2, Ok (Z.of_N (hex_value (s1 ++ s2))))
  /\ int_of_str 16 (lit "0x_" ++ s2) = Ok (Z.of_N (hex_value s2))
  /\ address_of (ws1 ++ (lit "0x_" ++ s2) ++ ws2)
     = (lit "_" ++ s2,
        Raise (mkExn ValueError (int_error_str 16 (lit "_" ++ s2)))).
Proof.
  intros H1 Hne1 H2 Hne2 Hw1 Hw2.
  change (lit "_") with [95]. change (lit "0x_") with [48; 120; 95].
  pose proof (hexdigits_ascii s1 H1) as Ha1.
  pose proof (hexdigits_ascii s2 H2) as Ha2.
  assert (Hns : Forall (fun c => isspace c = false) (s1 ++ [95] ++ s2)).
  { apply Forall_app. split; [now apply hexdigits_nonspace |].
    constructor; [reflexivity | now apply hexdigits_nonspace]. }
  repeat split.
  - rewrite address_of_trimmed by (auto using nonspace_trimmed).
    assert (Hhead : exists c t, s1 ++ [95] ++ s2 = c :: t
                                /\ hexdigit c = true
                                /\ match t with
                                   | x :: _ => (x =? 120) = false
                                               /\ (x =? 88) = false
                                   | [] => True
                                   end).
    { destruct H1 as [| c s1 Hc Hs1]; [congruence |].
      exists c, (s1 ++ [95] ++ s2). split; [reflexivity |].
      split; [exact Hc |].
      destruct Hs1 as [| x s1 Hx _]; [now cbn |]. cbn.
      now destruct (hexdigit_plain x Hx) as (_ & _ & _ & _ & _ & _ & -> & ->). }
    destruct Hhead as (c & t & Et & Hc & Hx).
    destruct (hexdigit_plain c Hc) as (_ & Hsp & _ & Hus & Hplus & Hminus & _).
    assert (Hstart : startswith (c :: t) (lit "0x")
                     || startswith (c :: t) (lit "0X") = false).
    { change (lit "0x") with [48; 120]. change (lit "0X") with [48; 88].
      destruct t as [| x t]; cbn; [now rewrite !andb_false_r |].
      destruct Hx as [-> ->]. now rewrite !andb_false_r. }
    cbn zeta. rewrite Et, Hstart, <- Et. f_equal.
    apply int_of_str_ascii.
    { rewrite !isascii_app, Ha1, Ha2. reflexivity. }
    rewrite long_from_string_unfold, Et, skip_stop by exact Hsp.
    unfold skip_sign. rewrite Hplus, Hminus.
    assert (Hpre : skip_prefix 16 (c :: t) = c :: t).
    { unfold skip_prefix. destruct t as [| x t]; [reflexivity |].
      destruct Hx as [-> ->]. cbn. now rewrite andb_false_r. }
    cbn zeta. rewrite Hpre. unfold leading_underscore. rewrite Hus.
    rewrite <- Et. change (s1 ++ [95] ++ s2) with (s1 ++ 95 :: s2).
    rewrite scan_underscore by assumption.
    assert (Hd : map (fun c => default 0 (digit_value c)) (s1 ++ s2) <> []).
    { apply digits_nonempty. destruct s1; [congruence | discriminate]. }
    destruct (map _ (s1 ++ s2)) as [| d ds] eqn:E; [congruence |].
    cbn [skip]. rewrite <- E. now rewrite digits_value_hex.
  - apply int_of_str_ascii.
    { unfold isascii in *. cbn [app forallb]. now rewrite Ha2. }
    apply (long_from_digits_tail _ false _ ([48; 120; 95] ++ s2) s2); auto.
  - rewrite address_of_trimmed; auto.
    + cbn zeta. cbn [app startswith N.eqb Pos.eqb andb orb drop].
      f_equal. apply int_of_str_ascii_raise.
      { unfold isascii in *. cbn [forallb]. now rewrite Ha2. }
      rewrite long_from_string_unfold.
      destruct s2 as [| c2 s2]; [congruence | reflexivity].
    + apply nonspace_trimmed. repeat constructor.
      now apply hexdigits_nonspace.
Qed.

(** X4. A text of white space only, or a prefix with nothing after it:
    the text handed to [int] is empty, [int] raises, and [goto_address]
    logs the error with no text after the colon and posts nothing. *)
Theorem blank_address_rejected (ws1 ws2 : str) (x : N) (t : Task) :
  spaces ws1 -> spaces ws2 -> x = 120 \/ x = 88 ->
  let rejected :=
    Some (Ok tt,
          mkTask (reader t) (sent t) (closed t)
            (records t ++ [mkLog ERROR (lit "Invalid address format: ")])
            (posted t)) in
  address_of (ws1 ++ ws2)
  = ([], Raise (mkExn ValueError (int_error_str 16 [])))
  /\ address_of (ws1 ++ [48; x] ++ ws2)
     = ([], Raise (mkExn ValueError (int_error_str 16 [])))
  /\ goto_address (VStr (ws1 ++ ws2)) t = rejected
  /\ goto_address (VStr (ws1 ++ [48; x] ++ ws2)) t = rejected.
Proof.
  intros H1 H2 Hx rejected.
  assert (Hblank : address_of (ws1 ++ ws2)
                   = ([], Raise (mkExn ValueError (int_error_str 16 [])))).
  { change (ws1 ++ ws2) with (ws1 ++ [] ++ ws2).
    rewrite address_of_trimmed by (auto; now split). reflexivity. }
  assert (Hprefix : address_of (ws1 ++ [48; x] ++ ws2)
                    = ([], Raise (mkExn ValueError (int_error_str 16 [])))).
  { rewrite address_of_trimmed; auto.
    - destruct Hx as [-> | ->]; reflexivity.
    - apply nonspace_trimmed. destruct Hx as [-> | ->]; now repeat constructor. }
  split; [exact Hblank |]. split; [exact Hprefix |].
  split; subst rejected.
  - rewrite (goto_address_rejects _ _ _ t Hblank).
    now rewrite app_nil_r.
  - rewrite (goto_address_rejects _ _ _ t Hprefix).
    now rewrite app_nil_r.
Qed.

(** X5. A text in ASCII that holds a character which is no hexadecimal
    digit, underscore, sign, [x], [X] or white space is never taken for an
    address: [int] raises [ValueError], [goto_address] logs the text as it
    stood before [int] and posts nothing. *)
Theorem foreign_character_rejected (s : str) (c : N) (t : Task) :
  isascii s = true -> In c s -> address_char c = false ->
  exists text,
    address_of s = (text, Raise (mkExn ValueError (int_error_str 16 text)))
    /\ goto_address (VStr s) t
       = Some (Ok tt,
               mkTask (reader t) (sent t) (closed t)
                 (records t
                    ++ [mkLog ERROR (lit "Invalid address format: " ++ text)])
                 (posted t)).
Proof.
  intros Hascii Hin Hc.
  assert (Hsp : isspace c = false).
  { destruct (isspace c) eqn:E; [| reflexivity].
    rewrite address_char_cases in Hc by auto 10. discriminate. }
  pose proof (In_strip c s Hin Hsp) as Hin0.
  pose proof (isascii_strip s Hascii) as Ha0.
  set (text := fst (address_of s)).
  assert (Htext : isascii text = true /\ In c text).
  { subst text. unfold address_of. cbn [fst].
    destruct (startswith (strip s) (lit "0x")
              || startswith (strip s) (lit "0X")) eqn:Hstart; [| auto].
    split; [now apply isascii_drop |].
    change (lit "0x") with [48; 120] in Hstart.
    change (lit "0X") with [48; 88] in Hstart.
    destruct (strip s) as [| c0 [| c1 rest]]; cbn in Hstart;
      rewrite ?andb_false_r, ?andb_true_r in Hstart;
      try discriminate Hstart.
    destruct (N.eqb_spec c0 48) as [-> | _]; [| discriminate].
    cbn [andb] in Hstart.
    destruct Hin0 as [<- | [<- | Hin0]]; [discriminate Hc | | exact Hin0].
    apply orb_prop in Hstart.
    destruct Hstart as [E | E]; apply N.eqb_eq in E; subst c1;
      discriminate Hc. }
  destruct Htext as [Ha Hint].
  assert (Hraise : address_of s
                   = (text, Raise (mkExn ValueError (int_error_str 16 text)))).
  { subst text. unfold address_of at 1. cbn [fst]. f_equal.
    unfold address_of in Ha, Hint |- *. cbn [fst] in Ha, Hint |- *.
    apply int_of_str_ascii_raise; [exact Ha |].
    match goal with
    | |- long_from_string ?m 16 ?x = None =>
        destruct (long_from_string m 16 x) as [z |] eqn:Hz; [| reflexivity]
    end.
    apply long_from_string_chars in Hz.
    rewrite List.Forall_forall in Hz. specialize (Hz c Hint). congruence. }
  exists text. split; [exact Hraise |].
  exact (goto_address_rejects _ _ _ t Hraise).
Qed.

End Addresses.

(** ** Every connection *)

Section Connections.
Import Py PyLib Asyncio Logging Ghidra DAPGhidraServer Spec.
Context {rt : Runtime}.

(** What [goto_address] changes: nothing but the log, or nothing but the
    Swing queue, which gets one command. *)
Lemma goto_address_effect v t :
  exists t',
    goto_address v t = Some (Ok tt, t')
    /\ reader t' = reader t /\ sent t' = sent t /\ closed t' = closed t
    /\ (posted t' = posted t
        \/ exists c, posted t' = posted t ++ [c] /\ records t' = records t).
Proof.
  destruct v as [| b | z | f | s | l | d];
    try (eexists; split; [reflexivity |]; cbn; auto).
  unfold goto_address.
  destruct (address_of s) as [text [z | e]];
    unfold try_except, bind, lift, invokeLater.
  - destruct invokeLater_error as [e |]; [destruct (is_ValueError e) |];
      (eexists; split; [reflexivity |]; cbn; eauto 8).
  - destruct (is_ValueError e); (eexists; split; [reflexivity |]; cbn; auto).
Qed.

Lemma respond_accepts_with body text d a t t1 :
  decode body = Some text ->
  json_loads text = Ok (VDict d) ->
  d !! lit "address" = Some a ->
  truthy a = true ->
  goto_address a t = Some (Ok tt, t1) ->
  respond body t
  = Some (Ok tt,
          mkTask (reader t1) (sent t1 ++ response_200) (closed t1)
            (records t1) (posted t1)).
Proof.
  intros Hd Hj Ha Ht Hg.
  unfold respond, try_except, bind at 1 2 3, lift, bytes_decode, get_address.
  rewrite Hd, Hj, Ha. change (default (VStr []) (Some a)) with a.
  rewrite Ht. unfold bind. now rewrite Hg, write_response_200.
Qed.

(** The inner [try] posts at most one command, and only together with the
    response [200 OK]. *)
Lemma respond_posts body t :
  exists t',
    respond body t = Some (Ok tt, t')
    /\ (posted t' = posted t
        \/ exists c,
             posted t' = posted t ++ [c]
             /\ sent t' = sent t ++ response_200
             /\ records t' = records t).
Proof.
  destruct (decode body) as [text |] eqn:Hd.
  2:{ destruct (respond_fails body _ t (not_utf8 body Hd)) as (out & H & _).
      eexists. split; [exact H |]. now left. }
  destruct (json_loads text) as [data | e] eqn:Hj.
  2:{ destruct (respond_fails body _ t (not_json body text e Hd Hj))
        as (out & H & _).
      eexists. split; [exact H |]. now left. }
  destruct data as [| b | z | f | s | l | d];
    try (match goal with
         | Hj : json_loads text = Ok ?v |- _ =>
             destruct (respond_fails body _ t
                         (not_an_object body text v Hd Hj
                            ltac:(intros ?; discriminate)))
               as (out & H & _)
         end;
         eexists; split; [exact H |]; now left).
  destruct (truthy (default (VStr []) (d !! lit "address"))) eqn:Ht.
  - destruct (d !! lit "address") as [a |] eqn:Ha; [| discriminate].
    destruct (goto_address_effect a t) as (t1 & Hg & _ & Hs & _ & Hp).
    rewrite (respond_accepts_with body text d a t t1 Hd Hj Ha Ht Hg).
    eexists. split; [reflexivity |]. cbn.
    destruct Hp as [Hp | (c & Hp & Hr)]; [now left |].
    right. exists c. now rewrite Hs, Hr.
  - rewrite (respond_rejects body text d t Hd Hj Ht).
    eexists. split; [reflexivity |]. now left.
Qed.

Lemma defined_not_404 out : defined_response out -> out <> response_404.
Proof.
  intros [-> | [-> | (message & head & body & -> & _ & Hhead)]];
    [discriminate | discriminate |].
  intros H. apply (f_equal (map Byte.to_N)) in H.
  rewrite map_app, Hhead in H. apply (f_equal (take 10)) in H.
  vm_compute in H. discriminate H.
Qed.

(** A connection that ends in the outer [except]. *)
Lemma handle_client_unanswered r e t1 :
  serve (connection r) = Some (Raise e, t1) ->
  sent t1 = [] -> records t1 = [] -> posted t1 = [] ->
  exists t,
    handle_client r = Some t /\ closed t = true /\ sent t = []
    /\ posted t = []
    /\ records t = [mkLog ERROR (lit "Client handler error: " ++ exn_str e)].
Proof.
  intros Hserve Hs Hr Hp. rewrite (handle_client_raise r e t1 Hserve).
  eexists. split; [reflexivity |]. cbn. now rewrite Hs, Hr, Hp.
Qed.

Lemma defined_not_empty out : defined_response out -> out <> [].
Proof.
  intros [-> | [-> | (message & head & body & -> & _ & Hhead)]];
    [discriminate | discriminate |].
  intros H. apply app_eq_nil in H. destruct H as [-> _].
  apply (f_equal (take 1)) in Hhead. vm_compute in Hhead.
  discriminate Hhead.
Qed.

(** X6. One connection, at most one response. On every stream
    [handle_client] closes the writer (the [finally] clause, whatever
    happened before), having written the [404 Not Found] response, or one
    of the responses of [POST /goto], or nothing. After a 404 nothing was
    posted to the Swing thread; and a connection that got no response was
    not acted on and did not fail silently: nothing was posted and exactly
    one record "Client handler error" was logged. *)
Theorem handle_client_outcomes (r : StreamReader) :
  exists t,
    handle_client r = Some t /\ closed t = true
    /\ (sent t = [] \/ sent t = response_404 \/ defined_response (sent t))
    /\ (sent t = response_404 -> posted t = [])
    /\ (sent t = [] ->
        posted t = []
        /\ exists e,
             records t
             = [mkLog ERROR (lit "Client handler error: " ++ exn_str e)]).
Proof.
  assert (Hsilent : forall e t1,
             serve (connection r) = Some (Raise e, t1) ->
             sent t1 = [] -> records t1 = [] -> posted t1 = [] ->
             exists t,
               handle_client r = Some t /\ closed t = true
               /\ (sent t = [] \/ sent t = response_404
                   \/ defined_response (sent t))
               /\ (sent t = response_404 -> posted t = [])
               /\ (sent t = [] ->
                   posted t = []
                   /\ exists e,
                        records t
                        = [mkLog ERROR
                             (lit "Client handler error: " ++ exn_str e)])).
  { intros e t1 Hserve Hs1 Hr1 Hp1.
    destruct (handle_client_unanswered r e t1 Hserve Hs1 Hr1 Hp1)
      as (t & Ht & Hcl & Hsent & Hp & Hr).
    exists t. split; [exact Ht |]. split; [exact Hcl |].
    split; [now left |]. split; [intros _; exact Hp |].
    intros _. split; [exact Hp |]. now exists e. }
  destruct (read_head (connection r)) as [[[[rl hs] | e] t1] |] eqn:Hh.
  - destruct (read_head_fresh _ _ _ Hh) as (Hs1 & _ & Hr1 & Hp1).
    destruct (startswith rl (lit "POST /goto")) eqn:Hs.
    + destruct (content_length hs) as [n | e] eqn:Hc.
      * destruct (integer_length_answered _ _ _ _ _ Hh Hs Hc)
          as (body & t2 & t & _ & _ & _ & Ht & Hdef & Hcl).
        exists t. split; [exact Ht |]. split; [exact Hcl |].
        split; [now right; right |]. split.
        -- intros H404. now destruct (defined_not_404 _ Hdef).
        -- intros Hnone. now destruct (defined_not_empty _ Hdef).
      * apply (Hsilent e t1); try assumption.
        rewrite (serve_post _ _ _ _ Hh Hs). unfold bind at 1, read_body.
        unfold bind, lift. now rewrite Hc.
    + rewrite (handle_client_ok r _ (serve_not_found _ _ _ _ Hh Hs)).
      eexists. split; [reflexivity |]. cbn [sent closed records posted].
      rewrite Hs1, Hp1. cbn [app].
      split; [reflexivity |]. split; [now right; left |].
      split; [reflexivity |]. intros H. discriminate H.
  - destruct (read_head_fresh _ _ _ Hh) as (Hs1 & _ & Hr1 & Hp1).
    apply (Hsilent e t1); try assumption.
    unfold serve, bind at 1. now rewrite Hh.
  - now destruct (read_head_returns (connection r)).
Qed.

(** X7. Navigation is asked for at most once on a connection, and only
    when the request is answered [200 OK]: when a command was posted to the
    Swing thread, it is the only one, the response is the 200 response and
    nothing was logged. *)
Theorem navigation_only_with_200 (r : StreamReader) :
  exists t,
    handle_client r = Some t
    /\ (posted t = []
        \/ exists c,
             posted t = [c] /\ sent t = response_200 /\ records t = []).
Proof.
  destruct (handle_client_total r) as (t & Ht & _).
  exists t. split; [exact Ht |].
  destruct (read_head (connection r)) as [[[[rl hs] | e] t1] |] eqn:Hh.
  - destruct (read_head_fresh _ _ _ Hh) as (Hs1 & _ & Hr1 & Hp1).
    destruct (startswith rl (lit "POST /goto")) eqn:Hs.
    + destruct (read_body hs t1) as [[[body | e] t2] |] eqn:Hb.
      * destruct (respond_posts body t2) as (t3 & Hr & Hposts).
        destruct (handle_client_responds _ _ _ _ _ _ _ Hh Hs Hb Hr)
          as (Ht' & Hs2 & Hr2 & Hp2).
        rewrite Ht in Ht'. injection Ht' as ->. cbn.
        rewrite Hs2, Hr2, Hp2 in Hposts. cbn in Hposts.
        destruct Hposts as [-> | (c & -> & -> & ->)]; eauto.
      * assert (Hserve : serve (connection r) = Some (Raise e, t2)).
        { rewrite (serve_post _ _ _ _ Hh Hs). unfold bind at 1.
          now rewrite Hb. }
        rewrite (handle_client_raise r e t2 Hserve) in Ht.
        injection Ht as <-. cbn.
        destruct (reads_only_read_body _ _ _ _ Hb) as (_ & _ & _ & ->).
        auto.
      * unfold read_body, bind, lift, reader_read in Hb.
        destruct (content_length hs); [| discriminate].
        now destruct (read _ _).
    + rewrite (handle_client_ok r _ (serve_not_found _ _ _ _ Hh Hs)) in Ht.
      injection Ht as <-. cbn. auto.
  - destruct (read_head_fresh _ _ _ Hh) as (Hs1 & _ & Hr1 & Hp1).
    assert (Hserve : serve (connection r) = Some (Raise e, t1))
      by (unfold serve, bind at 1; now rewrite Hh).
    rewrite (handle_client_raise r e t1 Hserve) in Ht.
    injection Ht as <-. cbn. auto.
  - now destruct (read_head_returns (connection r)).
Qed.

(** X8. From the request to the listing. A request to [POST /goto] whose
    body is a JSON object with a str under "address" that parses (lines
    59-63) to [z] is answered [200 OK], and exactly one command is posted
    to the Swing thread; it carries [z] and the text as [int] saw it. Run
    on a host with a program that resolves [z] to an address and a tool that
    offers the [GoToService], the command sends the listing to that address
    and logs where it went. *)
Theorem goto_request_navigates r request_line headers t1 body t2 text d
    a address_text z h program address tool service :
  read_head (connection r) = Some (Ok (request_line, headers), t1) ->
  startswith request_line (lit "POST /goto") = true ->
  read_body headers t1 = Some (Ok body, t2) ->
  decode body = Some text ->
  json_loads text = Ok (VDict d) ->
  d !! lit "address" = Some (VStr a) ->
  a <> [] ->
  address_of a = (address_text, Ok z) ->
  invokeLater_error = None ->
  currentProgram h = Some program ->
  getAddress program z = Ok (Some address) ->
  getTool h = Some tool ->
  getService tool = Some service ->
  goTo service address = Ok tt ->
  exists t,
    handle_client r = Some t /\ sent t = response_200 /\ closed t = true
    /\ records t = []
    /\ posted t = [mkCommand z address_text]
    /\ navigate h (mkCommand z address_text)
       = ([mkLog INFO (lit "Navigated to: " ++ toString address)],
          Some address).
Proof.
  intros Hh Hs Hb Hd Hj Ha Hne Haddr Hswing Hprog Hget Htool Hservice Hgo.
  assert (Ht : truthy (VStr a) = true) by (destruct a; [congruence | easy]).
  pose proof (goto_address_posts a address_text z t2 Haddr Hswing) as Hg.
  pose proof (respond_accepts_with body text d _ t2 _ Hd Hj Ha Ht Hg) as Hr.
  destruct (handle_client_responds _ _ _ _ _ _ _ Hh Hs Hb Hr)
    as (-> & Hs2 & Hr2 & Hp2).
  eexists. split; [reflexivity |]. cbn. rewrite Hs2, Hr2, Hp2.
  repeat split.
  unfold navigate. cbn. now rewrite Hprog, Hget, Htool, Hservice, Hgo.
Qed.

(** X9. The value under "address" is tested for truth, not for being a
    str. A value that is no str and counts as false (null, false, 0, an
    empty list or object) is answered [400 Bad Request] like a missing
    address. One that counts as true (a number, true, a list or object
    with members) is answered [200 OK], though [goto_address] fails on it
    at [.strip()]: it logs the [AttributeError] and posts nothing. *)
Theorem address_tested_for_truth r request_line headers t1 body t2 text d a :
  read_head (connection r) = Some (Ok (request_line, headers), t1) ->
  startswith request_line (lit "POST /goto") = true ->
  read_body headers t1 = Some (Ok body, t2) ->
  decode body = Some text ->
  json_loads text = Ok (VDict d) ->
  d !! lit "address" = Some a ->
  (forall s, a <> VStr s) ->
  exists t,
    handle_client r = Some t /\ closed t = true /\ posted t = []
    /\ if truthy a
       then sent t = response_200
            /\ records t
               = [mkLog ERROR
                    (lit "Address parsing error: "
                       ++ exn_str (no_attribute a "strip"))]
       else sent t = response_400 /\ records t = [].
Proof.
  intros Hh Hs Hb Hd Hj Ha Hv.
  destruct (truthy a) eqn:Ht.
  - pose proof (goto_address_not_str a t2 Hv) as Hg.
    pose proof (respond_accepts_with body text d _ t2 _ Hd Hj Ha Ht Hg) as Hr.
    destruct (handle_client_responds _ _ _ _ _ _ _ Hh Hs Hb Hr)
      as (-> & Hs2 & Hr2 & Hp2).
    eexists. split; [reflexivity |]. cbn. now rewrite Hs2, Hr2, Hp2.
  - assert (Ht' : truthy (default (VStr []) (d !! lit "address")) = false)
      by now rewrite Ha.
    pose proof (respond_rejects body text d t2 Hd Hj Ht') as Hr.
    destruct (handle_client_responds _ _ _ _ _ _ _ Hh Hs Hb Hr)
      as (-> & Hs2 & Hr2 & Hp2).
    eexists. split; [reflexivity |]. cbn. now rewrite Hs2, Hr2, Hp2.
Qed.

(** X10. A body that is not UTF-8, or not JSON, is answered
    [500 Internal Server Error]: the body of the response is
    [{"error": ...}] with the text of the exception, in ASCII whatever that
    text holds, the head announces its length, the error is logged and
    nothing is posted. *)
Theorem undecodable_body_answered_500 r request_line headers t1 body t2 e :
  read_head (connection r) = Some (Ok (request_line, headers), t1) ->
  startswith request_line (lit "POST /goto") = true ->
  read_body headers t1 = Some (Ok body, t2) ->
  (decode body = None
   /\ e = mkExn UnicodeDecodeError (decode_error_str body))
  \/ (exists text, decode body = Some text /\ json_loads text = Raise e) ->
  exists t,
    handle_client r = Some t
    /\ is_response_500 (exn_str e) (sent t)
    /\ isascii (map Byte.to_N (sent t)) = true
    /\ closed t = true
    /\ records t
       = [mkLog ERROR (lit "Error handling request: " ++ exn_str e)]
    /\ posted t = [].
Proof.
  intros Hh Hs Hb Hbody.
  assert (Hf : decode_failure body e).
  { destruct Hbody as [[Hd ->] | (text & Hd & Hj)];
      [now apply not_utf8 | now apply (not_json body text)]. }
  destruct (respond_fails body _ t2 Hf) as (out & Hr & Hout).
  destruct (handle_client_responds _ _ _ _ _ _ _ Hh Hs Hb Hr)
    as (-> & Hs2 & Hr2 & Hp2).
  eexists. split; [reflexivity |]. cbn. rewrite Hs2, Hr2, Hp2. cbn.
  repeat split; auto.
  destruct Hout as (head & rbody & -> & Hrbody & Hhead).
  rewrite map_app, isascii_app, Hrbody, Hhead, isascii_json_dumps_error.
  rewrite !isascii_app, isascii_str_of_nat. reflexivity.
Qed.

(** X11. A negative Content-Length: [read] with a negative count returns
    everything up to the end of the stream, so the body is all that follows
    the head, the stream is left empty, and the request is answered with one
    of the three responses. *)
Theorem negative_length_reads_to_end r request_line headers t1 n :
  read_head (connection r) = Some (Ok (request_line, headers), t1) ->
  startswith request_line (lit "POST /goto") = true ->
  content_length headers = Ok n ->
  (n < 0)%Z ->
  exists t2 t,
    read_body headers t1 = Some (Ok (stream (reader t1)), t2)
    /\ reader t2 = mkReader [] []
    /\ handle_client r = Some t /\ defined_response (sent t)
    /\ closed t = true.
Proof.
  intros Hh Hs Hc Hn.
  destruct (integer_length_answered _ _ _ _ _ Hh Hs Hc)
    as (body & t2 & t & Hb & -> & _ & Ht & Hdef & Hcl).
  exists t2, t.
  assert (Hread : read n (reader t1) = (stream (reader t1), mkReader [] [])).
  { unfold read.
    destruct (Z.eqb_spec n 0) as [-> | _]; [lia |].
    destruct (Z.ltb_spec n 0) as [_ | Hge]; [reflexivity | lia]. }
  rewrite (read_body_reads _ _ _ Hc), Hread in Hb. cbn [fst snd] in Hb.
  injection Hb as <-. rewrite (read_body_reads _ _ _ Hc), Hread. cbn.
  auto.
Qed.

(** X12. Requests are routed by the first ten characters of the request
    line. Whatever follows [POST /goto] there (a longer path, a query, any
    protocol), the request is never answered [404 Not Found]: it gets one
    of the responses of [POST /goto], or none when the Content-Length
    cannot be parsed. *)
Theorem post_goto_prefix_routed r rest headers t1 :
  read_head (connection r)
  = Some (Ok (lit "POST /goto" ++ rest, headers), t1) ->
  exists t,
    handle_client r = Some t /\ closed t = true
    /\ sent t <> response_404
    /\ (defined_response (sent t) \/ sent t = []).
Proof.
  intros Hh.
  assert (Hs : startswith (lit "POST /goto" ++ rest) (lit "POST /goto")
               = true) by reflexivity.
  destruct (read_head_fresh _ _ _ Hh) as (Hs1 & _ & Hr1 & Hp1).
  destruct (content_length headers) as [n | e] eqn:Hc.
  - destruct (integer_length_answered _ _ _ _ _ Hh Hs Hc)
      as (body & t2 & t & _ & _ & _ & Ht & Hdef & Hcl).
    exists t. repeat split; auto. now apply defined_not_404.
  - assert (Hserve : serve (connection r) = Some (Raise e, t1)).
    { rewrite (serve_post _ _ _ _ Hh Hs). unfold bind at 1, read_body.
      unfold bind, lift. now rewrite Hc. }
    destruct (handle_client_unanswered r e t1 Hserve Hs1 Hr1 Hp1)
      as (t & Ht & Hcl & Hsent & _).
    exists t. repeat split; auto. rewrite Hsent. discriminate.
Qed.

(** *** The octets the head takes *)

Lemma readline_from_splits buf segments line r :
  readline_from buf segments = (Ok line, r) ->
  line ++ stream r = buf ++ concat segments.
Proof.
  revert buf. induction segments as [| seg segments IH]; intros buf;
    cbn [readline_from].
  - destruct (find_newline buf) as [i |].
    + destruct (_ <? _)%N; [discriminate |]. intros [= <- <-].
      unfold stream. cbn [_buffer incoming concat].
      rewrite !app_nil_r. apply take_drop.
    + destruct (_ <? _)%N; [discriminate |]. intros [= <- <-].
      reflexivity.
  - destruct (find_newline buf) as [i |].
    + destruct (_ <? _)%N; [discriminate |]. intros [= <- <-].
      unfold stream. cbn [_buffer incoming].
      now rewrite app_assoc, take_drop.
    + destruct (_ <? _)%N; [discriminate |]. intros H.
      apply IH in H. rewrite H. cbn. now rewrite app_assoc.
Qed.

Lemma read_headers_splits fuel : forall headers t headers' t',
  read_headers fuel headers t = Some (Ok headers', t') ->
  exists lines, stream (reader t) = lines ++ stream (reader t').
Proof.
  induction fuel as [| fuel IH]; intros headers t headers' t';
    [discriminate |].
  cbn [read_headers]. unfold bind at 1. unfold reader_readline.
  destruct (readline (reader t)) as [[line | e] r'] eqn:E; [| discriminate].
  apply readline_from_splits in E. fold (stream (reader t)) in E.
  unfold bind at 1, lift at 1.
  destruct (bytes_decode line) as [text | e]; [| discriminate].
  assert (Hrest : forall hs,
             read_headers fuel hs
               (mkTask r' (sent t) (closed t) (records t) (posted t))
             = Some (Ok headers', t') ->
             exists lines, stream (reader t) = lines ++ stream (reader t')).
  { intros hs H. destruct (IH _ _ _ _ H) as (lines & Hl).
    cbn [reader] in Hl. exists (line ++ lines).
    now rewrite <- E, Hl, app_assoc. }
  destruct (strip text) as [| c rest].
  - intros [= <- <-]. exists line. now rewrite <- E.
  - destruct (contains _ _); [destruct (split1 _ _) |]; apply Hrest.
Qed.

(** X13. The head is read off the front of the stream and nothing is lost:
    the request line is the first line, decoded and trimmed, and the stream
    as it arrived is the octets of the head followed by what is left for the
    body. *)
Theorem head_then_rest r request_line headers t1 :
  read_head (connection r) = Some (Ok (request_line, headers), t1) ->
  request_line_of r = Some request_line
  /\ exists head, stream r = head ++ stream (reader t1).
Proof.
  unfold read_head, request_line_of. unfold bind at 1.
  unfold reader_readline. cbn [reader connection].
  destruct (readline r) as [[line | e] r'] eqn:E; [| discriminate].
  apply readline_from_splits in E. fold (stream r) in E.
  unfold bind at 1, lift at 1, bytes_decode.
  destruct (decode line) as [text |]; [| discriminate].
  unfold bind at 1.
  match goal with
  | |- context [read_headers ?f ?h ?t0] =>
      destruct (read_headers f h t0) as [[[hs | e] t'] |] eqn:Hhs;
        try discriminate
  end.
  intros [= <- <- <-]. split; [reflexivity |].
  destruct (read_headers_splits _ _ _ _ _ Hhs) as (lines & Hl).
  cbn [reader] in Hl. exists (line ++ lines).
  now rewrite <- E, Hl, app_assoc.
Qed.

End Connections.

Section SwingCommand.
Import Py PyLib Asyncio Logging Ghidra DAPGhidraServer Spec.
Context {rt : Runtime}.

(** X14. The command [navigate] reports every run with exactly one record,
    at level INFO exactly when it moved the listing; and it moves the
    listing, to [address], exactly when a program is loaded, its default
    address space resolves the posted value to [address], the tool is
    there and offers the [GoToService], and [goTo] does not raise. An
    exception of Ghidra inside it is logged, not raised. *)
Theorem navigate_reports_once (h : Host) (c : Command) :
  (exists record,
      fst (navigate h c) = [record]
      /\ (levelname record = INFO <-> snd (navigate h c) <> None))
  /\ forall address,
       snd (navigate h c) = Some address
       <-> exists program tool service,
             currentProgram h = Some program
             /\ getAddress program (address_value c) = Ok (Some address)
             /\ getTool h = Some tool
             /\ getService tool = Some service
             /\ goTo service address = Ok tt.
Proof.
  unfold navigate.
  destruct (currentProgram h) as [program |].
  2:{ split; [eexists; split; [reflexivity |]; cbn; split;
                [discriminate | congruence] |].
      intros address. split; [discriminate |].
      intros (? & ? & ? & [=] & _). }
  destruct (getAddress program (address_value c)) as [[a |] | e] eqn:Ha.
  2,3: (split; [eexists; split; [reflexivity |]; cbn; split;
                  [discriminate | congruence] |];
        intros address; split; [discriminate |];
        intros (? & ? & ? & [= <-] & Hget & _); congruence).
  destruct (getTool h) as [tool |].
  2:{ split; [eexists; split; [reflexivity |]; cbn; split;
                [discriminate | congruence] |].
      intros address. split; [discriminate |].
      intros (? & ? & ? & _ & _ & [=] & _). }
  destruct (getService tool) as [service |] eqn:Hs.
  2:{ split; [eexists; split; [reflexivity |]; cbn; split;
                [discriminate | congruence] |].
      intros address. split; [discriminate |].
      intros (? & ? & ? & _ & _ & [= <-] & Hsv & _). congruence. }
  destruct (goTo service a) as [[] | e] eqn:Hgo.
  - split; [eexists; split; [reflexivity |]; cbn; split;
              [discriminate | reflexivity] |].
    intros address. cbn. split.
    + intros [= <-]. exists program, tool, service. auto.
    + intros (? & ? & ? & [= <-] & Hget & [= <-] & Hsv & _). congruence.
  - split; [eexists; split; [reflexivity |]; cbn; split;
              [discriminate | congruence] |].
    intros address. split; [discriminate |].
    intros (? & ? & ? & [= <-] & Hget & [= <-] & Hsv & Hgo').
    congruence.
Qed.

End SwingCommand.

Section Framing.
Import Py PyLib Asyncio Logging Ghidra DAPGhidraServer Spec.
Context {rt : Runtime}.

Lemma defined_declares_length out :
  defined_response out -> declares_length out.
Proof.
  intros [-> | [-> | (message & head & body & -> & _ & Hhead)]].
  - exists (firstn (length response_200 - length status_ok) response_200),
      status_ok, (lit "200 OK"),
      (lit "Content-Type: application/json" ++ [13; 10]%N).
    split; reflexivity.
  - exists (firstn (length response_400 - length no_address_provided)
              response_400),
      no_address_provided, (lit "400 Bad Request"),
      (lit "Content-Type: application/json" ++ [13; 10]%N).
    split; reflexivity.
  - exists head, body, (lit "500 Internal Server Error"),
      (lit "Content-Type: application/json" ++ [13; 10]%N).
    split; [reflexivity |]. rewrite Hhead. now rewrite <- !app_assoc.
Qed.

(** X24. Whatever the handler writes is one response whose head announces
    the length of its body: on every stream, either nothing is sent, or
    the octets sent are a status line, header fields and a Content-Length
    equal to the number of octets that follow the empty line. *)
Theorem response_declares_its_length (r : StreamReader) :
  exists t,
    handle_client r = Some t
    /\ (sent t = [] \/ declares_length (sent t)).
Proof.
  destruct (read_head (connection r)) as [[[[rl hs] | e] t1] |] eqn:Hh.
  - destruct (read_head_fresh _ _ _ Hh) as (Hs1 & _ & Hr1 & Hp1).
    destruct (startswith rl (lit "POST /goto")) eqn:Hs.
    + destruct (content_length hs) as [n | e] eqn:Hc.
      * destruct (integer_length_answered _ _ _ _ _ Hh Hs Hc)
          as (body & t2 & t & _ & _ & _ & Ht & Hdef & _).
        exists t. split; [exact Ht |]. right.
        now apply defined_declares_length.
      * destruct (malformed_length_unanswered _ _ _ _ _ Hh Hs Hc)
          as (t & Ht & Hsent & _).
        exists t. auto.
    + rewrite (handle_client_ok r _ (serve_not_found _ _ _ _ Hh Hs)).
      eexists. split; [reflexivity |]. right. cbn [sent]. rewrite Hs1.
      exists response_404, [], (lit "404 Not Found"), [].
      split; reflexivity.
  - destruct (head_error_unanswered _ _ _ Hh) as (t & Ht & Hsent & _).
    exists t. auto.
  - now destruct (read_head_returns (connection r)).
Qed.

End Framing.

Section HeaderLines.
Import Py PyLib Asyncio Logging Ghidra DAPGhidraServer Spec.
Context {rt : Runtime}.
Local Open Scope N_scope.

Lemma find_newline_app line rest :
  Forall (fun x => x <> x0a) line ->
  find_newline (line ++ x0a :: rest) = Some (length line).
Proof.
  induction 1 as [| x line Hx _ IH]; [reflexivity |].
  cbn [app find_newline length].
  destruct (Byte.eqb x x0a) eqn:E;
    [apply Byte.byte_dec_bl in E; contradiction |].
  now rewrite IH.
Qed.

(** [readline] on a line that the buffer holds whole. *)
Lemma readline_buffered line rest segments :
  Forall (fun x => x <> x0a) line ->
  (N.of_nat (length line) <= _limit)%N ->
  readline (mkReader (line ++ x0a :: rest) segments)
  = (Ok (line ++ [x0a]), mkReader rest segments).
Proof.
  intros Hline Hlen. unfold readline. cbn [_buffer incoming].
  assert (E : line ++ x0a :: rest = (line ++ [x0a]) ++ rest)
    by (now rewrite <- app_assoc).
  assert (El : S (length line) = length (line ++ [x0a]))
    by (rewrite length_app; cbn; lia).
  destruct segments as [| seg segments]; cbn [readline_from];
    rewrite (find_newline_app line rest Hline);
    (destruct (N.ltb_spec _limit (N.of_nat (length line))) as [Hlt | _];
     [lia |]);
    now rewrite El, E, take_app_length, drop_app_length.
Qed.

Lemma utf8_decode_ascii s :
  isascii s = true -> utf8_decode s = Some s.
Proof.
  induction s as [| c s IH]; [reflexivity |]. cbn [isascii forallb].
  intros H. apply andb_prop in H. destruct H as [Hc Hs].
  cbn [utf8_decode]. rewrite Hc. unfold isascii in IH. now rewrite IH.
Qed.

Lemma split1_app ch key tail :
  Forall (fun c => c <> ch) key ->
  split1 ch (key ++ ch :: tail) = (key, tail).
Proof.
  induction 1 as [| c key Hc _ IH]; cbn [app split1].
  - now rewrite N.eqb_refl.
  - destruct (N.eqb_spec c ch); [contradiction |]. now rewrite IH.
Qed.

Lemma printable_not_space c : 33 <= c -> c <= 126 -> isspace c = false.
Proof.
  intros Hlo Hhi. unfold isspace.
  repeat match goal with
         | |- context [?a <=? ?b] =>
             destruct (N.leb_spec a b); try lia
         | |- context [?a =? ?b] =>
             destruct (N.eqb_spec a b); try lia
         end;
    reflexivity.
Qed.

(** A character that lowers to one of [content-length]. *)
Lemma lowers_to_name c d :
  ascii_lower c = d -> In d (lit "content-length") ->
  (c <? 128) = true /\ isspace c = false /\ c <> 58 /\ c <> 10.
Proof.
  unfold ascii_lower. intros Hl Hin.
  assert (Hd : d = 45 \/ (97 <= d /\ d <= 122)).
  { cbn in Hin.
    repeat (destruct Hin as [<- | Hin]; [lia |]). contradiction. }
  assert (Hc : c = 45 \/ (97 <= c /\ c <= 122) \/ (65 <= c /\ c <= 90)).
  { destruct ((65 <=? c) && (c <=? 90)) eqn:E.
    - apply andb_prop in E. destruct E as [E1 E2].
      apply N.leb_le in E1, E2. lia.
    - subst d. lia. }
  split; [apply N.ltb_lt; lia |].
  split; [apply printable_not_space; lia |]. lia.
Qed.

Lemma name_plain name :
  map ascii_lower name = lit "content-length" ->
  isascii name = true
  /\ Forall (fun c => isspace c = false) name
  /\ Forall (fun c => c <> 58) name
  /\ Forall (fun c => c <> 10) name
  /\ name <> [].
Proof.
  intros H.
  assert (Hall : Forall (fun c => In (ascii_lower c) (lit "content-length"))
                   name).
  { apply List.Forall_forall. intros c Hc. rewrite <- H.
    now apply in_map. }
  assert (Hne : name <> []) by (intros ->; discriminate H).
  clear H. split; [| split; [| split; [| split; [| exact Hne]]]].
  - unfold isascii. apply forallb_forall. rewrite List.Forall_forall in Hall.
    intros c Hc. now apply (lowers_to_name c _ eq_refl (Hall c Hc)).
  - eapply Forall_impl; [exact Hall |]. intros c Hc.
    now apply (lowers_to_name c _ eq_refl Hc).
  - eapply Forall_impl; [exact Hall |]. intros c Hc.
    now apply (lowers_to_name c _ eq_refl Hc).
  - eapply Forall_impl; [exact Hall |]. intros c Hc.
    now apply (lowers_to_name c _ eq_refl Hc).
Qed.

Lemma isascii_Forall s :
  isascii s = true <-> Forall (fun c => (c <? 128) = true) s.
Proof.
  unfold isascii. rewrite forallb_forall, List.Forall_forall. reflexivity.
Qed.

Lemma to_N_not_newline (b : bytes) :
  Forall (fun c => c <> 10) (map Byte.to_N b) ->
  Forall (fun x => x <> x0a) b.
Proof.
  induction b as [| x b IH]; cbn [map]; intros H; [constructor |].
  apply Forall_cons in H. destruct H as [Hx Hb].
  constructor; [| auto]. intros ->. now apply Hx.
Qed.

(** A header line [name: value] of plain characters, stripped: the
    name, the colon, and a tail that strips to the value. *)
Lemma header_line_strip (n v : str) :
  n <> [] ->
  Forall (fun c => isspace c = false) n ->
  Forall (fun c => isspace c = false) v ->
  exists T, strip ((n ++ [58; 32] ++ v) ++ [13; 10]) = n ++ 58 :: T
            /\ strip T = v.
Proof.
  intros Hne Hns Hvs. destruct v as [| v0 v'].
  - exists []. split; [| reflexivity].
    replace ((n ++ [58; 32] ++ []) ++ [13; 10])
      with ([] ++ (n ++ [58]) ++ [32; 13; 10])
      by (rewrite <- !app_assoc; reflexivity).
    rewrite (strip_padded [] (n ++ [58]) [32; 13; 10]);
      [reflexivity | | constructor | repeat constructor].
    apply nonspace_trimmed. apply Forall_app.
    split; [exact Hns | repeat constructor].
  - exists (32 :: v0 :: v'). split.
    + rewrite <- (app_nil_l ((n ++ [58; 32] ++ v0 :: v') ++ [13; 10])).
      rewrite (strip_padded [] (n ++ [58; 32] ++ v0 :: v') [13; 10]);
        [reflexivity | | constructor | repeat constructor].
      split.
      * destruct n as [| c n']; [congruence |].
        now apply Forall_cons in Hns.
      * replace (n ++ [58; 32] ++ v0 :: v')
          with ((n ++ [58; 32]) ++ (v0 :: v'))
          by now rewrite <- app_assoc.
        rewrite rev_app_distr.
        apply Forall_rev_list in Hvs.
        destruct (rev (v0 :: v')) as [| x xs] eqn:E.
        -- apply (f_equal (@length N)) in E. rewrite length_rev in E.
           discriminate E.
        -- cbn [app]. now apply Forall_cons in Hvs.
    + pose proof (strip_padded [32] (v0 :: v') []
                    (nonspace_trimmed _ Hvs)
                    ltac:(repeat constructor) ltac:(constructor)) as E.
      now rewrite app_nil_r in E.
Qed.

(** One turn of the header loop on a buffered line [key: value]. *)
Lemma read_headers_field fuel headers line text key tail r :
  Forall (fun x => x <> x0a) line ->
  (N.of_nat (length line) <= _limit)%N ->
  bytes_decode (line ++ [x0a]) = Ok text ->
  strip text = key ++ 58 :: tail ->
  Forall (fun c => c <> 58) key ->
  forall rest segments,
    r = line ++ x0a :: rest ->
    read_headers (S fuel) headers (connection (mkReader r segments))
    = read_headers fuel (<[lower (strip key) := strip tail]> headers)
        (connection (mkReader rest segments)).
Proof.
  intros Hline Hlen Htext Hstrip Hkey rest segments ->.
  cbn [read_headers]. unfold bind at 1. unfold reader_readline.
  cbn [reader sent closed records posted connection].
  rewrite readline_buffered by assumption.
  unfold bind at 1, lift at 1. rewrite Htext, Hstrip.
  assert (Hcontains : contains 58 (key ++ 58 :: tail) = true).
  { unfold contains. rewrite existsb_app. cbn. now rewrite orb_true_r. }
  rewrite Hcontains, (split1_app 58 key tail Hkey).
  destruct key; reflexivity.
Qed.

(** The turn that meets the empty line and leaves the loop. *)
Lemma read_headers_blank fuel headers rest segments :
  read_headers (S fuel) headers
    (connection (mkReader (CRLF ++ rest) segments))
  = Some (Ok headers, connection (mkReader rest segments)).
Proof.
  cbn [read_headers]. unfold bind at 1. unfold reader_readline.
  cbn [reader sent closed records posted connection].
  change (CRLF ++ rest) with ([x0d] ++ x0a :: rest).
  rewrite readline_buffered;
    [| repeat constructor; discriminate | vm_compute; discriminate].
  unfold bind at 1, lift at 1.
  replace (bytes_decode ([x0d] ++ [x0a])) with (Ok [13; 10])
    by (vm_compute; reflexivity).
  replace (strip [13; 10]) with (@nil N) by (vm_compute; reflexivity).
  reflexivity.
Qed.

(** The turn of the header loop on a Content-Length field, its name in
    any mix of cases. *)
Lemma read_headers_content_length fuel headers (name value rest : bytes)
    segments :
  map ascii_lower (map Byte.to_N name) = lit "content-length" ->
  Forall (fun c => (c <? 128) = true /\ isspace c = false)
    (map Byte.to_N value) ->
  (N.of_nat (length value) < 60000)%N ->
  read_headers (S fuel) headers
    (connection (mkReader (name ++ blit ": " ++ value ++ CRLF ++ rest)
                   segments))
  = read_headers fuel
      (<[lit "content-length" := map Byte.to_N value]> headers)
      (connection (mkReader rest segments)).
Proof.
  intros Hname Hvalue Hlen.
  destruct (name_plain _ Hname) as (Hascii & Hns & Hcolon & Hnl & Hne).
  assert (Hlenname : length name = 14%nat).
  { apply (f_equal (@length N)) in Hname. now rewrite !length_map in Hname. }
  assert (Hva : isascii (map Byte.to_N value) = true).
  { apply isascii_Forall. eapply Forall_impl; [exact Hvalue |]. now intros c []. }
  assert (Hvs : Forall (fun c => isspace c = false) (map Byte.to_N value)).
  { eapply Forall_impl; [exact Hvalue |]. now intros c []. }
  assert (Hvn : Forall (fun c => c <> 10) (map Byte.to_N value)).
  { eapply Forall_impl; [exact Hvs |]. intros c Hc ->. discriminate Hc. }
  set (line := name ++ blit ": " ++ value ++ [x0d]).
  assert (Ebuf : name ++ blit ": " ++ value ++ CRLF ++ rest
                 = line ++ x0a :: rest).
  { subst line. unfold CRLF. now rewrite <- !app_assoc. }
  assert (Hline : Forall (fun x => x <> x0a) line).
  { subst line. apply to_N_not_newline. rewrite !map_app.
    apply Forall_app. split; [exact Hnl |].
    apply Forall_app. split; [repeat constructor; discriminate |].
    apply Forall_app. split; [exact Hvn | repeat constructor; discriminate]. }
  assert (Hlinelen : (N.of_nat (length line) <= _limit)%N).
  { subst line. rewrite !length_app, Hlenname.
    change (length (blit ": ")) with 2%nat. cbn [length].
    unfold _limit. lia. }
  assert (Etext : bytes_decode (line ++ [x0a])
                  = Ok ((map Byte.to_N name ++ [58; 32]
                           ++ map Byte.to_N value) ++ [13; 10])).
  { unfold bytes_decode, decode.
    replace (map Byte.to_N (line ++ [x0a]))
      with ((map Byte.to_N name ++ [58; 32] ++ map Byte.to_N value)
              ++ [13; 10])
      by (subst line; rewrite !map_app; cbn [map blit];
          now rewrite <- !app_assoc).
    rewrite utf8_decode_ascii
      by (rewrite !isascii_app, Hascii, Hva; reflexivity).
    reflexivity. }
  destruct (header_line_strip _ _ Hne Hns Hvs) as (T & Hstrip & HT).
  rewrite (read_headers_field fuel headers line _ _ T _
             Hline Hlinelen Etext Hstrip Hcolon rest segments Ebuf).
  assert (Hkey : lower (strip (map Byte.to_N name)) = lit "content-length").
  { pose proof (strip_padded [] _ [] (nonspace_trimmed _ Hns)
                  ltac:(constructor) ltac:(constructor)) as E.
    cbn [app] in E. rewrite app_nil_r in E. rewrite E.
    unfold lower. now rewrite Hascii. }
  now rewrite Hkey, HT.
Qed.

(** [read_head] past a buffered request line: the header loop starts on
    what follows it. *)
Lemma read_head_request_line (first rest : bytes) segments :
  isascii (map Byte.to_N first) = true ->
  Forall (fun x => x <> x0a) first ->
  (N.of_nat (length first) < 60000)%N ->
  read_head (connection (mkReader (first ++ CRLF ++ rest) segments))
  = (let* headers :=
       (fun t => read_headers (S (remaining (reader t))) ∅ t) in
     ret (strip (map Byte.to_N (first ++ CRLF)), headers))
      (connection (mkReader rest segments)).
Proof.
  intros Hfa Hfn Hflen. unfold read_head.
  unfold bind at 1. unfold reader_readline. cbn [reader connection].
  replace (first ++ CRLF ++ rest) with ((first ++ [x0d]) ++ x0a :: rest)
    by (now rewrite <- app_assoc).
  rewrite readline_buffered;
    [| apply Forall_app; split; [exact Hfn | repeat constructor; discriminate]
     | rewrite length_app; cbn [length]; unfold _limit; lia].
  unfold bind at 1, lift at 1, bytes_decode, decode.
  rewrite utf8_decode_ascii
    by (rewrite !map_app, !isascii_app, Hfa; reflexivity).
  replace ((first ++ [x0d]) ++ [x0a]) with (first ++ CRLF)
    by (now rewrite <- app_assoc).
  reflexivity.
Qed.

(** X25. However the client spells the name of the Content-Length
    field (any mix of upper and lower case), a request head made of a
    request line, that one field and the empty line is read as the
    stripped request line and one header stored under the key
    [content-length], with the stripped value; what follows the empty
    line stays in the stream. *)
Theorem header_name_in_any_case (first name value rest : bytes) segments :
  isascii (map Byte.to_N first) = true ->
  Forall (fun x => x <> x0a) first ->
  map ascii_lower (map Byte.to_N name) = lit "content-length" ->
  Forall (fun c => (c <? 128) = true /\ isspace c = false)
    (map Byte.to_N value) ->
  (N.of_nat (length first) < 60000)%N ->
  (N.of_nat (length value) < 60000)%N ->
  read_head (connection (mkReader
      (first ++ CRLF ++ name ++ blit ": " ++ value ++ CRLF ++ CRLF ++ rest)
      segments))
  = Some (Ok (strip (map Byte.to_N (first ++ CRLF)),
              {[ lit "content-length" := map Byte.to_N value ]}),
          connection (mkReader rest segments)).
Proof.
  intros Hfa Hfn Hname Hvalue Hflen Hlen.
  rewrite read_head_request_line by assumption.
  unfold bind at 1. cbn [reader connection].
  change (mkTask ?r [] false [] []) with (connection r).
  rewrite read_headers_content_length by assumption.
  assert (Hfuel : exists k,
             remaining (mkReader
               (name ++ blit ": " ++ value ++ CRLF ++ CRLF ++ rest) segments)
             = S k).
  { assert (Hlenname : length name = 14%nat).
    { apply (f_equal (@length N)) in Hname.
      now rewrite !length_map in Hname. }
    unfold remaining. cbn [_buffer]. rewrite length_app, Hlenname.
    eexists. rewrite !Nat.add_succ_l. reflexivity. }
  destruct Hfuel as (k & ->).
  rewrite read_headers_blank, insert_empty. reflexivity.
Qed.

(** X26. When a request head carries the Content-Length field twice,
    the header table keeps one entry under [content-length], and it
    holds the value of the later field. *)
Theorem repeated_field_last_wins
    (first name1 value1 name2 value2 rest : bytes) segments :
  isascii (map Byte.to_N first) = true ->
  Forall (fun x => x <> x0a) first ->
  map ascii_lower (map Byte.to_N name1) = lit "content-length" ->
  map ascii_lower (map Byte.to_N name2) = lit "content-length" ->
  Forall (fun c => (c <? 128) = true /\ isspace c = false)
    (map Byte.to_N value1) ->
  Forall (fun c => (c <? 128) = true /\ isspace c = false)
    (map Byte.to_N value2) ->
  (N.of_nat (length first) < 60000)%N ->
  (N.of_nat (length value1) < 60000)%N ->
  (N.of_nat (length value2) < 60000)%N ->
  read_head (connection (mkReader
      (first ++ CRLF ++ name1 ++ blit ": " ++ value1 ++ CRLF
         ++ name2 ++ blit ": " ++ value2 ++ CRLF ++ CRLF ++ rest)
      segments))
  = Some (Ok (strip (map Byte.to_N (first ++ CRLF)),
              {[ lit "content-length" := map Byte.to_N value2 ]}),
          connection (mkReader rest segments)).
Proof.
  intros Hfa Hfn Hname1 Hname2 Hvalue1 Hvalue2 Hflen Hlen1 Hlen2.
  rewrite read_head_request_line by assumption.
  unfold bind at 1. cbn [reader connection].
  change (mkTask ?r [] false [] []) with (connection r).
  assert (Hfuel : exists k,
             remaining (mkReader
               (name1 ++ blit ": " ++ value1 ++ CRLF
                  ++ name2 ++ blit ": " ++ value2 ++ CRLF ++ CRLF ++ rest)
               segments)
             = S (S k)).
  { assert (Hlenname : length name1 = 14%nat).
    { apply (f_equal (@length N)) in Hname1.
      now rewrite !length_map in Hname1. }
    unfold remaining. cbn [_buffer]. rewrite length_app, Hlenname.
    eexists. rewrite !Nat.add_succ_l. reflexivity. }
  destruct Hfuel as (k & ->).
  rewrite read_headers_content_length by assumption.
  rewrite read_headers_content_length by assumption.
  rewrite read_headers_blank, insert_insert_eq, insert_empty. reflexivity.
Qed.

End HeaderLines.

(** ** Addresses and connections: examples *)


Lemma address_sign_accepted_witness :
  address_of (lit " -1f ") = (lit "-1f", Ok (-31)%Z)
  /\ address_of (lit "0x-1f") = (lit "-1f", Ok (-31)%Z).
Proof.
  assert (Hhex : Forall (fun c => hexdigit c = true) (lit "1f"))
    by (repeat constructor).
  assert (Hws : Forall (fun c => isspace c = true) (lit " "))
    by (repeat constructor).
  destruct (address_sign_accepted (lit "1f") (lit " ") (lit " ") Hhex
              ltac:(discriminate) Hws Hws) as (Hminus & _).
  destruct (address_sign_accepted (lit "1f") [] [] Hhex
              ltac:(discriminate) ltac:(constructor) ltac:(constructor))
    as (_ & _ & _ & Hafter).
  split; [exact Hminus | exact Hafter].
Defined.

Lemma address_prefix_twice_witness :
  address_of (lit "0X0x1400") = (lit "0x1400", Ok 5120%Z).
Proof.
  apply (address_prefix_twice (lit "1400") [] [] 88 120)%N.
  - repeat constructor.
  - discriminate.
  - constructor.
  - constructor.
  - now right.
  - now left.
Defined.

Lemma address_underscores_witness :
  address_of (lit "14_00") = (lit "14_00", Ok 5120%Z)
  /\ int_of_str 16 (lit "0x_1400") = Ok 5120%Z
  /\ address_of (lit "0x_1400")
     = (lit "_1400",
        Raise (mkExn ValueError
                 (lit "invalid literal for int() with base 16: '_1400'"))).
Proof.
  assert (H14 : Forall (fun c => hexdigit c = true) (lit "14"))
    by (repeat constructor).
  assert (H00 : Forall (fun c => hexdigit c = true) (lit "00"))
    by (repeat constructor).
  assert (H1400 : Forall (fun c => hexdigit c = true) (lit "1400"))
    by (repeat constructor).
  destruct (address_underscores (lit "14") (lit "00") [] [] H14
              ltac:(discriminate) H00 ltac:(discriminate)
              ltac:(constructor) ltac:(constructor)) as (Hmid & _).
  destruct (address_underscores (lit "14") (lit "1400") [] [] H14
              ltac:(discriminate) H1400 ltac:(discriminate)
              ltac:(constructor) ltac:(constructor))
    as (_ & Hint & Hafter).
  split; [exact Hmid |]. split; [exact Hint | exact Hafter].
Defined.

Lemma blank_address_rejected_witness :
  address_of (lit "   ")
  = ([], Raise (mkExn ValueError
                  (lit "invalid literal for int() with base 16: ''")))
  /\ goto_address (VStr (lit " 0x ")) (connection (arriving []))
     = Some (Ok tt,
             mkTask (arriving []) [] false
               [mkLog ERROR (lit "Invalid address format: ")] []).
Proof.
  assert (Hws1 : Forall (fun c => isspace c = true) (lit " "))
    by (repeat constructor).
  assert (Hws2 : Forall (fun c => isspace c = true) (lit "  "))
    by (repeat constructor).
  destruct (blank_address_rejected (lit " ") (lit "  ") 120%N
              (connection (arriving [])) Hws1 Hws2 ltac:(now left))
    as (Hblank & _).
  destruct (blank_address_rejected (lit " ") (lit " ") 120%N
              (connection (arriving [])) Hws1 Hws1 ltac:(now left))
    as (_ & _ & _ & Hprefix).
  split; [exact Hblank | exact Hprefix].
Defined.

Lemma foreign_character_rejected_witness :
  exists text,
    address_of (lit "0x14g0")
    = (text, Raise (mkExn ValueError (int_error_str 16 text)))
    /\ goto_address (VStr (lit "0x14g0")) (connection (arriving []))
       = Some (Ok tt,
               mkTask (arriving []) [] false
                 [mkLog ERROR (lit "Invalid address format: " ++ text)] []).
Proof.
  apply (foreign_character_rejected (lit "0x14g0") 103%N
           (connection (arriving []))).
  - reflexivity.
  - cbn. auto 10.
  - reflexivity.
Defined.

Lemma goto_request_navigates_witness :
  exists t,
    handle_client goto_1400 = Some t /\ sent t = response_200
    /\ closed t = true /\ records t = []
    /\ posted t = [mkCommand 5120 (lit "1400")]
    /\ navigate listing (mkCommand 5120 (lit "1400"))
       = ([mkLog INFO (lit "Navigated to: 5120")],
          Some (mkAddress (lit "5120"))).
Proof.
  apply (goto_request_navigates goto_1400 (lit "POST /goto HTTP/1.1")
           {[ lit "content-length" := lit "20" ]}
           (connection (mkReader address_1400 []))
           address_1400 (connection (mkReader [] []))
           (map Byte.to_N address_1400)
           {[ lit "address" := VStr (lit "0x1400") ]} (lit "0x1400")
           (lit "1400") 5120%Z listing
           (mkProgram
              (fun z =>
                 if (0 <=? z)%Z
                 then Ok (Some (mkAddress (str_of_N (Z.to_N z))))
                 else Ok None))
           (mkAddress (lit "5120"))
           (mkTool (Some (mkGoTo (fun _ => Ok tt))))
           (mkGoTo (fun _ => Ok tt))).
  - vm_compute. reflexivity.
  - vm_compute. reflexivity.
  - vm_compute. reflexivity.
  - vm_compute. reflexivity.
  - vm_compute. reflexivity.
  - vm_compute. reflexivity.
  - discriminate.
  - vm_compute. reflexivity.
  - reflexivity.
  - reflexivity.
  - vm_compute. reflexivity.
  - reflexivity.
  - reflexivity.
  - reflexivity.
Defined.

Lemma address_tested_for_truth_witness :
  exists t,
    handle_client goto_number = Some t /\ closed t = true /\ posted t = []
    /\ sent t = response_200
    /\ records t
       = [mkLog ERROR
            (lit "Address parsing error: 'int' object has no attribute 'strip'")].
Proof.
  destruct (address_tested_for_truth goto_number (lit "POST /goto HTTP/1.1")
              {[ lit "content-length" := lit "13" ]}
              (connection (mkReader address_number []))
              address_number (connection (mkReader [] []))
              (map Byte.to_N address_number)
              {[ lit "address" := VInt 5 ]} (VInt 5))
    as (t & Ht & Hcl & Hp & Hsent & Hrec).
  - vm_compute. reflexivity.
  - vm_compute. reflexivity.
  - vm_compute. reflexivity.
  - vm_compute. reflexivity.
  - vm_compute. reflexivity.
  - vm_compute. reflexivity.
  - discriminate.
  - exists t. auto.
Defined.

Lemma undecodable_body_answered_500_witness :
  exists t,
    handle_client goto_not_json = Some t
    /\ is_response_500 (lit "Expecting value") (sent t)
    /\ isascii (map Byte.to_N (sent t)) = true
    /\ closed t = true
    /\ records t
       = [mkLog ERROR (lit "Error handling request: Expecting value")]
    /\ posted t = [].
Proof.
  apply (undecodable_body_answered_500 goto_not_json
           (lit "POST /goto HTTP/1.1")
           {[ lit "content-length" := lit "4" ]}
           (connection (mkReader (blit "nope") []))
           (blit "nope") (connection (mkReader [] []))
           (mkExn JSONDecodeError (lit "Expecting value"))).
  - vm_compute. reflexivity.
  - vm_compute. reflexivity.
  - vm_compute. reflexivity.
  - right. exists (lit "nope"). split; vm_compute; reflexivity.
Defined.

Lemma negative_length_reads_to_end_witness :
  let first := blit "{" ++ quoted "address" in
  let second := blit ":" ++ quoted "0x1400" ++ blit "}" in
  exists t2 t,
    read_body {[ lit "content-length" := lit "-1" ]}
      (connection (mkReader first [second]))
    = Some (Ok (first ++ second), t2)
    /\ reader t2 = mkReader [] []
    /\ handle_client goto_to_the_end = Some t
    /\ defined_response (sent t) /\ closed t = true.
Proof.
  intros first second.
  destruct (negative_length_reads_to_end goto_to_the_end
              (lit "POST /goto HTTP/1.1")
              {[ lit "content-length" := lit "-1" ]}
              (connection (mkReader first [second])) (-1)%Z)
    as (t2 & t & Hb & Hr & Ht & Hdef & Hcl).
  - vm_compute. reflexivity.
  - vm_compute. reflexivity.
  - vm_compute. reflexivity.
  - reflexivity.
  - exists t2, t. split; [exact Hb | auto].
Defined.

Lemma post_goto_prefix_routed_witness :
  exists t,
    handle_client goto_with_query = Some t /\ closed t = true
    /\ sent t <> response_404
    /\ (defined_response (sent t) \/ sent t = []).
Proof.
  apply (post_goto_prefix_routed goto_with_query
           (lit "/now?pane=1 HTTP/1.1")
           {[ lit "content-length" := lit "20" ]}
           (connection (mkReader address_1400 []))).
  vm_compute. reflexivity.
Defined.

Lemma head_then_rest_witness :
  request_line_of goto_1400 = Some (lit "POST /goto HTTP/1.1")
  /\ exists head, stream goto_1400 = head ++ address_1400.
Proof.
  destruct (head_then_rest goto_1400 (lit "POST /goto HTTP/1.1")
              {[ lit "content-length" := lit "20" ]}
              (connection (mkReader address_1400 [])))
    as (Hline & head & Hhead).
  - vm_compute. reflexivity.
  - split; [exact Hline |]. exists head. exact Hhead.
Defined.

Lemma header_name_in_any_case_witness :
  read_head (connection (mkReader
      (blit "POST /goto HTTP/1.1" ++ CRLF ++ blit "CONTENT-Length"
         ++ blit ": " ++ blit "20" ++ CRLF ++ CRLF ++ address_1400) []))
  = Some (Ok (strip (map Byte.to_N (blit "POST /goto HTTP/1.1" ++ CRLF)),
              {[ lit "content-length" := map Byte.to_N (blit "20") ]}),
          connection (mkReader address_1400 [])).
Proof.
  apply (header_name_in_any_case (blit "POST /goto HTTP/1.1")
           (blit "CONTENT-Length") (blit "20") address_1400 []).
  - reflexivity.
  - repeat constructor; discriminate.
  - reflexivity.
  - repeat constructor.
  - reflexivity.
  - reflexivity.
Defined.

Lemma repeated_field_last_wins_witness :
  read_head (connection (mkReader
      (blit "POST /goto HTTP/1.1" ++ CRLF
         ++ blit "Content-Length" ++ blit ": " ++ blit "7" ++ CRLF
         ++ blit "content-length" ++ blit ": " ++ blit "20" ++ CRLF
         ++ CRLF ++ address_1400) []))
  = Some (Ok (strip (map Byte.to_N (blit "POST /goto HTTP/1.1" ++ CRLF)),
              {[ lit "content-length" := map Byte.to_N (blit "20") ]}),
          connection (mkReader address_1400 [])).
Proof.
  apply (repeated_field_last_wins (blit "POST /goto HTTP/1.1")
           (blit "Content-Length") (blit "7")
           (blit "content-length") (blit "20") address_1400 []).
  - reflexivity.
  - repeat constructor; discriminate.
  - reflexivity.
  - reflexivity.
  - repeat constructor.
  - repeat constructor.
  - reflexivity.
  - reflexivity.
  - reflexivity.
Defined.

(** ** The life cycle *)

Section Lifecycle.
Import Interpreter Scripts Spec.
Context {rt : Runtime}.

Lemma update_lookup id f w self :
  heap w !! id = Some self ->
  heap (update id f w) !! id = Some (fst (f self)).
Proof.
  intros H. unfold update. rewrite H. destruct (f self) as [self' out].
  cbn. apply list_lookup_insert_eq. now apply lookup_lt_Some in H.
Qed.

Lemma update_lookup_ne id id' f w :
  id <> id' -> heap (update id f w) !! id' = heap w !! id'.
Proof.
  intros Hne. unfold update. destruct (heap w !! id) as [self |];
    [| reflexivity].
  destruct (f self). cbn. now apply list_lookup_insert_ne.
Qed.

Lemma update_clock id f w : clock (update id f w) = clock w.
Proof.
  unfold update. destruct (heap w !! id) as [self |]; [| reflexivity].
  now destruct (f self).
Qed.

Lemma update_modules id f w : sys_modules (update id f w) = sys_modules w.
Proof.
  unfold update. destruct (heap w !! id) as [self |]; [| reflexivity].
  now destruct (f self).
Qed.

Lemma update_records id f w self :
  heap w !! id = Some self ->
  records (update id f w) = records w ++ snd (f self).
Proof. intros H. unfold update. rewrite H. now destruct (f self). Qed.

Lemma background_clock s w : clock (background s w) = clock w.
Proof. destruct s; apply update_clock. Qed.

Lemma background_modules s w : sys_modules (background s w) = sys_modules w.
Proof. destruct s; apply update_modules. Qed.

(** [join] returns within the timeout, and when the thread is still alive
    the whole timeout has passed. *)
Lemma join_bounded id during : forall timeout w,
  (0 <= timeout)%Q ->
  (clock w <= clock (join id timeout during w))%Q
  /\ (clock (join id timeout during w) <= clock w + timeout)%Q
  /\ (alive id (join id timeout during w) = true ->
      (clock (join id timeout during w) == clock w + timeout)%Q).
Proof.
  induction during as [| [dt s] during IH]; intros timeout w Ht;
    cbn [join].
  - destruct (alive id w) eqn:Ea; cbn [negb].
    + cbn. repeat split; try lra.
    + repeat split; try lra. congruence.
  - destruct (alive id w) eqn:Ea; cbn [negb];
      [| repeat split; try lra; congruence].
    set (dt' := if Qle_bool 0 dt then dt else 0%Q).
    assert (Hdt : (0 <= dt')%Q).
    { subst dt'. destruct (Qle_bool 0 dt) eqn:E; [| lra].
      now apply Qle_bool_iff. }
    destruct (Qle_bool dt' timeout) eqn:Et.
    + apply Qle_bool_iff in Et.
      assert (Hrem : (0 <= timeout - dt')%Q) by lra.
      destruct (IH (timeout - dt')%Q (background s (tick dt' w)) Hrem)
        as (Hlo & Hhi & Heq).
      rewrite background_clock in Hlo, Hhi, Heq. cbn [clock tick] in *.
      repeat split; try lra. intros Ha. specialize (Heq Ha). lra.
    + cbn. repeat split; lra.
Qed.

(** [stop_server] step by step, on an object whose [loop] and
    [stop_event] are set. *)
Lemma stop_server_steps id during w self :
  heap w !! id = Some self ->
  (VirtualModule.thread self && VirtualModule.is_alive self = false ->
   stop_server id during w
   = (Ok tt, emit [mkLog WARNING (lit "Server not running")] w))
  /\ (VirtualModule.thread self = true ->
      VirtualModule.is_alive self = true ->
      VirtualModule.loop self = true ->
      VirtualModule.stop_event self = true ->
      exists signalled waited,
        signalled
        = update id (fun self => (VirtualModule.post_stop self, []))
            (emit [mkLog INFO (lit "Stopping server...")] w)
        /\ (exists self', heap signalled !! id = Some self'
            /\ VirtualModule.posted (VirtualModule.tasks self') = true)
        /\ waited = join id 5 during signalled
        /\ (clock w <= clock waited)%Q
        /\ (clock waited <= clock w + 5)%Q
        /\ (alive id waited = true -> (clock waited == clock w + 5)%Q)
        /\ stop_server id during w
           = (Ok tt,
              update id (fun self => (VirtualModule.release self, []))
                (emit [stop_report (alive id waited)] waited))).
Proof.
  intros Hself. split.
  - intros Hdown. unfold stop_server. rewrite Hself.
    apply andb_false_iff in Hdown. destruct Hdown as [-> | ->];
      [reflexivity | now rewrite orb_true_r].
  - intros Hthread Halive Hloop Hevent.
    eexists _, _. split; [reflexivity |].
    split.
    { eexists. split; [apply update_lookup; exact Hself |]. reflexivity. }
    split; [reflexivity |].
    match goal with
    | |- context [join id 5 during ?w1] =>
        destruct (join_bounded id during 5 w1 ltac:(lra))
          as (Hlo & Hhi & Heq);
        rewrite update_clock in Hlo, Hhi, Heq
    end.
    cbn [clock emit] in Hlo, Hhi, Heq.
    split; [exact Hlo |]. split; [exact Hhi |]. split; [exact Heq |].
    unfold stop_server. rewrite Hself, Hthread, Halive, Hloop, Hevent.
    reflexivity.
Qed.

(** *** A listener that fails to start *)

Lemma background_keeps_looping s w id self :
  heap w !! id = Some self -> looping_unsignalled self ->
  exists self',
    heap (background s w) !! id = Some self' /\ looping_unsignalled self'.
Proof.
  intros Hself (Hphase & Hevent & Hposted).
  assert (Hkeep : forall f,
             looping_unsignalled (fst (f self)) ->
             forall id0,
             exists self',
               heap (update id0 f w) !! id = Some self'
               /\ looping_unsignalled self').
  { intros f Hf id0. destruct (decide (id0 = id)) as [-> | Hne].
    - exists (fst (f self)). split; [now apply update_lookup | exact Hf].
    - exists self. rewrite update_lookup_ne by assumption.
      split; [exact Hself | now repeat split]. }
  destruct s as [id0 | id0 bound | id0 | id0 | id0]; cbn [background];
    apply Hkeep; unfold looping_unsignalled.
  - unfold VirtualModule.run_event_loop. rewrite Hphase. cbn. auto.
  - unfold VirtualModule.start_task. rewrite Hphase.
    destruct (VirtualModule.starting _); [| cbn; auto].
    destruct (DAPGhidraServer.start _ _). cbn. auto.
  - unfold VirtualModule.alive_task. rewrite Hphase, Hevent.
    destruct (VirtualModule.beating _); cbn; auto.
  - unfold VirtualModule.set_stop_event. rewrite Hphase, Hposted. cbn. auto.
  - unfold VirtualModule.wait_for_stop.
    rewrite Hphase, Hevent, andb_false_r. cbn. auto.
Qed.

Lemma steps_keep_looping steps : forall w id self,
  heap w !! id = Some self -> looping_unsignalled self ->
  alive id (fold_left (fun w s => background s w) steps w) = true.
Proof.
  induction steps as [| s steps IH]; intros w id self Hself Hloop; cbn.
  - unfold alive. rewrite Hself. unfold VirtualModule.is_alive.
    now destruct Hloop as (-> & _).
  - destruct (background_keeps_looping s w id self Hself Hloop)
      as (self' & Hself' & Hloop').
    now apply (IH _ _ self').
Qed.

(** C8, as the code has it. When [asyncio.start_server] raises in the task
    [server.start()] (the port is held by another listener, or the bind
    fails otherwise), the error is logged, [running] stays false and no
    listener is recorded; [sys.modules] is untouched. The thread stays in
    its event loop: whatever steps the background threads take next, it is
    alive. *)
Theorem failed_start_keeps_looping id w self bound e :
  heap w !! id = Some self ->
  about_to_start self ->
  (if port_in_use w then Raise address_in_use else bound) = Raise e ->
  let w1 := background (RunStart id bound) w in
  records w1
  = records w
      ++ [Logging.mkLog Logging.ERROR
            (Py.lit "Failed to start server: " ++ Py.exn_str e)]
  /\ sys_modules w1 = sys_modules w
  /\ (exists self1,
        heap w1 !! id = Some self1
        /\ DAPGhidraServer.running (VirtualModule.server self1) = false
        /\ DAPGhidraServer.server (VirtualModule.server self1)
           = DAPGhidraServer.server (VirtualModule.server self)
        /\ VirtualModule.is_alive self1 = true)
  /\ forall steps,
       alive id (fold_left (fun w s => background s w) steps w1) = true.
Proof.
  intros Hself (Hphase & Hstarting & Hrunning & Hevent & Hposted) Hbound w1.
  assert (Hstep :
    VirtualModule.start_task
      (if port_in_use w then Raise address_in_use else bound) self
    = (VirtualModule.mkVM
         (DAPGhidraServer.mkServer
            (DAPGhidraServer.server (VirtualModule.server self)) false)
         (VirtualModule.loop self) (VirtualModule.thread self)
         (VirtualModule.stop_event self) VirtualModule.Looping
         (VirtualModule.mkLoop false false false
            (VirtualModule.waiting (VirtualModule.tasks self))
            (VirtualModule.beating (VirtualModule.tasks self))),
       [Logging.mkLog Logging.ERROR
          (Py.lit "Failed to start server: " ++ Py.exn_str e)])).
  { unfold VirtualModule.start_task, DAPGhidraServer.start.
    now rewrite Hphase, Hstarting, Hrunning, Hbound, Hevent, Hposted. }
  assert (Hself1 : heap w1 !! id = Some (fst (VirtualModule.start_task
            (if port_in_use w then Raise address_in_use else bound) self)))
    by (subst w1; cbn [background]; now apply update_lookup).
  rewrite Hstep in Hself1. cbn [fst] in Hself1.
  split; [| split; [| split]].
  - subst w1. cbn [background].
    rewrite (update_records _ _ _ _ Hself), Hstep. reflexivity.
  - apply background_modules.
  - eexists. split; [exact Hself1 |]. cbn. auto.
  - intros steps. apply (steps_keep_looping steps _ _ _ Hself1).
    unfold looping_unsignalled. cbn. auto.
Qed.

(** *** Listeners on the port *)

Lemma count_insert {A} (p : A -> bool) (l : list A) i x x' :
  l !! i = Some x ->
  count p (<[i := x']> l) + (if p x then 1 else 0)
  = count p l + (if p x' then 1 else 0).
Proof.
  revert i. induction l as [| y l IH]; intros i H; [discriminate |].
  destruct i as [| i]; simpl in *.
  - injection H as ->. destruct (p x), (p x'); lia.
  - specialize (IH i H). revert IH. destruct (p y), (p x), (p x'); lia.
Qed.

Lemma count_app {A} (p : A -> bool) (l1 l2 : list A) :
  count p (l1 ++ l2) = count p l1 + count p l2.
Proof.
  induction l1 as [| x l1 IH]; cbn; [reflexivity |]. rewrite IH.
  destruct (p x); lia.
Qed.

Lemma count_none {A} (p : A -> bool) (l : list A) :
  existsb p l = false -> count p l = 0.
Proof.
  induction l as [| x l IH]; cbn; [reflexivity |].
  destruct (p x); cbn; [discriminate | exact IH].
Qed.

Lemma update_length id f w : length (heap (update id f w)) = length (heap w).
Proof.
  unfold update. destruct (heap w !! id) as [self |]; [| reflexivity].
  destruct (f self). cbn. apply length_insert.
Qed.

(** A method that starts no listener does not add to the listeners. *)
Lemma update_listeners id f w :
  (forall self,
      VirtualModule.listening (fst (f self)) = true ->
      VirtualModule.listening self = true) ->
  listeners (update id f w) <= listeners w.
Proof.
  intros Hf. unfold update, listeners.
  destruct (heap w !! id) as [self |] eqn:Hself; [| reflexivity].
  specialize (Hf self). destruct (f self) as [self' out]. cbn in *.
  pose proof (count_insert VirtualModule.listening _ _ _ self' Hself) as Hc.
  destruct (VirtualModule.listening self');
    [rewrite Hf in Hc by reflexivity |]; lia.
Qed.

Lemma start_listens_once id bound w :
  port_in_use w = false ->
  listeners (update id (VirtualModule.start_task bound) w) <= 1.
Proof.
  intros Hfree. unfold update, listeners.
  pose proof (count_none _ _ Hfree) as Hzero.
  destruct (heap w !! id) as [self |] eqn:Hself; [| lia].
  destruct (VirtualModule.start_task bound self) as [self' out]. cbn.
  pose proof (count_insert VirtualModule.listening _ _ _ self' Hself) as Hc.
  destruct (VirtualModule.listening self'),
    (VirtualModule.listening self); lia.
Qed.

Lemma failing_start_adds_none e self :
  VirtualModule.listening (fst (VirtualModule.start_task (Py.Raise e) self))
  = true ->
  VirtualModule.listening self = true.
Proof.
  unfold VirtualModule.start_task, DAPGhidraServer.start.
  destruct (VirtualModule.phase self),
    (VirtualModule.starting (VirtualModule.tasks self)),
    (DAPGhidraServer.running (VirtualModule.server self)); cbn; auto.
Qed.

Lemma background_listeners s w :
  listeners w <= 1 -> listeners (background s w) <= 1.
Proof.
  intros H. destruct s as [id | id bound | id | id | id]; cbn [background].
  - etransitivity; [apply update_listeners | exact H].
    intros self. cbn. unfold VirtualModule.run_event_loop.
    now destruct (VirtualModule.phase self).
  - destruct (port_in_use w) eqn:Hport.
    + etransitivity; [apply update_listeners | exact H].
      intros self. apply failing_start_adds_none.
    + now apply start_listens_once.
  - etransitivity; [apply update_listeners | exact H].
    intros self. unfold VirtualModule.alive_task.
    destruct (VirtualModule.phase self),
      (VirtualModule.beating (VirtualModule.tasks self)),
      (VirtualModule.event_set (VirtualModule.tasks self)); cbn; auto.
  - etransitivity; [apply update_listeners | exact H].
    intros self. cbn. unfold VirtualModule.set_stop_event.
    destruct (VirtualModule.phase self),
      (VirtualModule.posted (VirtualModule.tasks self)); cbn; auto.
  - etransitivity; [apply update_listeners | exact H].
    intros self. unfold VirtualModule.wait_for_stop, DAPGhidraServer.stop.
    destruct (VirtualModule.phase self); cbn; auto.
    destruct (_ && _ && _); cbn; auto.
    destruct (DAPGhidraServer.running (VirtualModule.server self)); cbn;
      destruct (VirtualModule.loop self); cbn; auto;
      unfold VirtualModule.listening; cbn;
      destruct (DAPGhidraServer.server (VirtualModule.server self)); cbn;
      auto; discriminate.
Qed.

Lemma background_length s w :
  length (heap (background s w)) = length (heap w).
Proof. destruct s; apply update_length. Qed.

Lemma join_listeners id during : forall timeout w,
  listeners w <= 1 -> listeners (join id timeout during w) <= 1.
Proof.
  induction during as [| [dt s] during IH]; intros timeout w H; cbn [join];
    destruct (alive id w); cbn [negb]; auto.
  destruct (Qle_bool _ timeout); auto.
  apply IH. now apply background_listeners.
Qed.

Lemma join_length id during : forall timeout w,
  length (heap (join id timeout during w)) = length (heap w).
Proof.
  induction during as [| [dt s] during IH]; intros timeout w; cbn [join];
    destruct (alive id w); cbn [negb]; auto.
  destruct (Qle_bool _ timeout); auto.
  now rewrite IH, background_length.
Qed.

Lemma join_modules id during : forall timeout w,
  sys_modules (join id timeout during w) = sys_modules w.
Proof.
  induction during as [| [dt s] during IH]; intros timeout w; cbn [join];
    destruct (alive id w); cbn [negb]; auto.
  destruct (Qle_bool _ timeout); auto.
  now rewrite IH, background_modules.
Qed.

Lemma stop_server_sound id during w :
  sound w ->
  sound (snd (stop_server id during w))
  /\ sys_modules (snd (stop_server id during w)) = sys_modules w
  /\ length (heap (snd (stop_server id during w))) = length (heap w).
Proof.
  intros [Hl Hreg]. unfold stop_server.
  destruct (heap w !! id) as [self |] eqn:Hself; [| now repeat split].
  destruct (negb _ || negb _); [now repeat split |].
  destruct (negb (VirtualModule.loop self)); [now repeat split |].
  destruct (negb (VirtualModule.stop_event self)); [now repeat split |].
  cbn [snd].
  set (w1 := update id _ (emit _ w)).
  set (w2 := join id 5 during w1).
  assert (Hl1 : listeners w1 <= 1).
  { etransitivity; [apply update_listeners | exact Hl]. auto. }
  assert (Hl2 : listeners w2 <= 1) by now apply join_listeners.
  assert (Hm : sys_modules (update id
                 (fun self => (VirtualModule.release self, []))
                 (emit [stop_report (alive id w2)] w2)) = sys_modules w).
  { rewrite update_modules. cbn. subst w2. rewrite join_modules.
    subst w1. now rewrite update_modules. }
  assert (Hlen : length (heap (update id
                 (fun self => (VirtualModule.release self, []))
                 (emit [stop_report (alive id w2)] w2)))
                 = length (heap w)).
  { rewrite update_length. cbn. subst w2. rewrite join_length.
    subst w1. now rewrite update_length. }
  split; [| now split].
  split.
  - etransitivity; [apply update_listeners | exact Hl2]. auto.
  - intros id0. rewrite Hm, Hlen. apply Hreg.
Qed.

Lemma register_and_start_sound w :
  listeners w <= 1 ->
  sound (register_and_start w)
  /\ sys_modules (register_and_start w) !! MODULE_NAME
     = Some (VirtualModuleObject (length (heap w))).
Proof.
  intros Hl.
  assert (Hm : sys_modules (register_and_start w) !! MODULE_NAME
               = Some (VirtualModuleObject (length (heap w)))).
  { unfold register_and_start. cbn. rewrite update_modules. cbn.
    apply lookup_insert_eq. }
  split; [| exact Hm]. split.
  - unfold register_and_start. cbn.
    etransitivity; [apply update_listeners |].
    + intros self. unfold VirtualModule.start_server.
      now destruct (_ && _).
    + unfold listeners. cbn. rewrite count_app. cbn. unfold listeners in Hl.
      lia.
  - intros id. rewrite Hm. intros [= <-].
    unfold register_and_start. cbn. rewrite update_length. cbn.
    rewrite length_app. cbn. lia.
Qed.

Lemma start_script_sound during w :
  sound w -> sound (snd (ghidra_start_goto_server during w)).
Proof.
  intros Hw. unfold ghidra_start_goto_server, stop_previous.
  cbn [sys_modules set_logger].
  destruct (sys_modules w !! MODULE_NAME) as [old |] eqn:Hold.
  - destruct old as [id | missing].
    + match goal with
      | |- context [stop_server id during ?w0] =>
          assert (Hw0 : sound w0) by exact Hw;
          destruct (stop_server_sound id during w0 Hw0) as (Hs & Hm & Hlen);
          destruct (stop_server id during w0) as [[[] | e] w1]
      end; cbn [snd] in *; [| exact Hs].
      apply register_and_start_sound. apply Hs.
    + cbn [snd]. apply register_and_start_sound. apply Hw.
  - cbn [snd]. apply register_and_start_sound. apply Hw.
Qed.

Lemma stop_script_sound during w :
  sound w -> sound (snd (ghidra_stop_goto_server during w)).
Proof.
  intros Hw. unfold ghidra_stop_goto_server.
  set (w0 := match handlers w with [] => _ | _ => w end).
  assert (Hw0 : sound w0) by (subst w0; now destruct (handlers w)).
  destruct (sys_modules w0 !! MODULE_NAME) as [[id | missing] |];
    [apply stop_server_sound; exact Hw0 | exact Hw0 | exact Hw0].
Qed.

Lemma act_sound w a : sound w -> sound (act w a).
Proof.
  intros Hw. destruct a as [during | during | s]; cbn [act].
  - now apply start_script_sound.
  - now apply stop_script_sound.
  - destruct Hw as [Hl Hreg]. split; [now apply background_listeners |].
    intros id. rewrite background_modules, background_length. apply Hreg.
Qed.

Lemma run_sound actions : forall w, sound w -> sound (run actions w).
Proof.
  induction actions as [| a actions IH]; intros w Hw; [exact Hw |].
  cbn. apply IH. now apply act_sound.
Qed.

Lemma boot_sound : sound boot.
Proof. split; [cbn; lia |]. intros id. discriminate. Qed.

Lemma reachable_sound actions : sound (run actions boot).
Proof. apply run_sound, boot_sound. Qed.

(** C7. In every world the scripts and the threads can reach, at most one
    listener holds the port and at most one object is registered under the
    module name. A run of the start script from such a world, with an
    object registered, first calls [stop_server] on that object and waits
    for it to return; only then is the entry deleted and a new object
    registered under the name and started; the world in between has at
    most one listener, and so has the world the script leaves. When
    [stop_server] raises, the script ends there. *)
Theorem restart_stops_then_replaces actions during :
  let w := run actions boot in
  sound w
  /\ sound (snd (ghidra_start_goto_server during w))
  /\ forall id,
       sys_modules w !! MODULE_NAME = Some (VirtualModuleObject id) ->
       let opened :=
         emit [Logging.mkLog Logging.INFO
                 (Py.lit "Stopping previous server instance...")]
           (set_logger (handlers w) Logging.DEBUG w) in
       let stopped := snd (stop_server id during opened) in
       sound stopped
       /\ match fst (stop_server id during opened) with
          | Py.Ok _ =>
              ghidra_start_goto_server during w
              = (Py.Ok tt,
                 register_and_start
                   (set_modules (delete MODULE_NAME (sys_modules stopped))
                      stopped))
              /\ sys_modules (snd (ghidra_start_goto_server during w))
                   !! MODULE_NAME
                 = Some (VirtualModuleObject (length (heap stopped)))
              /\ id < length (heap stopped)
          | Py.Raise e =>
              ghidra_start_goto_server during w = (Py.Raise e, stopped)
          end.
Proof.
  intros w. pose proof (reachable_sound actions) as Hw. fold w in Hw.
  split; [exact Hw |]. split; [now apply start_script_sound |].
  intros id Hid opened stopped.
  assert (Hopened : sound opened) by exact Hw.
  destruct (stop_server_sound id during opened Hopened) as (Hs & Hm & Hlen).
  fold stopped in Hs, Hm, Hlen.
  split; [exact Hs |].
  assert (Hscript :
    ghidra_start_goto_server during w
    = match stop_server id during opened with
      | (Py.Ok _, w1) =>
          (Py.Ok tt,
           register_and_start
             (set_modules (delete MODULE_NAME (sys_modules w1)) w1))
      | (Py.Raise e, w1) => (Py.Raise e, w1)
      end).
  { unfold ghidra_start_goto_server, stop_previous.
    cbn [sys_modules set_logger]. rewrite Hid. fold opened.
    now destruct (stop_server id during opened) as [[[] | e] w1]. }
  subst stopped.
  destruct (stop_server id during opened) as [[[] | e] w1]; cbn [fst snd] in *;
    [| exact Hscript].
  split; [exact Hscript |]. split.
  - rewrite Hscript. cbn [snd].
    apply (register_and_start_sound
             (set_modules (delete MODULE_NAME (sys_modules w1)) w1)).
    apply Hs.
  - rewrite Hlen. now apply Hw.
Qed.

(** The stop script: with nothing registered it only warns. *)
Lemma stop_script_without_server during w :
  sys_modules w !! MODULE_NAME = None ->
  exists w0,
    ghidra_stop_goto_server during w
    = (Py.Ok tt,
       emit [Logging.mkLog Logging.WARNING
               (Py.lit "DAP-Ghidra server not running")] w0)
    /\ heap w0 = heap w /\ sys_modules w0 = sys_modules w
    /\ records w0 = records w.
Proof.
  intros H. unfold ghidra_stop_goto_server.
  destruct (handlers w); cbn [sys_modules set_logger]; rewrite H;
    eexists; split; [reflexivity | | reflexivity |]; cbn; auto.
Qed.

(** The stop script with an object registered is [stop_server] on it. *)
Lemma stop_script_with_server during w id :
  sys_modules w !! MODULE_NAME = Some (VirtualModuleObject id) ->
  handlers w <> [] ->
  ghidra_stop_goto_server during w = stop_server id during w.
Proof.
  intros H Hh. unfold ghidra_stop_goto_server.
  destruct (handlers w); [congruence |]. now rewrite H.
Qed.

(** *** The fields of a running object *)

Lemma update_wired id f w :
  (forall self, wired self -> wired (fst (f self))) ->
  wired_world w -> wired_world (update id f w).
Proof.
  intros Hf Hw. unfold wired_world, update in *.
  destruct (heap w !! id) as [self |] eqn:Hself; [| exact Hw].
  specialize (Hf self). destruct (f self) as [self' out]. cbn in *.
  apply Forall_insert; [exact Hw |]. apply Hf.
  apply (proj1 (Forall_lookup _ _) Hw id self Hself).
Qed.

Lemma background_wired s w : wired_world w -> wired_world (background s w).
Proof.
  intros Hw.
  destruct s as [id | id bound | id | id | id]; cbn [background];
    (apply update_wired; [| exact Hw]);
    intros [[sv rn] lp th ev ph [es po st wa be]]; unfold wired;
    cbn [fst VirtualModule.phase VirtualModule.thread VirtualModule.loop
         VirtualModule.stop_event].
  - destruct ph; cbn; auto.
  - unfold VirtualModule.start_task, DAPGhidraServer.start.
    destruct ph, st, rn; cbn; auto. destruct (if port_in_use w then _ else _);
      cbn; auto.
  - destruct ph, be, es; cbn; auto.
  - destruct ph, po; cbn; auto.
  - unfold VirtualModule.wait_for_stop, DAPGhidraServer.stop.
    destruct ph; cbn; auto.
    destruct wa, es, st, rn, lp; cbn; auto; try discriminate;
      intros H _ Ht; destruct (H eq_refl Ht); discriminate.
Qed.

Lemma join_wired id during : forall timeout w,
  wired_world w -> wired_world (join id timeout during w).
Proof.
  induction during as [| [dt s] during IH]; intros timeout w H; cbn [join];
    destruct (alive id w); cbn [negb]; auto.
  destruct (Qle_bool _ timeout); auto.
  apply IH. now apply background_wired.
Qed.

Lemma stop_server_wired id during w :
  wired_world w -> wired_world (snd (stop_server id during w)).
Proof.
  intros Hw. unfold stop_server.
  destruct (heap w !! id) as [self |]; [| exact Hw].
  destruct (negb _ || negb _); [exact Hw |].
  destruct (negb (VirtualModule.loop self)); [exact Hw |].
  destruct (negb (VirtualModule.stop_event self)); [exact Hw |].
  cbn [snd].
  apply update_wired; [intros s0 _ _; discriminate |].
  change (wired_world
            (join id 5 during
               (update id (fun self => (VirtualModule.post_stop self, []))
                  (emit [Logging.mkLog Logging.INFO
                           (Py.lit "Stopping server...")] w)))).
  apply join_wired, update_wired; [| exact Hw].
  intros s0 Hs0. exact Hs0.
Qed.

Lemma register_and_start_wired w :
  wired_world w -> wired_world (register_and_start w).
Proof.
  intros Hw. unfold register_and_start.
  change (wired_world
            (update (length (heap w)) VirtualModule.start_server
               (mkWorld
                  (<[MODULE_NAME := VirtualModuleObject (length (heap w))]>
                     (sys_modules w))
                  (heap w ++ [VirtualModule.__init__]) (handlers w)
                  (level w) (records w) (clock w)))).
  apply update_wired.
  - intros self Hself. unfold VirtualModule.start_server.
    destruct (_ && _); [exact Hself |]. intros [=].
  - unfold wired_world. cbn. apply Forall_app. split; [exact Hw |].
    constructor; [intros [=] | constructor].
Qed.

Lemma start_script_wired during w :
  wired_world w -> wired_world (snd (ghidra_start_goto_server during w)).
Proof.
  intros Hw. unfold ghidra_start_goto_server, stop_previous.
  cbn [sys_modules set_logger].
  destruct (sys_modules w !! MODULE_NAME) as [[id | missing] |].
  - match goal with
    | |- context [stop_server id during ?w0] =>
        pose proof (stop_server_wired id during w0 Hw) as Hs;
        destruct (stop_server id during w0) as [[[] | e] w1]
    end; cbn [snd] in *; [| exact Hs].
    now apply register_and_start_wired.
  - cbn [snd]. now apply register_and_start_wired.
  - cbn [snd]. now apply register_and_start_wired.
Qed.

Lemma stop_script_wired during w :
  wired_world w -> wired_world (snd (ghidra_stop_goto_server during w)).
Proof.
  intros Hw. unfold ghidra_stop_goto_server.
  set (w0 := match handlers w with [] => _ | _ => w end).
  assert (Hw0 : wired_world w0) by (subst w0; now destruct (handlers w)).
  destruct (sys_modules w0 !! MODULE_NAME) as [[id | missing] |];
    [now apply stop_server_wired | exact Hw0 | exact Hw0].
Qed.

Lemma reachable_wired actions : wired_world (run actions boot).
Proof.
  assert (H : forall w, wired_world w -> wired_world (run actions w)).
  { induction actions as [| a actions IH]; intros w Hw; [exact Hw |].
    cbn. apply IH. destruct a as [during | during | s]; cbn [act].
    - now apply start_script_wired.
    - now apply stop_script_wired.
    - now apply background_wired. }
  apply H. constructor.
Qed.

(** C9, as the code has it. In every world the scripts and the threads
    can reach: [stop_server] on an object whose thread is absent or dead
    logs the warning and changes nothing; on an object whose thread runs
    its event loop it posts [stop_event.set] to the loop, waits for the
    thread for at most 5 seconds (the whole 5 seconds when the thread is
    still alive afterwards), reports whether the thread stopped or is still
    alive, and clears [thread] and [loop]; on an object whose thread is
    alive while [self.loop] or [self.stop_event] is still [None], line 252
    raises the [AttributeError] of the first of the two that is missing,
    after the record "Stopping server...": nothing is posted, waited for
    or reported, and [thread] and [loop] are not cleared. *)
Theorem stop_server_behaviour actions id during self :
  let w := run actions boot in
  heap w !! id = Some self ->
  (VirtualModule.thread self && VirtualModule.is_alive self = false ->
   stop_server id during w
   = (Py.Ok tt,
      emit [Logging.mkLog Logging.WARNING (Py.lit "Server not running")] w))
  /\ (VirtualModule.thread self = true ->
      VirtualModule.phase self = VirtualModule.Looping ->
      exists signalled waited,
        signalled
        = update id (fun self => (VirtualModule.post_stop self, []))
            (emit [Logging.mkLog Logging.INFO (Py.lit "Stopping server...")]
               w)
        /\ (exists self', heap signalled !! id = Some self'
            /\ VirtualModule.posted (VirtualModule.tasks self') = true)
        /\ waited = join id 5 during signalled
        /\ (clock w <= clock waited)%Q
        /\ (clock waited <= clock w + 5)%Q
        /\ (alive id waited = true -> (clock waited == clock w + 5)%Q)
        /\ stop_server id during w
           = (Py.Ok tt,
              update id (fun self => (VirtualModule.release self, []))
                (emit [stop_report (alive id waited)] waited)))
  /\ (VirtualModule.thread self = true ->
      VirtualModule.is_alive self = true ->
      VirtualModule.loop self = false
      \/ VirtualModule.stop_event self = false ->
      stop_server id during w
      = (Py.Raise
           (Py.no_attribute Py.VNone
              (if VirtualModule.loop self then "set"
               else "call_soon_threadsafe")),
         emit [Logging.mkLog Logging.INFO (Py.lit "Stopping server...")]
           w)).
Proof.
  intros w Hself.
  destruct (stop_server_steps id during w self Hself) as [Hdown Hup].
  split; [exact Hdown |]. split.
  - intros Hthread Hphase.
    pose proof (reachable_wired actions) as Hwired. fold w in Hwired.
    destruct (proj1 (Forall_lookup _ _) Hwired id self Hself Hphase Hthread)
      as [Hloop Hevent].
    apply Hup; auto.
    unfold VirtualModule.is_alive. now rewrite Hphase.
  - intros Hthread Halive Hmissing.
    unfold stop_server. rewrite Hself, Hthread, Halive. cbn [negb orb].
    destruct (VirtualModule.loop self); cbn [negb]; [| reflexivity].
    destruct Hmissing as [Hloop | ->]; [discriminate Hloop | reflexivity].
Qed.

End Lifecycle.

(** ** Objects through the life cycle *)

Section Objects.
Import Interpreter Scripts Spec.
Context {rt : Runtime}.

Lemma update_at id f w self :
  heap w !! id = Some self ->
  update id f w
  = mkWorld (sys_modules w) (<[id := fst (f self)]> (heap w)) (handlers w)
      (level w) (records w ++ snd (f self)) (clock w).
Proof. intros H. unfold update. rewrite H. now destruct (f self). Qed.

Lemma update_handlers id f w :
  handlers (update id f w) = handlers w /\ level (update id f w) = level w.
Proof.
  unfold update. destruct (heap w !! id) as [self |]; [| easy].
  now destruct (f self).
Qed.

Lemma background_handlers s w :
  handlers (background s w) = handlers w
  /\ level (background s w) = level w.
Proof. destruct s; apply update_handlers. Qed.

Lemma join_handlers id during : forall timeout w,
  handlers (join id timeout during w) = handlers w
  /\ level (join id timeout during w) = level w.
Proof.
  induction during as [| [dt s] during IH]; intros timeout w; cbn [join];
    destruct (alive id w); cbn [negb]; auto.
  destruct (Qle_bool _ timeout); auto.
  destruct (IH (timeout - (if Qle_bool 0 dt then dt else 0))%Q
              (background s (tick (if Qle_bool 0 dt then dt else 0) w)))
    as [-> ->].
  destruct (background_handlers s
              (tick (if Qle_bool 0 dt then dt else 0) w)) as [-> ->].
  auto.
Qed.

Lemma stop_server_handlers id during w :
  handlers (snd (stop_server id during w)) = handlers w
  /\ level (snd (stop_server id during w)) = level w
  /\ sys_modules (snd (stop_server id during w)) = sys_modules w.
Proof.
  unfold stop_server.
  destruct (heap w !! id) as [self |]; [| auto].
  destruct (negb _ || negb _); [auto |].
  destruct (negb (VirtualModule.loop self)); [auto |].
  destruct (negb (VirtualModule.stop_event self)); [auto |].
  cbn [snd].
  repeat match goal with
         | |- context [handlers (update ?i ?f ?x)] =>
             destruct (update_handlers i f x) as [-> ->]
         | |- context [handlers (join ?i ?q ?d ?x)] =>
             destruct (join_handlers i d q x) as [-> ->]
         | |- context [handlers (emit ?o ?x)] =>
             change (handlers (emit o x)) with (handlers x);
             change (level (emit o x)) with (level x)
         end.
  rewrite update_modules. cbn [sys_modules emit].
  rewrite join_modules, update_modules. auto.
Qed.

Lemma stop_server_length id during w :
  length (heap (snd (stop_server id during w))) = length (heap w).
Proof.
  unfold stop_server.
  destruct (heap w !! id) as [self |]; [| reflexivity].
  destruct (negb _ || negb _); [reflexivity |].
  destruct (negb (VirtualModule.loop self)); [reflexivity |].
  destruct (negb (VirtualModule.stop_event self)); [reflexivity |].
  cbn [snd]. rewrite update_length. cbn [heap emit].
  now rewrite join_length, update_length.
Qed.

Section Kept.

Variable Inv : VirtualModule.t -> Prop.

Hypothesis Inv_kept : kept Inv.

Local Abbreviation holds := (Spec.holds Inv).

Lemma update_kept id0 f w id :
  (forall self, Inv self -> Inv (fst (f self))) ->
  holds id w -> holds id (update id0 f w).
Proof using Type.
  intros Hf (self & Hself & HQ).
  destruct (decide (id0 = id)) as [-> | Hne].
  - exists (fst (f self)). split; [now apply update_lookup | auto].
  - exists self. now rewrite update_lookup_ne.
Qed.

Lemma background_kept s w id : holds id w -> holds id (background s w).
Proof using All.
  intros H. destruct Inv_kept as (? & ? & ? & ? & ? & _).
  destruct s as [id0 | id0 bound | id0 | id0 | id0];
    cbn [background]; apply update_kept; cbn [fst]; auto.
Qed.

Lemma join_kept id0 during id : forall timeout w,
  holds id w -> holds id (join id0 timeout during w).
Proof using All.
  induction during as [| [dt s] during IH]; intros timeout w H; cbn [join];
    destruct (alive id0 w); cbn [negb]; auto.
  destruct (Qle_bool _ timeout); auto.
  apply IH, background_kept. exact H.
Qed.

Lemma stop_server_kept id0 during w id :
  holds id w -> holds id (snd (stop_server id0 during w)).
Proof using All.
  intros H. unfold stop_server.
  destruct (heap w !! id0) as [self |]; [| exact H].
  destruct (negb _ || negb _); [exact H |].
  destruct (negb (VirtualModule.loop self)); [exact H |].
  destruct (negb (VirtualModule.stop_event self)); [exact H |].
  destruct Inv_kept as (_ & _ & _ & _ & _ & Hpost & Hrelease).
  cbn [snd]. apply update_kept; [cbn; auto |].
  change (holds id
            (join id0 5 during
               (update id0 (fun self => (VirtualModule.post_stop self, []))
                  (emit [Logging.mkLog Logging.INFO
                           (Py.lit "Stopping server...")] w)))).
  apply join_kept, update_kept; [cbn; auto | exact H].
Qed.

Lemma register_and_start_heap w :
  heap (register_and_start w)
  = heap w ++ [fst (VirtualModule.start_server VirtualModule.__init__)].
Proof.
  unfold register_and_start. cbn [heap emit].
  rewrite (update_at _ _ _ VirtualModule.__init__)
    by (cbn [heap]; apply list_lookup_middle; reflexivity).
  cbn [heap].
  rewrite insert_app_r_alt by reflexivity.
  now rewrite Nat.sub_diag.
Qed.

Lemma register_and_start_kept w id :
  holds id w -> holds id (register_and_start w).
Proof using Type.
  intros (self & Hself & HQ). exists self. split; [| exact HQ].
  rewrite register_and_start_heap.
  rewrite lookup_app_l; [exact Hself |]. now apply lookup_lt_Some in Hself.
Qed.

Lemma start_script_kept during w id :
  holds id w -> holds id (snd (ghidra_start_goto_server during w)).
Proof using All.
  intros H. unfold ghidra_start_goto_server, stop_previous.
  cbn [sys_modules set_logger].
  destruct (sys_modules w !! MODULE_NAME) as [[id0 | missing] |].
  - match goal with
    | |- context [stop_server id0 during ?w0] =>
        pose proof (stop_server_kept id0 during w0 id H) as Hs;
        destruct (stop_server id0 during w0) as [[[] | e] w1]
    end; cbn [snd] in *; [| exact Hs].
    now apply register_and_start_kept.
  - cbn [snd]. now apply register_and_start_kept.
  - cbn [snd]. now apply register_and_start_kept.
Qed.

Lemma stop_script_kept during w id :
  holds id w -> holds id (snd (ghidra_stop_goto_server during w)).
Proof using All.
  intros H. unfold ghidra_stop_goto_server.
  set (w0 := match handlers w with [] => _ | _ => w end).
  assert (H0 : holds id w0) by (subst w0; now destruct (handlers w)).
  destruct (sys_modules w0 !! MODULE_NAME) as [[id0 | missing] |];
    [now apply stop_server_kept | exact H0 | exact H0].
Qed.

Lemma act_kept w a id : holds id w -> holds id (act w a).
Proof using All.
  intros H. destruct a as [during | during | s]; cbn [act].
  - now apply start_script_kept.
  - now apply stop_script_kept.
  - now apply background_kept.
Qed.



(** The objects of a world that the scripts and the threads reach: each
    was created by a run of the start script, which started it at once. *)
Hypothesis started_kept :
  Inv (fst (VirtualModule.start_server VirtualModule.__init__)).

Lemma act_new_object w a id self :
  heap w !! id = None -> heap (act w a) !! id = Some self ->
  self = fst (VirtualModule.start_server VirtualModule.__init__).
Proof using Type.
  intros Hnone Hsome. apply lookup_ge_None in Hnone.
  assert (Hreg : forall w0,
             length (heap w0) = length (heap w) ->
             heap (register_and_start w0) !! id = Some self ->
             self = fst (VirtualModule.start_server VirtualModule.__init__)).
  { intros w0 Hlen H. rewrite register_and_start_heap in H.
    rewrite <- Hlen in Hnone.
    rewrite lookup_app_r in H by exact Hnone.
    destruct (id - length (heap w0)) as [| n]; simpl in H;
      [now injection H as <- | discriminate]. }
  assert (Hsame : forall w0,
             length (heap w0) = length (heap w) ->
             heap w0 !! id = Some self -> False).
  { intros w0 Hlen H. apply lookup_lt_Some in H. lia. }
  destruct a as [during | during | s]; cbn [act] in Hsome.
  - unfold ghidra_start_goto_server, stop_previous in Hsome.
    cbn [sys_modules set_logger] in Hsome.
    destruct (sys_modules w !! MODULE_NAME) as [[id0 | missing] |].
    + match type of Hsome with
      | context [stop_server id0 during ?w0] =>
          pose proof (stop_server_length id0 during w0) as Hs;
          destruct (stop_server id0 during w0) as [[[] | e] w1]
      end; cbn [snd heap emit set_logger] in *.
      * exact (Hreg (set_modules _ w1) Hs Hsome).
      * now destruct (Hsame _ Hs Hsome).
    + cbn [snd] in Hsome. eapply Hreg; [| exact Hsome]. reflexivity.
    + cbn [snd] in Hsome. eapply Hreg; [| exact Hsome]. reflexivity.
  - destruct (Hsame (snd (ghidra_stop_goto_server during w))); [| exact Hsome].
    unfold ghidra_stop_goto_server.
    set (w0 := match handlers w with [] => _ | _ => w end).
    assert (H0 : length (heap w0) = length (heap w))
      by (subst w0; now destruct (handlers w)).
    destruct (sys_modules w0 !! MODULE_NAME) as [[id0 | missing] |];
      [| exact H0 | exact H0].
    now rewrite stop_server_length.
  - destruct (Hsame (background s w)); [| exact Hsome].
    apply background_length.
Qed.

(** Every object of a reachable world satisfies [Inv]. *)
Lemma reachable_kept actions id self :
  heap (run actions boot) !! id = Some self -> Inv self.
Proof using All.
  assert (H : forall w,
             (forall id self, heap w !! id = Some self -> Inv self) ->
             forall id self, heap (run actions w) !! id = Some self ->
                             Inv self).
  { induction actions as [| a actions IH]; intros w Hw id0 self0;
      [apply Hw |].
    cbn. apply IH. clear id0 self0. intros id0 self0 H0.
    destruct (heap w !! id0) as [old |] eqn:Hold.
    - destruct (act_kept w a id0) as (self1 & Hself1 & HQ1);
        [exists old; split; [exact Hold | now apply (Hw id0)] |].
      congruence.
    - now rewrite (act_new_object w a id0 self0 Hold H0). }
  apply H. intros id0 self0 [=].
Qed.

End Kept.

(** The methods of the thread and of [stop_server] on an object given by
    its fields. *)
Ltac project :=
  cbn [fst snd negb andb orb
       VirtualModule.server VirtualModule.loop VirtualModule.thread
       VirtualModule.stop_event VirtualModule.phase VirtualModule.tasks
       VirtualModule.event_set VirtualModule.posted VirtualModule.starting
       VirtualModule.waiting VirtualModule.beating
       DAPGhidraServer.server DAPGhidraServer.running] in *.

Ltac methods :=
  unfold VirtualModule.run_event_loop, VirtualModule.start_task,
    VirtualModule.alive_task, VirtualModule.set_stop_event,
    VirtualModule.wait_for_stop, VirtualModule.post_stop,
    VirtualModule.release, VirtualModule.start_server,
    VirtualModule.is_alive, VirtualModule.listening,
    DAPGhidraServer.start, DAPGhidraServer.stop in *;
  project.

Ltac fields self :=
  destruct self as [[sv rn] lp th ev ph [es po st wa be]].

Ltac kept_by_cases :=
  repeat apply conj; intros;
  match goal with self : VirtualModule.t |- _ => fields self end;
  methods; repeat case_match; simplify_eq; project;
  intuition (try (subst; project; (discriminate || congruence))).



Lemma beating_until_set_kept : kept beating_until_set.
Proof. unfold kept, beating_until_set. kept_by_cases. Qed.

Lemma attended_kept : kept attended.
Proof. unfold kept, attended. kept_by_cases. Qed.

Lemma awaiting_stop_kept : kept awaiting_stop.
Proof. unfold kept, awaiting_stop. kept_by_cases. Qed.

(** *** A stop that times out *)


(** *** A stop that the loop handles in time *)

Lemma join_step id timeout dt s during w :
  alive id w = true -> (0 <= dt)%Q -> (dt <= timeout)%Q ->
  join id timeout ((dt, s) :: during) w
  = join id (timeout - dt) during (background s (tick dt w)).
Proof.
  intros Ha H0 Ht. cbn [join]. rewrite Ha. cbn [negb].
  apply Qle_bool_iff in H0. rewrite H0.
  apply Qle_bool_iff in Ht. now rewrite Ht.
Qed.

Lemma join_done id timeout during w :
  alive id w = false -> join id timeout during w = w.
Proof. intros Ha. destruct during as [| [dt s] during]; cbn; now rewrite Ha. Qed.

Lemma update_world id f m h hs lv rs cl x :
  h !! id = Some x ->
  update id f (mkWorld m h hs lv rs cl)
  = mkWorld m (<[id := fst (f x)]> h) hs lv (rs ++ snd (f x)) cl.
Proof. intros H. now rewrite (update_at id f _ x) by exact H. Qed.

(** The object that a stop handled in time leaves behind. *)
Lemma clean_stop_world id w self d1 d2 rest :
  heap w !! id = Some self ->
  VirtualModule.thread self = true ->
  VirtualModule.phase self = VirtualModule.Looping ->
  VirtualModule.loop self = true ->
  VirtualModule.stop_event self = true ->
  VirtualModule.waiting (VirtualModule.tasks self) = true ->
  VirtualModule.starting (VirtualModule.tasks self) = false ->
  (0 <= d1)%Q -> (0 <= d2)%Q -> (d1 + d2 <= 5)%Q ->
  stop_server id ((d1, RunPosted id) :: (d2, RunStop id) :: rest) w
  = (Py.Ok tt,
     mkWorld (sys_modules w)
       (<[id := VirtualModule.mkVM
                  (fst (DAPGhidraServer.stop (VirtualModule.server self)))
                  false false true VirtualModule.Exited
                  (VirtualModule.mkLoop true false false false
                     (VirtualModule.beating (VirtualModule.tasks self)))]>
          (heap w))
       (handlers w) (level w)
       (records w
          ++ [Logging.mkLog Logging.INFO (Py.lit "Stopping server...")]
          ++ snd (DAPGhidraServer.stop (VirtualModule.server self))
          ++ [Logging.mkLog Logging.DEBUG (Py.lit "Event loop closed");
              Logging.mkLog Logging.INFO (Py.lit "Server thread stopped")])
       (clock w + d1 + d2)%Q).
Proof.
  intros Hself Hthread Hphase Hloop Hevent Hwait Hstart Hd1 Hd2 Hsum.
  assert (Hlt : id < length (heap w)) by now apply lookup_lt_Some in Hself.
  destruct w as [m h hs lv rs cl]. cbn [heap] in Hself, Hlt.
  fields self. cbn in Hthread, Hphase, Hstart, Hloop, Hevent, Hwait.
  subst th ph st lp ev wa.
  cbn [sys_modules heap handlers level records clock VirtualModule.server
       VirtualModule.tasks VirtualModule.beating].
  set (self := VirtualModule.mkVM _ true true true VirtualModule.Looping _)
    in *.
  set (during := (d1, RunPosted id) :: (d2, RunStop id) :: rest).
  assert (Hany : forall x, <[id := x]> h !! id = Some x)
    by (intros x; now apply list_lookup_insert_eq).
  set (stopping := Logging.mkLog Logging.INFO (Py.lit "Stopping server...")).
  destruct (DAPGhidraServer.stop (DAPGhidraServer.mkServer sv rn))
    as [srv out] eqn:Hsrv.
  assert (Esignal :
    update id (fun self => (VirtualModule.post_stop self, []))
      (emit [stopping] (mkWorld m h hs lv rs cl))
    = mkWorld m (<[id := VirtualModule.post_stop self]> h) hs lv
        ((rs ++ [stopping]) ++ []) cl).
  { unfold emit. cbn [sys_modules heap handlers level records clock].
    now rewrite (update_world id _ _ _ _ _ _ _ self Hself). }
  assert (Ewait :
    join id 5 during
      (mkWorld m (<[id := VirtualModule.post_stop self]> h) hs lv
         ((rs ++ [stopping]) ++ []) cl)
    = mkWorld m
        (<[id := VirtualModule.mkVM srv true true true VirtualModule.Exited
                   (VirtualModule.mkLoop true false false false be)]> h)
        hs lv
        ((((rs ++ [stopping]) ++ []) ++ [])
           ++ out ++ [Logging.mkLog Logging.DEBUG
                        (Py.lit "Event loop closed")])
        (cl + d1 + d2)%Q).
  { subst during.
    rewrite join_step; [| | exact Hd1 | lra].
    2:{ unfold alive. cbn [heap]. now rewrite Hany. }
    cbn [background]. unfold tick.
    cbn [sys_modules heap handlers level records clock].
    rewrite (update_world id _ _ _ _ _ _ _ _ (Hany _)). cbn [fst snd].
    rewrite list_insert_insert_eq.
    rewrite join_step; [| | exact Hd2 | lra].
    2:{ unfold alive. cbn [heap]. now rewrite Hany. }
    cbn [background]. unfold tick.
    cbn [sys_modules heap handlers level records clock].
    rewrite (update_world id _ _ _ _ _ _ _ _ (Hany _)).
    rewrite list_insert_insert_eq.
    unfold VirtualModule.wait_for_stop. subst self.
    cbn [VirtualModule.post_stop VirtualModule.set_stop_event
         VirtualModule.phase VirtualModule.tasks VirtualModule.posted
         VirtualModule.waiting VirtualModule.event_set
         VirtualModule.starting VirtualModule.server VirtualModule.loop
         VirtualModule.thread VirtualModule.stop_event
         VirtualModule.beating andb negb].
    rewrite Hsrv. cbn [fst snd].
    apply join_done. unfold alive. cbn [heap]. now rewrite Hany. }
  unfold stop_server. cbn [heap]. rewrite Hself.
  cbn [negb orb VirtualModule.thread VirtualModule.is_alive
       VirtualModule.phase VirtualModule.loop VirtualModule.stop_event
       self].
  fold stopping. rewrite Esignal, Ewait.
  unfold emit. cbn [sys_modules heap handlers level records clock].
  rewrite (update_world id _ _ _ _ _ _ _ _ (Hany _)).
  rewrite list_insert_insert_eq.
  unfold alive. cbn [heap]. rewrite Hany.
  cbn [fst snd VirtualModule.release VirtualModule.server
       VirtualModule.stop_event VirtualModule.phase VirtualModule.tasks
       VirtualModule.is_alive stop_report].
  rewrite !app_nil_r, <- !app_assoc. reflexivity.
Qed.

(** Stopping a server whose [running] tells the truth leaves no
    listener. *)
Lemma stopped_not_listening self lp th ev ph ts :
  attended self ->
  VirtualModule.listening
    (VirtualModule.mkVM
       (fst (DAPGhidraServer.stop (VirtualModule.server self)))
       lp th ev ph ts) = false.
Proof.
  intros [Hiff _]. revert Hiff.
  unfold VirtualModule.listening, DAPGhidraServer.stop. cbn.
  destruct (DAPGhidraServer.running (VirtualModule.server self));
    cbn; [now destruct (DAPGhidraServer.server _) |].
  destruct (DAPGhidraServer.server _) as [[|] |]; intuition discriminate.
Qed.

Lemma count_existsb {A} (p : A -> bool) (l : list A) :
  count p l = 0 -> existsb p l = false.
Proof.
  induction l as [| x l IH]; cbn; [reflexivity |].
  destruct (p x); cbn; [discriminate | exact IH].
Qed.

(** X18. A stop that the event loop handles in time. In a reachable world,
    take an object whose thread is in its event loop and has run the task
    [server.start()]. When, while [stop_server] waits, the loop runs the
    posted [stop_event.set] and then resumes [wait_for_stop], both within
    the 5 seconds, then [stop_server] returns as soon as the thread has
    returned: the server is stopped and its listener no longer holds the
    port, the thread has exited, [thread] and [loop] are cleared, the
    registry is untouched, and the log shows the stop in order. *)
Theorem clean_stop_releases_port actions id self d1 d2 rest :
  let w := run actions boot in
  heap w !! id = Some self ->
  VirtualModule.thread self = true ->
  VirtualModule.phase self = VirtualModule.Looping ->
  VirtualModule.starting (VirtualModule.tasks self) = false ->
  (0 <= d1)%Q -> (0 <= d2)%Q -> (d1 + d2 <= 5)%Q ->
  let during := (d1, RunPosted id) :: (d2, RunStop id) :: rest in
  let stopped :=
    VirtualModule.mkVM
      (fst (DAPGhidraServer.stop (VirtualModule.server self)))
      false false true VirtualModule.Exited
      (VirtualModule.mkLoop true false false false
         (VirtualModule.beating (VirtualModule.tasks self))) in
  exists w',
    stop_server id during w = (Py.Ok tt, w')
    /\ heap w' = <[id := stopped]> (heap w)
    /\ alive id w' = false
    /\ VirtualModule.listening stopped = false
    /\ listeners w'
       + (if VirtualModule.listening self then 1 else 0) = listeners w
    /\ sys_modules w' = sys_modules w
    /\ clock w' = (clock w + d1 + d2)%Q
    /\ records w'
       = records w
           ++ [Logging.mkLog Logging.INFO (Py.lit "Stopping server...")]
           ++ snd (DAPGhidraServer.stop (VirtualModule.server self))
           ++ [Logging.mkLog Logging.DEBUG (Py.lit "Event loop closed");
               Logging.mkLog Logging.INFO (Py.lit "Server thread stopped")].
Proof.
  intros w Hself Hthread Hphase Hstart Hd1 Hd2 Hsum during stopped.
  pose proof (reachable_wired actions) as Hwired. fold w in Hwired.
  destruct (proj1 (Forall_lookup _ _) Hwired id self Hself Hphase Hthread)
    as [Hloop Hevent].
  assert (Hwait : VirtualModule.waiting (VirtualModule.tasks self) = true).
  { apply (reachable_kept awaiting_stop awaiting_stop_kept)
      with actions id; [intros [=] | exact Hself | exact Hphase
                        | exact Hloop]. }
  assert (Hatt : attended self).
  { apply (reachable_kept attended attended_kept) with actions id;
      [| exact Hself].
    split; [split; discriminate | discriminate]. }
  assert (Hlisten : VirtualModule.listening stopped = false)
    by now apply stopped_not_listening.
  eexists. split.
  { subst during.
    now apply (clean_stop_world id w self d1 d2 rest). }
  cbn [heap sys_modules clock records]. fold stopped.
  assert (Hlt : id < length (heap w)) by now apply lookup_lt_Some in Hself.
  split; [reflexivity |]. split.
  { unfold alive. cbn [heap]. now rewrite list_lookup_insert_eq. }
  split; [exact Hlisten |]. split; [| auto].
  unfold listeners. cbn [heap].
  pose proof (count_insert VirtualModule.listening (heap w) id _ stopped
                Hself) as Hc.
  rewrite Hlisten in Hc. lia.
Qed.

(** *** A start on a free port *)

(** A new object from its registration to the end of the task
    [server.start()], on a port that no listener holds. *)
Lemma started_world w :
  port_in_use w = false ->
  background (RunStart (length (heap w)) (Py.Ok tt))
    (background (Boot (length (heap w))) (register_and_start w))
  = mkWorld
      (<[MODULE_NAME := VirtualModuleObject (length (heap w))]>
         (sys_modules w))
      (heap w
         ++ [VirtualModule.mkVM (DAPGhidraServer.mkServer (Some true) true)
               true true true VirtualModule.Looping
               (VirtualModule.mkLoop false false false true true)])
      (handlers w) (level w)
      (records w
         ++ [Logging.mkLog Logging.INFO (Py.lit "Server thread started");
             Logging.mkLog Logging.INFO
               (Py.lit "DAP-Ghidra sync plugin loaded successfully");
             Logging.mkLog Logging.INFO (repeat 61%N 60);
             Logging.mkLog Logging.INFO
               (Py.lit "DAP-Ghidra Sync Server Started");
             Logging.mkLog Logging.INFO
               (Py.lit "Listening on 127.0.0.1:18888");
             Logging.mkLog Logging.INFO
               (Py.lit "Logging to: /tmp/dap-ghidra-server.log");
             Logging.mkLog Logging.INFO (repeat 61%N 60)])
      (clock w).
Proof.
  intros Hfree. destruct w as [m h hs lv rs cl].
  cbn [sys_modules heap handlers level records clock] in *.
  unfold register_and_start.
  cbn [sys_modules heap handlers level records clock].
  assert (Hlast : forall x : VirtualModule.t, (h ++ [x]) !! length h = Some x)
    by (intros x; now apply list_lookup_middle).
  assert (Hset : forall x y : VirtualModule.t,
             <[length h := y]> (h ++ [x]) = h ++ [y]).
  { intros x y. rewrite insert_app_r_alt by reflexivity.
    now rewrite Nat.sub_diag. }
  rewrite (update_world _ _ _ _ _ _ _ _ _ (Hlast _)), Hset.
  unfold emit. cbn [sys_modules heap handlers level records clock fst snd].
  cbn [background].
  rewrite (update_world _ _ _ _ _ _ _ _ _ (Hlast _)), Hset.
  match goal with
  | |- context [port_in_use ?w0] =>
      assert (Hport : port_in_use w0 = false)
  end.
  { unfold port_in_use in *. cbn [heap] in *. rewrite existsb_app, Hfree.
    reflexivity. }
  rewrite Hport.
  rewrite (update_world _ _ _ _ _ _ _ _ _ (Hlast _)), Hset.
  cbn. rewrite <- !app_assoc. reflexivity.
Qed.

(** Turns of [alive_task] while the stop event is not set: each logs
    "ALIVE" and changes nothing else. *)
Lemma beats_emit id w self n :
  heap w !! id = Some self ->
  VirtualModule.phase self = VirtualModule.Looping ->
  VirtualModule.beating (VirtualModule.tasks self) = true ->
  VirtualModule.event_set (VirtualModule.tasks self) = false ->
  Nat.iter n (background (Beat id)) w
  = emit (repeat (Logging.mkLog Logging.DEBUG (Py.lit "ALIVE")) n) w.
Proof.
  intros Hself Hphase Hbeat Hevent.
  assert (Hturn : forall out,
             background (Beat id) (emit out w)
             = emit (out ++ [Logging.mkLog Logging.DEBUG (Py.lit "ALIVE")])
                 w).
  { intros out. cbn [background].
    rewrite (update_at id _ (emit out w) self) by exact Hself.
    unfold VirtualModule.alive_task. rewrite Hphase, Hbeat, Hevent.
    cbn [fst snd emit sys_modules heap handlers level records clock].
    rewrite list_insert_id by exact Hself. now rewrite <- app_assoc. }
  induction n as [| n IH].
  - cbn [Nat.iter repeat]. unfold emit. rewrite app_nil_r. now destruct w.
  - rewrite Nat.iter_succ, IH, Hturn.
    now rewrite <- repeat_cons.
Qed.

(** A new object from its registration to the first lines of
    [run_event_loop]. *)
Lemma booted_world w :
  background (Boot (length (heap w))) (register_and_start w)
  = mkWorld
      (<[MODULE_NAME := VirtualModuleObject (length (heap w))]>
         (sys_modules w))
      (heap w
         ++ [VirtualModule.mkVM DAPGhidraServer.__init__
               true true true VirtualModule.Looping
               (VirtualModule.mkLoop false false true true true)])
      (handlers w) (level w)
      (records w
         ++ [Logging.mkLog Logging.INFO (Py.lit "Server thread started");
             Logging.mkLog Logging.INFO
               (Py.lit "DAP-Ghidra sync plugin loaded successfully")])
      (clock w).
Proof.
  destruct w as [m h hs lv rs cl].
  cbn [sys_modules heap handlers level records clock] in *.
  unfold register_and_start.
  cbn [sys_modules heap handlers level records clock].
  assert (Hlast : forall x : VirtualModule.t, (h ++ [x]) !! length h = Some x)
    by (intros x; now apply list_lookup_middle).
  assert (Hset : forall x y : VirtualModule.t,
             <[length h := y]> (h ++ [x]) = h ++ [y]).
  { intros x y. rewrite insert_app_r_alt by reflexivity.
    now rewrite Nat.sub_diag. }
  rewrite (update_world _ _ _ _ _ _ _ _ _ (Hlast _)), Hset.
  unfold emit. cbn [sys_modules heap handlers level records clock fst snd].
  cbn [background].
  rewrite (update_world _ _ _ _ _ _ _ _ _ (Hlast _)), Hset.
  cbn. rewrite <- !app_assoc. reflexivity.
Qed.

(** X19. The first run of the start script on a free port. With nothing
    registered under the module name and no listener on the port, the
    script gives the logger its two handlers and the level DEBUG, registers
    a new object and starts its thread; once the thread has entered its
    loop and, after any number of turns of the heartbeat, finished the task
    [server.start()] with the bind granted, the object is listening,
    [running] is set, and it is the only listener. *)
Theorem first_start_listens w during n :
  sys_modules w !! MODULE_NAME = None ->
  port_in_use w = false ->
  let id := length (heap w) in
  let w1 := snd (ghidra_start_goto_server during w) in
  let w2 :=
    background (RunStart id (Py.Ok tt))
      (Nat.iter n (background (Beat id)) (background (Boot id) w1)) in
  fst (ghidra_start_goto_server during w) = Py.Ok tt
  /\ handlers w2
     = handlers w ++ [FileHandler LOG_FILE; StreamHandler]
  /\ level w2 = Logging.DEBUG
  /\ sys_modules w2 !! MODULE_NAME = Some (VirtualModuleObject id)
  /\ heap w2
     = heap w
         ++ [VirtualModule.mkVM (DAPGhidraServer.mkServer (Some true) true)
               true true true VirtualModule.Looping
               (VirtualModule.mkLoop false false false true true)]
  /\ listeners w2 = 1.
Proof.
  intros Hnone Hfree id w1 w2.
  assert (Hzero : listeners w = 0) by now apply count_none.
  assert (Hscript :
    ghidra_start_goto_server during w
    = (Py.Ok tt,
       register_and_start
         (set_logger (handlers w ++ [FileHandler LOG_FILE; StreamHandler])
            Logging.DEBUG w))).
  { unfold ghidra_start_goto_server, stop_previous.
    cbn [sys_modules set_logger handlers level]. now rewrite Hnone. }
  subst w2 w1 id. rewrite Hscript. cbn [fst snd]. clear Hscript.
  pose proof (booted_world
                (set_logger
                   (handlers w ++ [FileHandler LOG_FILE; StreamHandler])
                   Logging.DEBUG w)) as Hboot.
  unfold set_logger in Hboot |- *.
  cbn [sys_modules heap handlers level records clock] in Hboot |- *.
  rewrite Hboot. clear Hboot.
  assert (Hlast : forall x : VirtualModule.t,
             (heap w ++ [x]) !! length (heap w) = Some x)
    by (intros x; now apply list_lookup_middle).
  assert (Hset : forall x y : VirtualModule.t,
             <[length (heap w) := y]> (heap w ++ [x]) = heap w ++ [y]).
  { intros x y. rewrite insert_app_r_alt by reflexivity.
    now rewrite Nat.sub_diag. }
  match goal with
  | |- context [Nat.iter n _ ?w0] =>
      rewrite (beats_emit (length (heap w)) w0 _ n (Hlast _) eq_refl eq_refl
                 eq_refl)
  end.
  unfold emit. cbn [sys_modules heap handlers level records clock].
  cbn [background].
  match goal with
  | |- context [port_in_use ?w0] =>
      assert (Hport : port_in_use w0 = false)
  end.
  { unfold port_in_use in *. cbn [heap] in *. rewrite existsb_app, Hfree.
    reflexivity. }
  rewrite Hport.
  rewrite (update_world _ _ _ _ _ _ _ _ _ (Hlast _)), Hset.
  cbn [sys_modules heap handlers level records clock fst snd].
  split; [reflexivity |]. split; [reflexivity |]. split; [reflexivity |].
  split; [apply lookup_insert_eq |]. split; [reflexivity |].
  unfold listeners in *. cbn [heap] in *. rewrite count_app, Hzero.
  reflexivity.
Qed.
(** X20. A restart. In a reachable world, take the registered object, its
    thread in its event loop and its server listening. When the start
    script is run again and the old loop handles the stop within the 5
    seconds, the script returns with a new object registered under the
    name; once the new thread has entered its loop and run
    [server.start()], the new object is listening and the old one is not,
    the old thread has returned, there is exactly one listener, and the
    logger has the handlers it had. *)
Theorem restart_moves_listener actions id self d1 d2 rest :
  let w := run actions boot in
  sys_modules w !! MODULE_NAME = Some (VirtualModuleObject id) ->
  heap w !! id = Some self ->
  VirtualModule.thread self = true ->
  VirtualModule.phase self = VirtualModule.Looping ->
  VirtualModule.starting (VirtualModule.tasks self) = false ->
  VirtualModule.listening self = true ->
  (0 <= d1)%Q -> (0 <= d2)%Q -> (d1 + d2 <= 5)%Q ->
  let during := (d1, RunPosted id) :: (d2, RunStop id) :: rest in
  let id' := length (heap w) in
  let w1 := snd (ghidra_start_goto_server during w) in
  let w2 := background (RunStart id' (Py.Ok tt)) (background (Boot id') w1) in
  fst (ghidra_start_goto_server during w) = Py.Ok tt
  /\ sys_modules w2 !! MODULE_NAME = Some (VirtualModuleObject id')
  /\ (exists old,
        heap w2 !! id = Some old
        /\ VirtualModule.listening old = false
        /\ VirtualModule.is_alive old = false)
  /\ heap w2 !! id'
     = Some (VirtualModule.mkVM (DAPGhidraServer.mkServer (Some true) true)
               true true true VirtualModule.Looping
               (VirtualModule.mkLoop false false false true true))
  /\ listeners w2 = 1
  /\ handlers w2 = handlers w
  /\ clock w2 = (clock w + d1 + d2)%Q.
Proof.
  intros w Hreg Hself Hthread Hphase Hstart Hlisten Hd1 Hd2 Hsum during id'
    w1 w2.
  pose proof (reachable_wired actions) as Hwired. fold w in Hwired.
  destruct (proj1 (Forall_lookup _ _) Hwired id self Hself Hphase Hthread)
    as [Hloop Hevent].
  assert (Hwait : VirtualModule.waiting (VirtualModule.tasks self) = true).
  { apply (reachable_kept awaiting_stop awaiting_stop_kept)
      with actions id; [intros [=] | exact Hself | exact Hphase
                        | exact Hloop]. }
  assert (Hatt : attended self).
  { apply (reachable_kept attended attended_kept) with actions id;
      [| exact Hself].
    split; [split; discriminate | discriminate]. }
  destruct (reachable_sound actions) as [Hone _]. fold w in Hone.
  set (stopped :=
         VirtualModule.mkVM
           (fst (DAPGhidraServer.stop (VirtualModule.server self)))
           false false true VirtualModule.Exited
           (VirtualModule.mkLoop true false false false
              (VirtualModule.beating (VirtualModule.tasks self)))).
  assert (Hquiet : VirtualModule.listening stopped = false)
    by now apply stopped_not_listening.
  assert (Hlt : id < length (heap w)) by now apply lookup_lt_Some in Hself.
  assert (Hfree : existsb VirtualModule.listening (<[id := stopped]> (heap w))
                  = false).
  { apply count_existsb.
    pose proof (count_insert VirtualModule.listening (heap w) id _ stopped
                  Hself) as Hc.
    rewrite Hquiet, Hlisten in Hc. unfold listeners in Hone. lia. }
  set (opened :=
         emit [Logging.mkLog Logging.INFO
                 (Py.lit "Stopping previous server instance...")]
           (set_logger (handlers w) Logging.DEBUG w)).
  pose proof (clean_stop_world id opened self d1 d2 rest Hself Hthread
                Hphase Hloop Hevent Hwait Hstart Hd1 Hd2 Hsum) as Hstop.
  fold during stopped in Hstop.
  cbn [opened sys_modules heap handlers level records clock emit set_logger]
    in Hstop.
  assert (Hscript :
    ghidra_start_goto_server during w
    = (Py.Ok tt,
       register_and_start
         (mkWorld (delete MODULE_NAME (sys_modules w))
            (<[id := stopped]> (heap w)) (handlers w) Logging.DEBUG
            (records opened
               ++ [Logging.mkLog Logging.INFO (Py.lit "Stopping server...")]
               ++ snd (DAPGhidraServer.stop (VirtualModule.server self))
               ++ [Logging.mkLog Logging.DEBUG (Py.lit "Event loop closed");
                   Logging.mkLog Logging.INFO
                     (Py.lit "Server thread stopped")])
            (clock w + d1 + d2)%Q))).
  { unfold ghidra_start_goto_server, stop_previous.
    cbn [sys_modules set_logger]. rewrite Hreg. fold opened.
    rewrite Hstop. reflexivity. }
  subst w2 w1. rewrite Hscript. cbn [fst snd].
  assert (Hid' : id' = length (<[id := stopped]> (heap w)))
    by (subst id'; now rewrite length_insert).
  rewrite Hid'.
  match goal with
  | |- context [register_and_start ?w0] =>
      pose proof (started_world w0 Hfree) as Hst
  end.
  cbn [sys_modules heap handlers level records clock] in Hst.
  rewrite Hst. cbn [sys_modules heap handlers level records clock].
  split; [reflexivity |]. split; [apply lookup_insert_eq |]. split.
  { exists stopped. split; [| split; [exact Hquiet | reflexivity]].
    rewrite lookup_app_l by (now rewrite length_insert).
    now apply list_lookup_insert_eq. }
  split; [now apply list_lookup_middle |]. split; [| auto].
  unfold listeners. cbn [heap]. rewrite count_app.
  rewrite (count_none _ _ Hfree). reflexivity.
Qed.

(** *** The heartbeat *)

Lemma update_same id f w self :
  heap w !! id = Some self -> f self = (self, []) -> update id f w = w.
Proof.
  intros Hself Hf. rewrite (update_at id f w self Hself), Hf.
  cbn [fst snd]. rewrite list_insert_id by exact Hself.
  rewrite app_nil_r. now destruct w.
Qed.

(** X21. The heartbeat goes on until a stop is signalled. In every world
    the scripts and the threads reach, a thread that is in its event loop
    and whose stop event is not set has its task [alive_task] in the
    [while] loop: however many turns the loop gives it, each logs "ALIVE"
    and nothing else changes. Once the event is set, the turns that follow
    log "STOPPED" at most once, at the first of them, and change nothing
    after it. *)
Theorem heartbeat_until_stopped actions id self n :
  let w := run actions boot in
  heap w !! id = Some self ->
  VirtualModule.phase self = VirtualModule.Looping ->
  (VirtualModule.event_set (VirtualModule.tasks self) = false ->
   Nat.iter n (background (Beat id)) w
   = emit (repeat (Logging.mkLog Logging.DEBUG (Py.lit "ALIVE")) n) w)
  /\ (VirtualModule.event_set (VirtualModule.tasks self) = true ->
      records (background (Beat id) w)
      = records w
          ++ (if VirtualModule.beating (VirtualModule.tasks self)
              then [Logging.mkLog Logging.INFO (Py.lit "STOPPED")]
              else [])
      /\ Nat.iter (S n) (background (Beat id)) w = background (Beat id) w).
Proof.
  intros w Hself Hphase. split; intros Hevent.
  - apply beats_emit with self; try assumption.
    apply (reachable_kept beating_until_set beating_until_set_kept)
      with actions id; try assumption.
    intros [=].
  - assert (Hturn :
      VirtualModule.alive_task self
      = (VirtualModule.mkVM (VirtualModule.server self)
           (VirtualModule.loop self) (VirtualModule.thread self)
           (VirtualModule.stop_event self) VirtualModule.Looping
           (VirtualModule.mkLoop true
              (VirtualModule.posted (VirtualModule.tasks self))
              (VirtualModule.starting (VirtualModule.tasks self))
              (VirtualModule.waiting (VirtualModule.tasks self)) false),
         if VirtualModule.beating (VirtualModule.tasks self)
         then [Logging.mkLog Logging.INFO (Py.lit "STOPPED")]
         else [])).
    { unfold VirtualModule.alive_task. rewrite Hphase, Hevent.
      destruct self as [sv lp th ev ph [es po st wa be]].
      cbn in *. subst. now destruct be. }
    split.
    + cbn [background]. rewrite (update_records id _ w self Hself).
      now rewrite Hturn.
    + induction n as [| n IH]; [reflexivity |].
      rewrite Nat.iter_succ, IH. cbn [background].
      apply update_same with (self := fst (VirtualModule.alive_task self)).
      * now apply update_lookup.
      * rewrite Hturn. reflexivity.
Qed.

(** *** The logger *)

(** X22. The handlers are installed once. In every world the scripts and
    the threads reach, the logger has no handler, or the one of the stop
    script, or the two of the start script, or the three of them when the
    stop script was run before the first start (stdout then shows every
    record twice); the file handler is there exactly when an object is
    registered under the module name, and from then on the level is
    DEBUG. *)
Theorem handlers_installed_once actions :
  let w := run actions boot in
  installed (handlers w)
  /\ (In (FileHandler LOG_FILE) (handlers w)
      <-> sys_modules w !! MODULE_NAME <> None)
  /\ (sys_modules w !! MODULE_NAME <> None -> level w = Logging.DEBUG).
Proof.
  set (good := fun w : World =>
         installed (handlers w)
         /\ (In (FileHandler LOG_FILE) (handlers w)
             <-> sys_modules w !! MODULE_NAME <> None)
         /\ (sys_modules w !! MODULE_NAME <> None ->
             level w = Logging.DEBUG)).
  assert (Hsame : forall w w',
             handlers w' = handlers w -> level w' = level w ->
             sys_modules w' = sys_modules w -> good w -> good w').
  { intros w w' Hh Hl Hm. unfold good. now rewrite Hh, Hl, Hm. }
  assert (Hreg : forall w,
             installed (handlers w) ->
             In (FileHandler LOG_FILE) (handlers w) ->
             level w = Logging.DEBUG ->
             good (register_and_start w)).
  { intros w Hi Hin Hl. unfold register_and_start.
    match goal with
    | |- good (emit _ (update ?i ?f ?w0)) =>
        destruct (update_handlers i f w0) as [Hh Hlv];
        pose proof (update_modules i f w0) as Hm
    end.
    unfold good. cbn [handlers level sys_modules emit].
    rewrite Hh, Hlv, Hm. cbn [handlers level sys_modules].
    split; [exact Hi |]. rewrite lookup_insert_eq.
    split; [split; [discriminate | auto] | auto]. }
  assert (Hact : forall w a, good w -> good (act w a)).
  { intros w a Hw. destruct a as [during | during | s]; cbn [act].
    - unfold ghidra_start_goto_server, stop_previous.
      cbn [sys_modules set_logger handlers level].
      destruct Hw as (Hi & Hiff & Hlv).
      destruct (sys_modules w !! MODULE_NAME) as [old |] eqn:Hold.
      + assert (Hin : In (FileHandler LOG_FILE) (handlers w))
          by (apply Hiff; discriminate).
        destruct old as [id | missing].
        * match goal with
          | |- context [stop_server id during ?w0] =>
              destruct (stop_server_handlers id during w0)
                as (Hh & Hl & Hm);
              destruct (stop_server id during w0) as [[[] | e] w1]
          end; unfold emit, set_logger in Hh, Hl, Hm;
            cbn [snd handlers level sys_modules] in *.
          -- apply Hreg; unfold set_modules; cbn [handlers level];
               rewrite ?Hh, ?Hl; auto.
          -- unfold good. rewrite Hh, Hl, Hm, Hold.
             split; [exact Hi |]. split; [split; [discriminate | auto] |].
             auto.
        * cbn [snd]. apply Hreg; unfold set_modules, emit, set_logger;
            cbn [handlers level]; auto.
      + cbn [snd].
        assert (Hnot : ~ In (FileHandler LOG_FILE) (handlers w))
          by (intros Hin; now apply Hiff in Hin).
        apply Hreg; unfold set_logger; cbn [handlers level];
          [| apply in_or_app; right; now left | reflexivity].
        destruct Hi as [-> | [-> | [E | E]]]; unfold installed; cbn; auto;
          rewrite E in Hnot; cbn in Hnot; tauto.
    - unfold ghidra_stop_goto_server.
      set (w0 := match handlers w with [] => _ | _ => w end).
      assert (Hw0 : good w0).
      { subst w0. destruct (handlers w) eqn:E; [| exact Hw].
        destruct Hw as (Hi & Hiff & Hlv). rewrite E in Hiff.
        unfold good, set_logger. cbn [handlers level sys_modules].
        split; [unfold installed; auto |].
        assert (Hnone : sys_modules w !! MODULE_NAME = None).
        { destruct (sys_modules w !! MODULE_NAME) eqn:Em; [| reflexivity].
          destruct (proj2 Hiff); discriminate. }
        rewrite Hnone. split; [| congruence].
        split; [| congruence]. intros [[=] | []]. }
      destruct (sys_modules w0 !! MODULE_NAME) as [[id | missing] |];
        cbn [snd]; [| exact Hw0 | exact Hw0].
      destruct (stop_server_handlers id during w0) as (Hh & Hl & Hm).
      exact (Hsame _ _ Hh Hl Hm Hw0).
    - destruct (background_handlers s w) as [Hh Hl].
      exact (Hsame _ _ Hh Hl (background_modules s w) Hw). }
  assert (Hrun : forall w, good w -> good (run actions w)).
  { induction actions as [| a actions IH]; intros w Hw; [exact Hw |].
    cbn. apply IH, Hact, Hw. }
  apply Hrun. unfold good, boot, installed. cbn. rewrite lookup_empty.
  split; [auto |]. split; [| congruence]. split; [tauto | congruence].
Qed.

(** *** The stop script, twice *)

(** X23. The stop script leaves the registry as it is, so a second run
    finds the same object, and [stop_server] has cleared [self.thread]:
    after a run of the stop script that returned, with an object
    registered, every further run only warns "Server not running". *)
Theorem stop_script_twice during during' w id self :
  sys_modules w !! MODULE_NAME = Some (VirtualModuleObject id) ->
  heap w !! id = Some self ->
  fst (ghidra_stop_goto_server during w) = Py.Ok tt ->
  let w1 := snd (ghidra_stop_goto_server during w) in
  sys_modules w1 = sys_modules w
  /\ ghidra_stop_goto_server during' w1
     = (Py.Ok tt,
        emit [Logging.mkLog Logging.WARNING (Py.lit "Server not running")]
          w1).
Proof.
  intros Hreg Hself Hok w1.
  assert (Hnext : forall w0 w',
             sys_modules w0 = sys_modules w -> heap w0 = heap w ->
             handlers w0 <> [] ->
             stop_server id during w0 = (Py.Ok tt, w') ->
             sys_modules w' = sys_modules w
             /\ ghidra_stop_goto_server during' w'
                = (Py.Ok tt,
                   emit [Logging.mkLog Logging.WARNING
                           (Py.lit "Server not running")] w')).
  { intros w0 w' Hm Hh Hhs Hstop.
    destruct (stop_server_handlers id during w0) as (Hh' & _ & Hm').
    rewrite Hstop in Hh', Hm'. cbn [snd] in Hh', Hm'.
    split; [congruence |].
    rewrite (stop_script_with_server during' w' id)
      by (rewrite ?Hm', ?Hm, ?Hh'; auto).
    revert Hstop. unfold stop_server at 1. rewrite Hh, Hself.
    destruct (negb (VirtualModule.thread self)
              || negb (VirtualModule.is_alive self)) eqn:Hdown.
    - intros [= <-]. unfold stop_server. cbn [heap emit].
      now rewrite Hh, Hself, Hdown.
    - destruct (negb (VirtualModule.loop self)); [discriminate |].
      destruct (negb (VirtualModule.stop_event self)); [discriminate |].
      intros [= <-].
      match goal with
      | |- stop_server id during'
             (update id ?f (emit ?o (join id ?q during ?wj))) = _ =>
          assert (Hx : exists x, heap (emit o (join id q during wj)) !! id
                                 = Some x)
      end.
      { apply lookup_lt_is_Some. cbn [heap emit].
        rewrite join_length, update_length. cbn [heap emit].
        rewrite Hh. now apply lookup_lt_Some in Hself. }
      destruct Hx as (x & Hx).
      match goal with
      | |- stop_server id during' ?wr = _ =>
          apply (proj1 (stop_server_steps id during' wr
                          (VirtualModule.release x)
                          (update_lookup id _ _ x Hx)))
      end.
      reflexivity. }
  set (w0 := match handlers w with
             | [] => set_logger [StreamHandler] Logging.INFO w
             | _ :: _ => w
             end).
  assert (Hw0 : sys_modules w0 = sys_modules w /\ heap w0 = heap w
                /\ handlers w0 <> []).
  { subst w0. destruct (handlers w) eqn:Hhs; cbn; rewrite ?Hhs; now auto. }
  destruct Hw0 as (Hm0 & Hh0 & Hhs0).
  assert (Hfirst : ghidra_stop_goto_server during w
                   = stop_server id during w0).
  { unfold ghidra_stop_goto_server. fold w0. now rewrite Hm0, Hreg. }
  subst w1. rewrite Hfirst in *.
  destruct (stop_server id during w0) as [[[] | e] w'] eqn:Hstop;
    [| discriminate Hok].
  cbn [snd]. exact (Hnext w0 w' Hm0 Hh0 Hhs0 Hstop).
Qed.

End Objects.

(** ** The life cycle on example runs *)

Import Interpreter Scripts.

Lemma stop_server_behaviour_witness :
  let w :=
    run [StartScript []; Background (Boot 0);
         Background (RunStart 0 (Ok tt)); Background (Beat 0)] boot in
  let during := [((1 # 2)%Q, RunPosted 0); ((1 # 10)%Q, RunStop 0)] in
  exists signalled waited,
    signalled
    = update 0 (fun self => (VirtualModule.post_stop self, []))
        (emit [mkLog INFO (lit "Stopping server...")] w)
    /\ (exists self', heap signalled !! 0 = Some self'
        /\ VirtualModule.posted (VirtualModule.tasks self') = true)
    /\ waited = join 0 5 during signalled
    /\ (clock w <= clock waited)%Q
    /\ (clock waited <= clock w + 5)%Q
    /\ (alive 0 waited = true -> (clock waited == clock w + 5)%Q)
    /\ stop_server 0 during w
       = (Ok tt,
          update 0 (fun self => (VirtualModule.release self, []))
            (emit [stop_report (alive 0 waited)] waited)).
Proof.
  intros w during.
  apply (stop_server_behaviour
           [StartScript []; Background (Boot 0);
            Background (RunStart 0 (Ok tt)); Background (Beat 0)]
           0 during
           (VirtualModule.mkVM (DAPGhidraServer.mkServer (Some true) true)
              true true true VirtualModule.Looping
              (VirtualModule.mkLoop false false false true true))).
  - vm_compute. reflexivity.
  - reflexivity.
  - reflexivity.
Defined.

(** On that run the thread returns within the wait and the stop is
    reported clean. *)
Lemma clean_stop_example :
  let w :=
    run [StartScript []; Background (Boot 0);
         Background (RunStart 0 (Ok tt)); Background (Beat 0)] boot in
  let during := [((1 # 2)%Q, RunPosted 0); ((1 # 10)%Q, RunStop 0)] in
  let w' := snd (stop_server 0 during w) in
  alive 0 w' = false /\ listeners w' = 0
  /\ records w'
     = records w
         ++ [mkLog INFO (lit "Stopping server...");
             mkLog INFO (lit "Server stopped");
             mkLog DEBUG (lit "Event loop closed");
             mkLog INFO (lit "Server thread stopped")].
Proof. vm_compute. auto. Qed.

Lemma failed_start_keeps_looping_witness :
  let w := run [StartScript []; Background (Boot 0)] boot in
  let w1 := background (RunStart 0 (Raise address_in_use)) w in
  records w1
  = records w
      ++ [mkLog ERROR
            (lit "Failed to start server: " ++ exn_str address_in_use)]
  /\ sys_modules w1 = sys_modules w
  /\ (exists self1,
        heap w1 !! 0 = Some self1
        /\ DAPGhidraServer.running (VirtualModule.server self1) = false
        /\ DAPGhidraServer.server (VirtualModule.server self1) = None
        /\ VirtualModule.is_alive self1 = true)
  /\ forall steps,
       alive 0 (fold_left (fun w s => background s w) steps w1) = true.
Proof.
  intros w.
  apply (failed_start_keeps_looping 0 w
           (VirtualModule.mkVM DAPGhidraServer.__init__ true true true
              VirtualModule.Looping
              (VirtualModule.mkLoop false false true true true))
           (Raise address_in_use) address_in_use).
  - vm_compute. reflexivity.
  - vm_compute. auto.
  - vm_compute. reflexivity.
Defined.

(** C8 as stated fails: after the bind error the service is not running,
    yet the thread is alive and [alive_task] goes on logging. *)
Lemma failed_start_still_beating :
  let w :=
    run [StartScript []; Background (Boot 0);
         Background (RunStart 0 (Raise address_in_use));
         Background (Beat 0); Background (Beat 0)] boot in
  heap w !! 0
  = Some (VirtualModule.mkVM (DAPGhidraServer.mkServer None false)
            true true true VirtualModule.Looping
            (VirtualModule.mkLoop false false false true true))
  /\ alive 0 w = true
  /\ records w
     = [mkLog INFO (lit "Server thread started");
        mkLog INFO (lit "DAP-Ghidra sync plugin loaded successfully");
        mkLog ERROR
          (lit "Failed to start server: " ++ exn_str address_in_use);
        mkLog DEBUG (lit "ALIVE"); mkLog DEBUG (lit "ALIVE")].
Proof. vm_compute. auto. Qed.

(** C9 as stated fails. The stop script is run when the start script has
    just returned and the new thread has not yet reached line 217: the
    object is registered and its thread is alive, so the service is not
    "not running"; yet [self.loop] is still [None] and line 252 raises.
    Nothing is posted to the thread, no time is spent waiting, no report
    follows "Stopping server...", and the thread is still alive. *)
Lemma stop_before_loop_raises :
  let w := run [StartScript []] boot in
  let stopped := ghidra_stop_goto_server [] w in
  sys_modules w !! MODULE_NAME = Some (VirtualModuleObject 0)
  /\ alive 0 w = true
  /\ (VirtualModule.thread <$> heap w !! 0) = Some true
  /\ stopped = stop_server 0 [] w
  /\ fst stopped = Raise (no_attribute VNone "call_soon_threadsafe")
  /\ records (snd stopped)
     = records w ++ [mkLog INFO (lit "Stopping server...")]
  /\ heap (snd stopped) = heap w
  /\ (clock (snd stopped) == clock w)%Q
  /\ alive 0 (snd stopped) = true.
Proof. vm_compute. repeat split; reflexivity. Qed.

(** A second run of the start script while the first thread does not
    answer within the wait: the old listener still holds the port, the new
    object is registered and its bind is refused. *)
Lemma restart_on_timeout_example :
  let w :=
    run [StartScript []; Background (Boot 0);
         Background (RunStart 0 (Ok tt)); StartScript [];
         Background (Boot 1); Background (RunStart 1 (Ok tt))] boot in
  sys_modules w !! MODULE_NAME = Some (VirtualModuleObject 1)
  /\ listeners w = 1
  /\ (VirtualModule.listening <$> heap w) = [true; false]
  /\ (clock w == 5)%Q.
Proof. vm_compute. auto. Qed.

(** ** Objects through the life cycle: example runs *)



Lemma clean_stop_releases_port_witness :
  let w :=
    run [StartScript []; Background (Boot 0);
         Background (RunStart 0 (Ok tt))] boot in
  let during := [((1 # 2)%Q, RunPosted 0); ((1 # 10)%Q, RunStop 0)] in
  exists w',
    stop_server 0 during w = (Ok tt, w')
    /\ alive 0 w' = false
    /\ listeners w' + 1 = listeners w
    /\ sys_modules w' = sys_modules w
    /\ clock w' = (clock w + (1 # 2) + (1 # 10))%Q.
Proof.
  intros w during.
  destruct (clean_stop_releases_port
              [StartScript []; Background (Boot 0);
               Background (RunStart 0 (Ok tt))] 0
              (VirtualModule.mkVM (DAPGhidraServer.mkServer (Some true) true)
                 true true true VirtualModule.Looping
                 (VirtualModule.mkLoop false false false true true))
              (1 # 2)%Q (1 # 10)%Q [])
    as (w' & Hstop & _ & Halive & _ & Hl & Hm & Hc & _).
  - vm_compute. reflexivity.
  - reflexivity.
  - reflexivity.
  - reflexivity.
  - vm_compute. discriminate.
  - vm_compute. discriminate.
  - vm_compute. discriminate.
  - exists w'. auto.
Defined.

Lemma first_start_listens_witness :
  let w1 := snd (ghidra_start_goto_server [] boot) in
  let w2 :=
    background (RunStart 0 (Ok tt))
      (Nat.iter 2 (background (Beat 0)) (background (Boot 0) w1)) in
  handlers w2 = [FileHandler LOG_FILE; StreamHandler]
  /\ level w2 = DEBUG
  /\ sys_modules w2 !! MODULE_NAME = Some (VirtualModuleObject 0)
  /\ listeners w2 = 1.
Proof.
  intros w1 w2.
  destruct (first_start_listens boot [] 2) as (_ & Hh & Hl & Hm & _ & Hn).
  - reflexivity.
  - reflexivity.
  - auto.
Defined.

Lemma stop_script_twice_witness :
  let w :=
    run [StartScript []; Background (Boot 0);
         Background (RunStart 0 (Ok tt))] boot in
  let during := [((1 # 2)%Q, RunPosted 0); ((1 # 10)%Q, RunStop 0)] in
  let w1 := snd (ghidra_stop_goto_server during w) in
  sys_modules w1 = sys_modules w
  /\ ghidra_stop_goto_server [] w1
     = (Ok tt, emit [mkLog WARNING (lit "Server not running")] w1).
Proof.
  intros w during.
  apply (stop_script_twice during [] w 0
           (VirtualModule.mkVM (DAPGhidraServer.mkServer (Some true) true)
              true true true VirtualModule.Looping
              (VirtualModule.mkLoop false false false true true))).
  - vm_compute. reflexivity.
  - vm_compute. reflexivity.
  - vm_compute. reflexivity.
Defined.

Lemma restart_moves_listener_witness :
  let w :=
    run [StartScript []; Background (Boot 0);
         Background (RunStart 0 (Ok tt))] boot in
  let during := [((1 # 2)%Q, RunPosted 0); ((1 # 10)%Q, RunStop 0)] in
  let w1 := snd (ghidra_start_goto_server during w) in
  let w2 := background (RunStart 1 (Ok tt)) (background (Boot 1) w1) in
  sys_modules w2 !! MODULE_NAME = Some (VirtualModuleObject 1)
  /\ (VirtualModule.listening <$> heap w2) = [false; true]
  /\ listeners w2 = 1.
Proof.
  intros w during w1 w2.
  destruct (restart_moves_listener
              [StartScript []; Background (Boot 0);
               Background (RunStart 0 (Ok tt))] 0
              (VirtualModule.mkVM (DAPGhidraServer.mkServer (Some true) true)
                 true true true VirtualModule.Looping
                 (VirtualModule.mkLoop false false false true true))
              (1 # 2)%Q (1 # 10)%Q [])
    as (_ & Hm & _ & _ & Hl & _).
  - vm_compute. reflexivity.
  - vm_compute. reflexivity.
  - reflexivity.
  - reflexivity.
  - reflexivity.
  - reflexivity.
  - vm_compute. discriminate.
  - vm_compute. discriminate.
  - vm_compute. discriminate.
  - split; [exact Hm |]. split; [vm_compute; reflexivity | exact Hl].
Defined.

Lemma heartbeat_until_stopped_witness :
  let w :=
    run [StartScript []; Background (Boot 0);
         Background (RunStart 0 (Ok tt))] boot in
  Nat.iter 3 (background (Beat 0)) w
  = emit (repeat (mkLog DEBUG (lit "ALIVE")) 3) w.
Proof.
  intros w. subst w.
  destruct (heartbeat_until_stopped
              [StartScript []; Background (Boot 0);
               Background (RunStart 0 (Ok tt))] 0
              (VirtualModule.mkVM (DAPGhidraServer.mkServer (Some true) true)
                 true true true VirtualModule.Looping
                 (VirtualModule.mkLoop false false false true true)) 3)
    as [Halive _].
  - vm_compute. reflexivity.
  - reflexivity.
  - exact (Halive eq_refl).
Defined.
